(** * Kraken trading bot: a shallow embedding of the exchange client, the
      strategy engine and the execution controller, with the properties
      stated about them.

    Source files: [src/exchange_api.py], [src/strategy.py], [src/bot.py].

    Conventions of the embedding.
    - Python [int] is [Z].
    - Python and numpy floats are exact rationals extended with the IEEE
      special values (+inf, -inf, NaN): [Py.pyfloat].  Rounding and the sign
      of zero are not modelled; the special values are, because the code
      relies on them (pandas divides by zero without raising).
    - [time.time()] is a finite number of seconds, a [Q].
    - A Python [dict] used as a map is a [gmap]; a DataFrame is the list of
      its rows, oldest first.
    - A function that may raise returns an [Py.outcome]; a method that
      mutates [self] returns the new [self] next to its outcome. *)

From Stdlib Require Import ZArith QArith Qround Qreduction Lqa Lia.
From Stdlib Require Import String Ascii List Sorted.
From Stdlib Require Import DecimalString DecimalZ DecimalPos.
From Equations Require Import Equations.
From stdpp Require Import gmap strings list.

Open Scope Z_scope.

(* ===================================================================== *)
(** * Part I: the model                                                   *)
(* ===================================================================== *)

(** ** Python values *)

Module Py.

(** Floats: a rational, or one of the three IEEE special values. *)
Inductive pyfloat :=
| Fin (q : Q)
| PInf
| NInf
| NaN.

Definition fneg (x : pyfloat) : pyfloat :=
  match x with
  | Fin q => Fin (Qred (- q))
  | PInf => NInf
  | NInf => PInf
  | NaN => NaN
  end.

Definition fadd (x y : pyfloat) : pyfloat :=
  match x, y with
  | NaN, _ | _, NaN => NaN
  | Fin a, Fin b => Fin (Qred (a + b))
  | PInf, NInf | NInf, PInf => NaN
  | PInf, _ | _, PInf => PInf
  | NInf, _ | _, NInf => NInf
  end.

Definition fsub (x y : pyfloat) : pyfloat := fadd x (fneg y).

(** The infinity whose sign is the sign of [q]; NaN for zero. *)
Definition inf_signed (q : Q) (pos neg : pyfloat) : pyfloat :=
  match (q ?= 0)%Q with
  | Gt => pos
  | Lt => neg
  | Eq => NaN
  end.

Definition fmul (x y : pyfloat) : pyfloat :=
  match x, y with
  | NaN, _ | _, NaN => NaN
  | Fin a, Fin b => Fin (Qred (a * b))
  | Fin a, PInf | PInf, Fin a => inf_signed a PInf NInf
  | Fin a, NInf | NInf, Fin a => inf_signed a NInf PInf
  | PInf, PInf | NInf, NInf => PInf
  | PInf, NInf | NInf, PInf => NInf
  end.

(** IEEE division, as numpy and pandas perform it: a zero divisor gives an
    infinity, or NaN for 0/0; nothing is raised. *)
Definition fdiv (x y : pyfloat) : pyfloat :=
  match x, y with
  | NaN, _ | _, NaN => NaN
  | Fin a, Fin b =>
      if Qeq_bool b 0 then inf_signed a PInf NInf else Fin (Qred (a / b))
  | Fin _, PInf | Fin _, NInf => Fin 0
  | PInf, Fin b => match (b ?= 0)%Q with Lt => NInf | _ => PInf end
  | NInf, Fin b => match (b ?= 0)%Q with Lt => PInf | _ => NInf end
  | _, _ => NaN
  end.

(** Comparisons; every comparison with NaN is false. *)
Definition fcompare (x y : pyfloat) : option comparison :=
  match x, y with
  | NaN, _ | _, NaN => None
  | Fin a, Fin b => Some (a ?= b)%Q
  | PInf, PInf | NInf, NInf => Some Eq
  | PInf, _ | _, NInf => Some Gt
  | NInf, _ | _, PInf => Some Lt
  end.

Definition flt (x y : pyfloat) : bool :=
  match fcompare x y with Some Lt => true | _ => false end.
Definition fgt (x y : pyfloat) : bool := flt y x.
Definition fle (x y : pyfloat) : bool :=
  match fcompare x y with Some Lt | Some Eq => true | _ => false end.
Definition fge (x y : pyfloat) : bool := fle y x.
Definition feq (x y : pyfloat) : bool :=
  match fcompare x y with Some Eq => true | _ => false end.

Definition is_nan (x : pyfloat) : bool :=
  match x with NaN => true | _ => false end.

(** The builtins [min(a, b)] and [max(a, b)]: the first argument unless the
    second is strictly smaller (larger). *)
Definition min (a b : pyfloat) : pyfloat := if flt b a then b else a.
Definition max (a b : pyfloat) : pyfloat := if fgt b a then b else a.

(** [int(x)] on a finite float truncates toward zero. *)
Definition int_of_float (q : Q) : Z := Z.quot (Qnum q) (Zpos (Qden q)).

(** [str(n)] and [int(s)] on integers, in decimal. *)
Definition str (n : Z) : string := NilZero.string_of_int (Z.to_int n).
Definition int_of_str (s : string) : option Z :=
  Z.of_int <$> NilZero.int_of_string s.

(** [needle in haystack] on strings. *)
Fixpoint contains (needle haystack : string) : bool :=
  String.prefix needle haystack ||
  match haystack with
  | EmptyString => false
  | String _ rest => contains needle rest
  end.

(** Exceptions carry their message. *)
Inductive exn :=
| Exception (msg : string)
| TypeError (msg : string)
| ValueError (msg : string)
| KeyError (key : string).

Inductive outcome (A : Type) :=
| Return (a : A)
| Raise (e : exn).
Arguments Return {A} a.
Arguments Raise {A} e.

Definition returned {A} (o : outcome A) : bool :=
  match o with Return _ => true | Raise _ => false end.

(** A dynamically typed operand, for the places where the code applies an
    operator to a value of the wrong type. *)
Inductive pyval :=
| PyFloat (x : pyfloat)
| PyStr (s : string).

(** [item in container]: substring test on a string; a float is not
    iterable and the test raises [TypeError]. *)
Definition py_in (item : string) (container : pyval) : outcome bool :=
  match container with
  | PyStr s => Return (contains item s)
  | PyFloat _ => Raise (TypeError "argument of type 'float' is not iterable")
  end.

End Py.

Import Py.

(** ** exchange_api.py: KrakenNonceManager *)

Module KrakenNonceManager.

Record t := { last_nonce : Z }.

Definition __init__ : t := {| last_nonce := 0 |}.

(** [get_nonce]; [now] is the value [time.time()] returns inside the call.
    The body runs under [self.lock], hence atomically. *)
Definition get_nonce (now : Q) (self : t) : string * t :=
  let nonce := int_of_float (now * 1000) in
  let nonce := if nonce <=? last_nonce self then last_nonce self + 1 else nonce in
  (str nonce, {| last_nonce := nonce |}).

(** Successive calls, one clock reading each. *)
Fixpoint get_nonces (clock : list Q) (self : t) : list string * t :=
  match clock with
  | [] => ([], self)
  | now :: rest =>
      let '(n, self) := get_nonce now self in
      let '(ns, self) := get_nonces rest self in
      (n :: ns, self)
  end.

End KrakenNonceManager.

(** ** exchange_api.py: KrakenExchange *)

Module KrakenExchange.

(** *** Symbol translation *)

(** [kraken_map], the alias table of [_convert_symbol_to_kraken]. *)
Definition kraken_entries : list (string * string) :=
  [("BTC", "XBT"); ("USDT", "USD"); ("USDC", "USD")].

Definition kraken_map : gmap string string := list_to_map kraken_entries.

(** [s.split(sep)] for a one-character separator. *)
Fixpoint split (sep : ascii) (s : string) : list string :=
  match s with
  | EmptyString => [EmptyString]
  | String c rest =>
      if Ascii.eqb c sep then EmptyString :: split sep rest
      else match split sep rest with
           | head :: tail => String c head :: tail
           | [] => [String c EmptyString]
           end
  end.

(** [_convert_symbol_to_kraken]; the unpacking [base, quote = ...] raises
    unless the split has exactly two parts. *)
Definition _convert_symbol_to_kraken (symbol : string) : outcome string :=
  match split "/" symbol with
  | [base; quote] =>
      let base := default base (kraken_map !! base) in
      let quote := default quote (kraken_map !! quote) in
      Return (base ++ quote)%string
  | _ => Raise (ValueError "wrong number of values to unpack (expected 2)")
  end.

(** The conversion of one currency key in the loop of [get_balance]. *)
Definition balance_currency (currency : string) : string :=
  if String.prefix "Z" currency then
    match currency with
    | String _ rest => rest
    | EmptyString => EmptyString
    end
  else if String.eqb currency "XXBT" then "BTC"
  else currency.

(** *** Requests *)

(** JSON values of a response. *)
#[local] Unset Elimination Schemes.
Inductive json :=
| JNull
| JStr (s : string)
| JNum (q : Q)
| JList (items : list json)
| JDict (items : list (string * json)).
#[local] Set Elimination Schemes.

(** The decoded body: [error] is [result.get("error")] (absent reads as
    the empty list), [result] is the "result" member when present. *)
Record body := {
  error : list string;
  result : option json
}.

(** An HTTP response; [json_body] is [None] when [response.json()] raises. *)
Record response := {
  status_code : Z;
  text : string;
  json_body : option body
}.

Abbreviation dict := (gmap string string).

(** What the client does to the outside, in the order it happens.
    Request headers (key and signature) are not recorded. *)
Inductive event :=
| Sleep (seconds : Q)
| Get (url : string) (params : option dict)
| Post (url : string) (data : dict).

(** The outside world: [clock n] is what the [n]-th call of [time.time()]
    returns, [http n] the response to the [n]-th request; no relation is
    assumed between sleeping and the clock. *)
Record world := {
  clock : nat -> Q;
  ticks : nat;
  http : nat -> response;
  requests : nat;
  events : list event
}.

Definition time_ (w : world) : Q * world :=
  (clock w (ticks w),
   {| clock := clock w; ticks := S (ticks w); http := http w;
      requests := requests w; events := events w |}).

Definition log (e : event) (w : world) : world :=
  {| clock := clock w; ticks := ticks w; http := http w;
     requests := requests w; events := events w ++ [e] |}.

Definition sleep (seconds : Q) (w : world) : world := log (Sleep seconds) w.

(** Performing a request: log it and take the next response. *)
Definition perform (e : event) (w : world) : response * world :=
  (http w (requests w),
   {| clock := clock w; ticks := ticks w; http := http w;
      requests := S (requests w); events := events w ++ [e] |}).

(** The client object, with the attributes the request path uses. *)
Record t := {
  base_url : string;
  nonce_manager : KrakenNonceManager.t;
  last_request_time : Q;
  min_request_interval : Q;
  lockout_until : Q
}.

Definition __init__ : t := {|
  base_url := "https://api.kraken.com";
  nonce_manager := KrakenNonceManager.__init__;
  last_request_time := 0;
  min_request_interval := 1 # 2;
  lockout_until := 0
|}.

Definition set_nonce_manager (n : KrakenNonceManager.t) (self : t) : t :=
  {| base_url := base_url self; nonce_manager := n;
     last_request_time := last_request_time self;
     min_request_interval := min_request_interval self;
     lockout_until := lockout_until self |}.

Definition set_last_request_time (x : Q) (self : t) : t :=
  {| base_url := base_url self; nonce_manager := nonce_manager self;
     last_request_time := x;
     min_request_interval := min_request_interval self;
     lockout_until := lockout_until self |}.

Definition set_lockout_until (x : Q) (self : t) : t :=
  {| base_url := base_url self; nonce_manager := nonce_manager self;
     last_request_time := last_request_time self;
     min_request_interval := min_request_interval self;
     lockout_until := x |}.

Definition Qltb (a b : Q) : bool :=
  match (a ?= b)%Q with Lt => true | _ => false end.

(** [_check_lockout] *)
Definition _check_lockout (self : t) (w : world) : world :=
  let '(now, w) := time_ w in
  if Qltb now (lockout_until self) then
    let '(now, w) := time_ w in
    let wait_time := (lockout_until self - now)%Q in
    sleep wait_time w
  else w.

(** [str(error_msg)] for the list of messages Kraken sends (quotes inside
    a message are not escaped here). *)
Definition str_list (l : list string) : string :=
  ("[" ++ String.concat ", " (map (fun s => "'" ++ s ++ "'") l) ++ "]")%string.

(** The first part of [_make_request]: rate limiting, then the request
    itself. Returns [data] as the code leaves it (with the nonce for a
    private call) and the response. *)
Definition send (method endpoint : string) (data : option dict) (self : t) (w : world)
  : option dict * response * t * world :=
  (* Rate limiting *)
  let '(current_time, w) := time_ w in
  let time_since_last := (current_time - last_request_time self)%Q in
  let w :=
    if Qltb time_since_last (min_request_interval self)
    then sleep (min_request_interval self - time_since_last) w
    else w in
  let '(now, w) := time_ w in
  let self := set_last_request_time now self in
  let url := (base_url self ++ endpoint)%string in
  if String.eqb method "GET" then
    (* Public API - no authentication needed *)
    let '(response, w) := perform (Get url data) w in
    (data, response, self, w)
  else
    (* Private API - authentication required *)
    let data := default ∅ data in
    let '(now, w) := time_ w in
    let '(nonce, manager) := KrakenNonceManager.get_nonce now (nonce_manager self) in
    let self := set_nonce_manager manager self in
    let data := <["nonce" := nonce]> data in
    let '(response, w) := perform (Post url data) w in
    (Some data, response, self, w).

(** The branches of the error handling, in the order of the [if]/[elif]
    chain on [str(error_msg)]. *)
Inductive error_class := InvalidKey | InvalidNonce | RateLimit | OtherError.

Definition classify_error (error_msg : string) : error_class :=
  if contains "EAPI:Invalid key" error_msg then InvalidKey
  else if contains "EAPI:Invalid nonce" error_msg then InvalidNonce
  else if contains "EAPI:Rate limit exceeded" error_msg then RateLimit
  else OtherError.

(** The response processing up to the error handling. *)
Inductive reply :=
| HttpFailure (msg : string)
| ParseFailure (msg : string)
| ApiError (error_msg : string)
| Success (payload : json).

Definition read_response (r : response) : reply :=
  if negb (status_code r =? 200) then
    HttpFailure ("HTTP " ++ str (status_code r) ++ ": " ++ text r)
  else
    match json_body r with
    | None => ParseFailure ("JSON Parse Error, Response: " ++ text r)
    | Some result_ =>
        match error result_ with
        | _ :: _ => ApiError (str_list (error result_))
        | [] => Success (default (JDict []) (result result_))
        end
    end.

Definition api_failure (error_msg : string) : exn :=
  Exception ("Kraken API error: " ++ error_msg).

(** [_make_request]; the recursion is the retry on an invalid nonce, and
    [3 - retry_count] decreases along it. *)
Equations? _make_request (method endpoint : string) (data : option dict)
    (retry_count : nat) (self : t) (w : world)
  : outcome json * t * world by wf (3 - retry_count)%nat lt :=
_make_request method endpoint data retry_count self w
  with send method endpoint data self (_check_lockout self w) => {
  | (data', response, self', w') with read_response response => {
    | HttpFailure msg := (Raise (Exception msg), self', w');
    | ParseFailure msg := (Raise (Exception msg), self', w');
    | Success payload := (Return payload, self', w');
    | ApiError error_msg with classify_error error_msg => {
      | InvalidKey :=
          (* Set lockout for 15 minutes *)
          let '(now, w'') := time_ w' in
          (Raise (api_failure error_msg), set_lockout_until (now + 900) self', w'');
      | InvalidNonce with lt_dec retry_count 3 => {
        | left _ :=
            _make_request method endpoint data' (S retry_count) self'
                          (sleep (1 # 10) w');
        | right _ := (Raise (api_failure error_msg), self', w') };
      | RateLimit :=
          (* 5 minute lockout *)
          let '(now, w'') := time_ w' in
          (Raise (api_failure error_msg), set_lockout_until (now + 300) self', w'');
      | OtherError := (Raise (api_failure error_msg), self', w') } } }.
Proof. lia. Qed.

(** [get_balance]; [float_ : json -> outcome pyfloat] stands for the
    builtin [float] applied to a balance as the exchange sends it. *)
Section Balance.
Variable float_ : json -> outcome pyfloat.

Fixpoint convert_balances (items : list (string * json)) (acc : gmap string pyfloat)
  : outcome (gmap string pyfloat) :=
  match items with
  | [] => Return acc
  | (currency, balance) :: rest =>
      match float_ balance with
      | Return x => convert_balances rest (<[balance_currency currency := x]> acc)
      | Raise e => Raise e
      end
  end.

Definition get_balance (self : t) (w : world)
  : outcome (gmap string pyfloat) * t * world :=
  match _make_request "POST" "/0/private/Balance" None 0 self w with
  | (Return (JDict items), self, w) => (convert_balances items ∅, self, w)
  | (Return _, self, w) =>
      (Raise (TypeError "object has no attribute 'items'"), self, w)
  | (Raise e, self, w) => (Raise e, self, w)
  end.

End Balance.

End KrakenExchange.

(** ** Vocabulary of the statements about the exchange client *)

Module ExchangeStatements.
Import KrakenExchange.

(** The reading of the specification for the way back: the pair code is
    put through the currency-key conversion of [get_balance]. *)
Definition pair_round_trip (symbol : string) : outcome string :=
  match _convert_symbol_to_kraken symbol with
  | Return code => Return (balance_currency code)
  | Raise e => Raise e
  end.

(** A response with status 200 whose error member is non-empty and reads
    [error_msg] as a string. *)
Definition error_reply (r : response) (error_msg : string) : Prop :=
  status_code r = 200 /\
  exists b, json_body r = Some b /\ error b <> [] /\ error_msg = str_list (error b).

(** A world that answers every request with [r]; its clock advances by one
    second per reading. *)
Definition always (r : response) : world :=
  {| clock := fun n => inject_Z (1700000000 + Z.of_nat n); ticks := 0;
     http := fun _ => r; requests := 0; events := [] |}.

Definition error_response (status : Z) (message : string) : response :=
  {| status_code := status; text := "";
     json_body := Some {| error := [message]; result := None |} |}.

End ExchangeStatements.

(** ** strategy.py: BTCCharlieStrategy *)

Module BTCCharlieStrategy.

(** One element of [ohlcv_data], as [get_historical_data] builds it. *)
Record candle := {
  timestamp : Z;
  open : Q;
  high : Q;
  low : Q;
  close : Q;
  volume : Q
}.

(** *** pandas operations used by the strategy *)

(** A Series of floats is the list of its values; a missing value is NaN. *)
Abbreviation series := (list pyfloat).

(** [s[start:]] with Python's slice rules, used by [df.iloc[-n:]]. *)
Definition iloc_from {A} (start : Z) (l : list A) : list A :=
  let n := Z.of_nat (length l) in
  let start := if start <? 0 then Z.max (start + n) 0 else start in
  drop (Z.to_nat start) l.

(** [s.ewm(span=span, adjust=False).mean()]: seeded by the first value,
    then [y = (1 - alpha) * y_prev + alpha * x] with [alpha = 2/(span+1)]. *)
Fixpoint ewm_from (alpha prev : Q) (xs : list Q) : list Q :=
  match xs with
  | [] => []
  | x :: rest =>
      let y := Qred ((1 - alpha) * prev + alpha * x) in
      y :: ewm_from alpha y rest
  end.

Definition ewm_mean (span : nat) (xs : list Q) : list Q :=
  let alpha := (2 / (inject_Z (Z.of_nat span) + 1))%Q in
  match xs with
  | [] => []
  | x0 :: rest => x0 :: ewm_from alpha x0 rest
  end.

(** [s.diff()] *)
Definition diff (xs : series) : series :=
  match xs with
  | [] => []
  | _ :: rest => NaN :: zip_with fsub rest xs
  end.

(** [s.shift(1)] *)
Definition shift1 (xs : series) : series :=
  match xs with
  | [] => []
  | _ => NaN :: removelast xs
  end.

(** [s.where(cond, other)] *)
Definition where_ (cond : pyfloat -> bool) (other : pyfloat) (xs : series) : series :=
  map (fun x => if cond x then x else other) xs.

(** [s.replace(old, new)] on a float Series *)
Definition replace (old new : pyfloat) (xs : series) : series :=
  map (fun x => if feq x old then new else x) xs.

(** The window of [s.rolling(window=w)] that ends at index [i]; there is
    none while fewer than [w] values are available. *)
Definition window_at (w i : nat) (xs : series) : option series :=
  if (w <=? S i)%nat then Some (take w (drop (S i - w) xs)) else None.

(** [s.rolling(window=w).agg()] with the default [min_periods = w]: NaN
    unless the window is complete and holds no NaN. *)
Definition rolling (agg : series -> pyfloat) (w : nat) (xs : series) : series :=
  map (fun i =>
         match window_at w i xs with
         | Some win => if existsb is_nan win then NaN else agg win
         | None => NaN
         end)
      (seq 0 (length xs)).

Definition mean (win : series) : pyfloat :=
  fdiv (foldr fadd (Fin 0) win) (Fin (inject_Z (Z.of_nat (length win)))).

Definition minimum (win : series) : pyfloat :=
  match win with
  | [] => NaN
  | x :: rest => foldl Py.min x rest
  end.

Definition maximum (win : series) : pyfloat :=
  match win with
  | [] => NaN
  | x :: rest => foldl Py.max x rest
  end.

(** *** Indicators *)

(** [_calculate_rsi]; its locals [gain] and [loss] are named so that the
    statements can refer to them. *)
Definition rsi_gain (prices : series) (period : nat) : series :=
  let delta := diff prices in
  rolling mean period (where_ (fun d => fgt d (Fin 0)) (Fin 0) delta).

Definition rsi_loss (prices : series) (period : nat) : series :=
  let delta := diff prices in
  rolling mean period (map fneg (where_ (fun d => flt d (Fin 0)) (Fin 0) delta)).

Definition _calculate_rsi (prices : series) (period : nat) : series :=
  let gain := rsi_gain prices period in
  let loss := rsi_loss prices period in
  let rs := zip_with fdiv gain loss in
  let rsi := map (fun r => fsub (Fin 100) (fdiv (Fin 100) (fadd (Fin 1) r))) rs in
  rsi.

(** [_calculate_stochastic_rsi]; returns [(stoch_k, stoch_d)]. Its local
    [denominator], after the replacement, is named for the statements. *)
Definition stoch_denominator (rsi : series) (stoch_length : nat) : series :=
  let rsi_min := rolling minimum stoch_length rsi in
  let rsi_max := rolling maximum stoch_length rsi in
  (* Avoid division by zero *)
  let denominator := zip_with fsub rsi_max rsi_min in
  replace (Fin 0) (Fin 1) denominator.

Definition _calculate_stochastic_rsi (rsi : series) (stoch_length k_smooth d_smooth : nat)
  : series * series :=
  let rsi_min := rolling minimum stoch_length rsi in
  let denominator := stoch_denominator rsi stoch_length in
  let stoch_rsi :=
    zip_with fdiv
             (zip_with (fun r mn => fmul (Fin 100) (fsub r mn)) rsi rsi_min)
             denominator in
  (* Apply smoothing (SMA as in original) *)
  let stoch_k := rolling mean k_smooth stoch_rsi in
  let stoch_d := rolling mean d_smooth stoch_k in
  (stoch_k, stoch_d).

(** A row of the DataFrame after [_calculate_indicators]. *)
Record irow := {
  ohlcv : candle;
  ema_fast : Q;
  ema_slow : Q;
  ema_consolidated : Q;
  buy : bool;
  sell : bool;
  rsi : pyfloat;
  stoch_rsi_k : pyfloat;
  stoch_rsi_d : pyfloat;
  stoch_crossover_up : bool;
  stoch_crossover_down : bool
}.

(** A row after [_calculate_counter_logic]. *)
Record row := {
  ind : irow;
  countBuy : Z;
  countSell : Z;
  buysignal : bool;
  sellsignal : bool;
  bull : bool;
  bear : bool
}.

(** The per-symbol dict [{'countBuy': .., 'countSell': ..}]. *)
Record counts := {
  stored_countBuy : Z;
  stored_countSell : Z
}.

(** The strategy object. [max_data_points] is the optional configuration
    attribute read with [getattr(self.config, 'max_data_points', 500)]. *)
Record t := {
  max_data_points : option Z;
  fast_ema_period : nat;
  slow_ema_period : nat;
  consolidated_ema_period : nat;
  stoch_k_smooth : nat;
  stoch_d_smooth : nat;
  stoch_rsi_length : nat;
  stoch_length : nat;
  market_data : gmap string (list row);
  counters : gmap string counts
}.

Definition __init__ (max_data_points : option Z) : t := {|
  max_data_points := max_data_points;
  fast_ema_period := 12;
  slow_ema_period := 25;
  consolidated_ema_period := 25;
  stoch_k_smooth := 3;
  stoch_d_smooth := 3;
  stoch_rsi_length := 14;
  stoch_length := 14;
  market_data := ∅;
  counters := ∅
|}.

Definition set_market_data (m : gmap string (list row)) (self : t) : t := {|
  max_data_points := max_data_points self;
  fast_ema_period := fast_ema_period self;
  slow_ema_period := slow_ema_period self;
  consolidated_ema_period := consolidated_ema_period self;
  stoch_k_smooth := stoch_k_smooth self;
  stoch_d_smooth := stoch_d_smooth self;
  stoch_rsi_length := stoch_rsi_length self;
  stoch_length := stoch_length self;
  market_data := m;
  counters := counters self
|}.

Definition set_counters (c : gmap string counts) (self : t) : t := {|
  max_data_points := max_data_points self;
  fast_ema_period := fast_ema_period self;
  slow_ema_period := slow_ema_period self;
  consolidated_ema_period := consolidated_ema_period self;
  stoch_k_smooth := stoch_k_smooth self;
  stoch_d_smooth := stoch_d_smooth self;
  stoch_rsi_length := stoch_rsi_length self;
  stoch_length := stoch_length self;
  market_data := market_data self;
  counters := c
|}.

(** [_calculate_indicators]: every column is computed over the whole frame,
    then the rows are assembled. *)
Definition _calculate_indicators (self : t) (df : list candle) : list irow :=
  let closes := map close df in
  let col_fast := ewm_mean (fast_ema_period self) closes in
  let col_slow := ewm_mean (slow_ema_period self) closes in
  let col_cons := ewm_mean (consolidated_ema_period self) closes in
  let col_rsi := _calculate_rsi (map Fin closes) (stoch_rsi_length self) in
  let '(col_k, col_d) :=
    _calculate_stochastic_rsi col_rsi (stoch_length self)
                              (stoch_k_smooth self) (stoch_d_smooth self) in
  let col_k1 := shift1 col_k in
  let col_d1 := shift1 col_d in
  imap (fun i c =>
          let f := nth i col_fast 0%Q in
          let s := nth i col_slow 0%Q in
          let k := nth i col_k NaN in
          let d := nth i col_d NaN in
          {| ohlcv := c;
             ema_fast := f;
             ema_slow := s;
             ema_consolidated := nth i col_cons 0%Q;
             (* buy = v_fastEMA > v_slowEMA *)
             buy := match (f ?= s)%Q with Gt => true | _ => false end;
             sell := match (f ?= s)%Q with Lt => true | _ => false end;
             rsi := nth i col_rsi NaN;
             stoch_rsi_k := k;
             stoch_rsi_d := d;
             stoch_crossover_up := fgt k d && fle (nth i col_k1 NaN) (nth i col_d1 NaN);
             stoch_crossover_down := flt k d && fge (nth i col_k1 NaN) (nth i col_d1 NaN) |})
       df.

(** *** The counter state machine *)

(** The [for i in range(len(df))] loop of [_calculate_counter_logic]:
    [countBuy] and [countSell] are the loop-carried locals, [prev] is row
    [i-1] (absent when [i = 0]). *)
Fixpoint counter_loop (countBuy countSell : Z) (prev : option irow) (df : list irow)
  : list row :=
  match df with
  | [] => []
  | r :: rest =>
      let '(countBuy, countSell) :=
        if buy r then (countBuy + 1, 0) else (countBuy, countSell) in
      let '(countBuy, countSell) :=
        if sell r then (0, countSell + 1) else (countBuy, countSell) in
      let '(buysignal, sellsignal) :=
        match prev with
        | Some p =>
            ((countBuy <? 2) && (countBuy >? 0) && (countSell <? 1)
               && buy r && negb (buy p),
             (countSell >? 0) && (countSell <? 2) && (countBuy <? 1)
               && sell r && negb (sell p))
        | None => (false, false)
        end in
      {| ind := r;
         countBuy := countBuy;
         countSell := countSell;
         buysignal := buysignal;
         sellsignal := sellsignal;
         bull := countBuy >? 1;
         bear := countSell >? 1 |}
        :: counter_loop countBuy countSell (Some r) rest
  end.

(** [_calculate_counter_logic] *)
Definition _calculate_counter_logic (df : list irow) (symbol : string) (self : t)
  : list row * t :=
  (* Initialize counters for this symbol if not exists *)
  let self :=
    match counters self !! symbol with
    | Some _ => self
    | None =>
        set_counters (<[symbol := {| stored_countBuy := 0; stored_countSell := 0 |}]>
                        (counters self)) self
    end in
  (* countBuy = 0; countSell = 0 *)
  let df := counter_loop 0 0 None df in
  (* Update stored counters *)
  let self :=
    match List.last (map Some df) None with
    | Some final =>
        set_counters (<[symbol := {| stored_countBuy := countBuy final;
                                     stored_countSell := countSell final |}]>
                        (counters self)) self
    | None => self
    end in
  (df, self).

(** [update_market_data].  An empty [ohlcv_data] gives a frame without
    columns, and [df['timestamp']] raises. *)
Definition update_market_data (symbol : string) (ohlcv_data : list candle) (self : t)
  : outcome unit * t :=
  match ohlcv_data with
  | [] => (Raise (KeyError "timestamp"), self)
  | _ =>
      let df := ohlcv_data in
      let max_points := default 500 (max_data_points self) in
      let df :=
        if Z.of_nat (length df) >? max_points then iloc_from (- max_points) df else df in
      let df := _calculate_indicators self df in
      let '(df, self) := _calculate_counter_logic df symbol self in
      (Return tt,
       set_market_data (<[symbol := iloc_from (-200) df]> (market_data self)) self)
  end.

End BTCCharlieStrategy.

(** ** Vocabulary of the statements about the strategy *)

Module StrategyStatements.
Import BTCCharlieStrategy.

(** The [buysignal] column on the rows of a run of candles that follows the
    prefix [pre] and one more candle. *)
Definition run_signals (pre run : list irow) (rows : list row) : list bool :=
  map buysignal (take (length run) (drop (S (length pre)) rows)).

(** The reading of the specification for a run of at least two [buy]
    candles after a candle without [buy]: the signal fires on the first
    candle of the run and on no other. *)
Definition buy_run_fires_once (self : t) (symbol : string) (candles : list candle) : Prop :=
  let df := _calculate_indicators self candles in
  let rows := (_calculate_counter_logic df symbol self).1 in
  forall pre p run post,
    df = pre ++ p :: run ++ post ->
    buy p = false ->
    Forall (fun r => buy r = true) run ->
    (2 <= length run)%nat ->
    run_signals pre run rows = true :: repeat false (length run - 1).

(** The candle window [update_market_data] evaluates. *)
Definition window (self : t) (ohlcv_data : list candle) : list candle :=
  let max_points := default 500 (max_data_points self) in
  if Z.of_nat (length ohlcv_data) >? max_points
  then iloc_from (- max_points) ohlcv_data
  else ohlcv_data.

(** The reading of the specification for the counters across calls: the
    loop would start from the pair stored for the symbol by the previous
    call. *)
Definition counter_rows_carried (df : list irow) (symbol : string) (self : t) : list row :=
  match counters self !! symbol with
  | Some c => counter_loop (stored_countBuy c) (stored_countSell c) None df
  | None => counter_loop 0 0 None df
  end.

Definition counts_of (r : row) : counts :=
  {| stored_countBuy := countBuy r; stored_countSell := countSell r |}.





(** The attributes set in [__init__] and read by the computation. *)
Definition same_parameters (s1 s2 : t) : Prop :=
  max_data_points s1 = max_data_points s2 /\
  fast_ema_period s1 = fast_ema_period s2 /\
  slow_ema_period s1 = slow_ema_period s2 /\
  consolidated_ema_period s1 = consolidated_ema_period s2 /\
  stoch_k_smooth s1 = stoch_k_smooth s2 /\
  stoch_d_smooth s1 = stoch_d_smooth s2 /\
  stoch_rsi_length s1 = stoch_rsi_length s2 /\
  stoch_length s1 = stoch_length s2.

(** A candle whose four prices are [c]. *)
Definition flat_candle (ts : Z) (c : Q) : candle :=
  {| timestamp := ts; open := c; high := c; low := c; close := c; volume := 1 |}.

Definition candles_of (closes : list Q) : list candle :=
  imap (fun i c => flat_candle (Z.of_nat i * 3600000) c) closes.

End StrategyStatements.

(** ** Vocabulary of the statements about the oscillators *)

Module IndicatorStatements.
Import BTCCharlieStrategy.



End IndicatorStatements.

(** ** bot.py: TradingBot *)

Module TradingBot.

(** *** Collaborators *)

(** [strategy.Signal] and [strategy.StrategySignal] *)
Inductive Signal := BUY | SELL | HOLD.

Definition Signal_value (s : Signal) : string :=
  match s with
  | BUY => "buy"
  | SELL => "sell"
  | HOLD => "hold"
  end.

Record StrategySignal := {
  symbol : string;
  signal : Signal;
  price : pyfloat;
  timestamp : Z;
  stop_loss : option pyfloat;
  take_profit : option pyfloat;
  confidence : pyfloat;
  signal_type : string
}.

(** [exchange_api.OrderResult] and [exchange_api.Position] *)
Record OrderResult := {
  success : bool;
  order_id : option string;
  error_message : option string
}.

Record Position := {
  position_symbol : string;
  side : string;
  size : pyfloat;
  entry_price : pyfloat;
  unrealized_pnl : pyfloat
}.

(** [exchange_api.BaseExchange]: the exchange as the bot sees it, an object
    with state [E] and the methods the modelled code calls on it. *)
Class BaseExchange (E : Type) := {
  place_order :
    string -> string -> pyfloat -> string -> option pyfloat -> option pyfloat ->
    E -> OrderResult * E;
  get_positions : E -> outcome (list Position) * E
}.

(** [TradingConfig], with the attributes read through [getattr] as
    options. *)
Record config := {
  max_position_size : pyfloat;
  one_position_per_pair : bool;
  order_type : string;
  min_order_size_usd : option pyfloat;
  max_order_size_usd : option pyfloat;
  enable_dead_mans_switch : option bool;
  dead_mans_switch_timeout_option : option Q
}.

(** *** The outside world of the bot *)

Inductive call :=
| PlaceOrder (symbol side : string) (amount : pyfloat) (order_type : string)
| GetPositions.

Inductive log_entry :=
| Info (msg : string)
| Warning (msg : string)
| Error (msg : string)
| Critical (msg : string).

(** [clock n] is the [n]-th reading of [time.time()]; [calls] lists the
    calls made on the exchange and [logs] the log records, oldest first
    (the numbers formatted into the messages are left out). *)
Record env := {
  clock : nat -> Q;
  ticks : nat;
  calls : list call;
  logs : list log_entry
}.

Definition time_ (w : env) : Q * env :=
  (clock w (ticks w),
   {| clock := clock w; ticks := S (ticks w); calls := calls w; logs := logs w |}).

Definition called (c : call) (w : env) : env :=
  {| clock := clock w; ticks := ticks w; calls := calls w ++ [c]; logs := logs w |}.

Definition logged (l : log_entry) (w : env) : env :=
  {| clock := clock w; ticks := ticks w; calls := calls w; logs := logs w ++ [l] |}.

(** *** The bot *)

Record tracked_position := {
  tracked_order_id : option string;
  tracked_signal : StrategySignal;
  tracked_size : pyfloat
}.

Section Bot.
Context {E : Type} `{BaseExchange E}.

Record t := {
  cfg : config;
  exchange : E;
  active_positions : gmap string tracked_position;
  is_running : bool;
  emergency_stop : bool;
  trades_executed : Z;
  account_balance : pyfloat;
  initial_balance : pyfloat;
  last_heartbeat : Q;
  dead_mans_switch_enabled : bool;
  dead_mans_switch_timeout : Q
}.

(** The part of [__init__] that sets the modelled attributes. *)
Definition __init__ (c : config) (ex : E) (now : Q) : t := {|
  cfg := c;
  exchange := ex;
  active_positions := ∅;
  is_running := false;
  emergency_stop := false;
  trades_executed := 0;
  account_balance := Fin 0;
  initial_balance := Fin 0;
  last_heartbeat := now;
  dead_mans_switch_enabled := default false (enable_dead_mans_switch c);
  dead_mans_switch_timeout := default 3600%Q (dead_mans_switch_timeout_option c)
|}.

Definition set_exchange (ex : E) (self : t) : t :=
  {| cfg := cfg self; exchange := ex; active_positions := active_positions self;
     is_running := is_running self; emergency_stop := emergency_stop self;
     trades_executed := trades_executed self; account_balance := account_balance self;
     initial_balance := initial_balance self; last_heartbeat := last_heartbeat self;
     dead_mans_switch_enabled := dead_mans_switch_enabled self;
     dead_mans_switch_timeout := dead_mans_switch_timeout self |}.

Definition set_emergency_stop (b : bool) (self : t) : t :=
  {| cfg := cfg self; exchange := exchange self; active_positions := active_positions self;
     is_running := is_running self; emergency_stop := b;
     trades_executed := trades_executed self; account_balance := account_balance self;
     initial_balance := initial_balance self; last_heartbeat := last_heartbeat self;
     dead_mans_switch_enabled := dead_mans_switch_enabled self;
     dead_mans_switch_timeout := dead_mans_switch_timeout self |}.

Definition set_last_heartbeat (x : Q) (self : t) : t :=
  {| cfg := cfg self; exchange := exchange self; active_positions := active_positions self;
     is_running := is_running self; emergency_stop := emergency_stop self;
     trades_executed := trades_executed self; account_balance := account_balance self;
     initial_balance := initial_balance self; last_heartbeat := x;
     dead_mans_switch_enabled := dead_mans_switch_enabled self;
     dead_mans_switch_timeout := dead_mans_switch_timeout self |}.

Definition track_position (sym : string) (p : tracked_position) (self : t) : t :=
  {| cfg := cfg self; exchange := exchange self;
     active_positions := <[sym := p]> (active_positions self);
     is_running := is_running self; emergency_stop := emergency_stop self;
     trades_executed := trades_executed self + 1; account_balance := account_balance self;
     initial_balance := initial_balance self; last_heartbeat := last_heartbeat self;
     dead_mans_switch_enabled := dead_mans_switch_enabled self;
     dead_mans_switch_timeout := dead_mans_switch_timeout self |}.

(** [_calculate_position_size]. The price reaches it as the numpy float of
    the [close] column, so the division does not raise on a zero price. *)
Definition _calculate_position_size (self : t) (price : pyfloat) : outcome pyfloat :=
  if fle (account_balance self) (Fin 0) then Return (Fin 0)
  else
    (* Calculate maximum position value *)
    let max_position_value := fmul (account_balance self) (max_position_size (cfg self)) in
    (* Apply max order size limit *)
    let max_order_usd := default (Fin 10000) (max_order_size_usd (cfg self)) in
    let max_position_value := Py.min max_position_value max_order_usd in
    (* Calculate position size *)
    let position_size := fdiv max_position_value price in
    (* Apply symbol-specific minimums *)
    match py_in "BTC" (PyFloat price) with
    | Raise e => Raise e
    | Return true => Return (Py.max position_size (Fin (1 # 10000)))
    | Return false =>
        match py_in "ETH" (PyFloat price) with
        | Raise e => Raise e
        | Return true => Return (Py.max position_size (Fin (5 # 1000)))
        | Return false => Return position_size
        end
    end.

(** [_execute_signal]; the optional database is absent. *)
Definition _execute_signal (sig : StrategySignal) (self : t) (w : env)
  : outcome unit * t * env :=
  (* Check if we already have a position for this symbol *)
  if one_position_per_pair (cfg self)
     && bool_decide (is_Some (active_positions self !! symbol sig))
  then (Return tt, self, logged (Info "Skipping signal - position already exists") w)
  else
    (* Calculate position size with min/max limits *)
    match _calculate_position_size self (price sig) with
    | Raise e => (Raise e, self, w)
    | Return position_size =>
        (* Check minimum order size *)
        let min_order_usd := default (Fin 10) (min_order_size_usd (cfg self)) in
        if flt (fmul position_size (price sig)) min_order_usd
        then (Return tt, self, logged (Warning "Position size too small") w)
        else
          (* Execute order *)
          let w := logged (Info "Executing signal") w in
          let '(order_result, ex) :=
            place_order (symbol sig) (Signal_value (signal sig)) position_size
                        (order_type (cfg self)) (stop_loss sig) (take_profit sig)
                        (exchange self) in
          let w := called (PlaceOrder (symbol sig) (Signal_value (signal sig))
                                      position_size (order_type (cfg self))) w in
          let self := set_exchange ex self in
          if success order_result then
            (Return tt,
             track_position (symbol sig)
               {| tracked_order_id := order_id order_result;
                  tracked_signal := sig;
                  tracked_size := position_size |} self,
             logged (Info "Order executed successfully") w)
          else
            (Return tt, self, logged (Error "Order execution failed") w)
    end.

(** The loop of [_emergency_close_all_positions] *)
Fixpoint close_positions (positions : list Position) (ex : E) (w : env) : E * env :=
  match positions with
  | [] => (ex, w)
  | position :: rest =>
      (* Close position with market order *)
      let side_ := if String.eqb (side position) "long" then "sell" else "buy" in
      let '(order_result, ex) :=
        place_order (position_symbol position) side_ (size position) "market"
                    None None ex in
      let w := called (PlaceOrder (position_symbol position) side_
                                  (size position) "market") w in
      let w :=
        if success order_result
        then logged (Info "Emergency closed position") w
        else logged (Error "Failed to close position") w in
      close_positions rest ex w
  end.

(** [_emergency_close_all_positions] *)
Definition _emergency_close_all_positions (self : t) (w : env) : t * env :=
  let w := logged (Warning "Emergency closing all positions") w in
  let '(positions, ex) := get_positions (exchange self) in
  let w := called GetPositions w in
  match positions with
  | Return positions =>
      let '(ex, w) := close_positions positions ex w in
      (set_exchange ex self, w)
  | Raise e => (set_exchange ex self, logged (Error "Error during emergency close") w)
  end.

(** [update_heartbeat] *)
Definition update_heartbeat (self : t) (w : env) : t * env :=
  let '(now, w) := time_ w in
  (set_last_heartbeat now self, w).

(** [_check_dead_mans_switch] *)
Definition _check_dead_mans_switch (self : t) (w : env) : t * env :=
  if negb (dead_mans_switch_enabled self) then (self, w)
  else
    let '(now, w) := time_ w in
    let time_since_heartbeat := (now - last_heartbeat self)%Q in
    match (time_since_heartbeat ?= dead_mans_switch_timeout self)%Q with
    | Gt =>
        let w := logged (Critical "Dead man's switch triggered!") w in
        let self := set_emergency_stop true self in
        _emergency_close_all_positions self w
    | _ => (self, w)
    end.

(** The first two statements of an iteration of [_main_loop]: update the
    heartbeat, then check the dead man's switch. *)
Definition _main_loop_head (self : t) (w : env) : t * env :=
  let '(self, w) := update_heartbeat self w in
  _check_dead_mans_switch self w.

End Bot.

Arguments t E : clear implicits.

End TradingBot.

(** ** Vocabulary of the statements about the bot *)

Module BotStatements.
Import TradingBot.

(** An exchange that accepts every order and reports one long position. *)
#[export] Instance paper_exchange : BaseExchange unit := {|
  place_order _ _ _ _ _ _ ex :=
    ({| success := true; order_id := Some "O1"; error_message := None |}, ex);
  get_positions ex :=
    (Return [{| position_symbol := "XBTUSD"; side := "long"; size := Fin 1;
                entry_price := Fin 50000; unrealized_pnl := Fin 0 |}], ex)
|}.

Definition default_config : config := {|
  max_position_size := Fin (2 # 100);
  one_position_per_pair := true;
  order_type := "market";
  min_order_size_usd := None;
  max_order_size_usd := None;
  enable_dead_mans_switch := None;
  dead_mans_switch_timeout_option := None
|}.

(** The order size as the specification words it: the capped notional
    divided by the price, raised to the minimum lot. *)
Definition order_size_spec (balance fraction max_notional price min_lot : pyfloat)
  : pyfloat :=
  Py.max (fdiv (Py.min (fmul balance fraction) max_notional) price) min_lot.

Definition with_balance (b : pyfloat) (self : t unit) : t unit :=
  {| cfg := cfg self; exchange := exchange self;
     active_positions := active_positions self;
     is_running := is_running self; emergency_stop := emergency_stop self;
     trades_executed := trades_executed self; account_balance := b;
     initial_balance := b; last_heartbeat := last_heartbeat self;
     dead_mans_switch_enabled := dead_mans_switch_enabled self;
     dead_mans_switch_timeout := dead_mans_switch_timeout self |}.

Definition with_switch (timeout : Q) (self : t unit) : t unit :=
  {| cfg := cfg self; exchange := exchange self;
     active_positions := active_positions self;
     is_running := is_running self; emergency_stop := emergency_stop self;
     trades_executed := trades_executed self; account_balance := account_balance self;
     initial_balance := initial_balance self; last_heartbeat := last_heartbeat self;
     dead_mans_switch_enabled := true;
     dead_mans_switch_timeout := timeout |}.

Definition buy_signal_at (sym : string) (p : Q) : StrategySignal := {|
  symbol := sym;
  signal := BUY;
  price := Fin p;
  timestamp := 0;
  stop_loss := Some (fmul (Fin p) (Fin (98 # 100)));
  take_profit := Some (fmul (Fin p) (Fin (104 # 100)));
  confidence := Fin (9 # 10);
  signal_type := "bull"
|}.

(** A world whose clock stands at [now]. *)
Definition stopped_clock (now : Q) : env :=
  {| clock := fun _ => now; ticks := 0; calls := []; logs := [] |}.

End BotStatements.

(** ** strategy.py: signals and alerts *)

(** [strategy.StochRSIAlert] *)
Module StochRSIAlert.
Record t := {
  symbol : string;
  alert_type : string;
  price : pyfloat;
  timestamp : Z;
  stoch_k : pyfloat;
  stoch_d : pyfloat
}.
End StochRSIAlert.

Module StrategySignals.
Import BTCCharlieStrategy.

(** The attributes of [self.config] that the signal code reads. *)
Record risk_parameters := {
  stop_loss_percentage : pyfloat;
  take_profit_percentage : pyfloat
}.

(** The bands set in [__init__]. *)
Definition upper_band : pyfloat := Fin 80.
Definition middle_band : pyfloat := Fin 50.
Definition lower_band : pyfloat := Fin 20.

(** [_calculate_stop_loss_take_profit]; every signal but [BUY] takes the
    [else] branch. *)
Definition _calculate_stop_loss_take_profit (config : risk_parameters)
    (price : pyfloat) (signal : TradingBot.Signal) : pyfloat * pyfloat :=
  match signal with
  | TradingBot.BUY =>
      (fmul price (fsub (Fin 1) (stop_loss_percentage config)),
       fmul price (fadd (Fin 1) (take_profit_percentage config)))
  | _ =>
      (fmul price (fadd (Fin 1) (stop_loss_percentage config)),
       fmul price (fsub (Fin 1) (take_profit_percentage config)))
  end.

(** [int(latest.name.timestamp() * 1000)]: the index entry is the candle
    time in milliseconds, read back in seconds and scaled again. *)
Definition index_ms (r : row) : Z :=
  int_of_float (inject_Z (timestamp (ohlcv (ind r))) / 1000 * 1000).

(** [df.iloc[-1]] and [df.iloc[-2]] *)
Definition iloc_last {A} (df : list A) : option A := List.last (map Some df) None.
Definition iloc_before_last {A} (df : list A) : option A := iloc_last (removelast df).

(** The history [generate_signal] asks for. *)
Definition required_history (self : t) : nat :=
  Nat.max (slow_ema_period self) (stoch_rsi_length self + stoch_length self).

(** [generate_signal]; [None] is "no signal". The positional access raises
    on an empty frame, which takes a required history of zero. *)
Definition generate_signal (config : risk_parameters) (symbol : string) (self : t)
  : outcome (option TradingBot.StrategySignal) :=
  match market_data self !! symbol with
  | None => Return None
  | Some df =>
      if (length df <? required_history self)%nat then Return None
      else
        match iloc_last df with
        | None => Raise (Exception "single positional indexer is out-of-bounds")
        | Some latest =>
            let current_price := Fin (close (ohlcv (ind latest))) in
            if buysignal latest then
              let '(stop_loss, take_profit) :=
                _calculate_stop_loss_take_profit config current_price TradingBot.BUY in
              Return (Some {| TradingBot.symbol := symbol;
                              TradingBot.signal := TradingBot.BUY;
                              TradingBot.price := current_price;
                              TradingBot.timestamp := index_ms latest;
                              TradingBot.stop_loss := Some stop_loss;
                              TradingBot.take_profit := Some take_profit;
                              TradingBot.confidence := Fin (9 # 10);
                              TradingBot.signal_type := "bull" |})
            else if sellsignal latest then
              let '(stop_loss, take_profit) :=
                _calculate_stop_loss_take_profit config current_price TradingBot.SELL in
              Return (Some {| TradingBot.symbol := symbol;
                              TradingBot.signal := TradingBot.SELL;
                              TradingBot.price := current_price;
                              TradingBot.timestamp := index_ms latest;
                              TradingBot.stop_loss := Some stop_loss;
                              TradingBot.take_profit := Some take_profit;
                              TradingBot.confidence := Fin (9 # 10);
                              TradingBot.signal_type := "bear" |})
            else Return None
        end
  end.

(** [check_stoch_rsi_alerts] *)
Definition check_stoch_rsi_alerts (symbol : string) (self : t) : option StochRSIAlert.t :=
  match market_data self !! symbol with
  | None => None
  | Some df =>
      if (length df <? 2)%nat then None
      else
        match iloc_last df, iloc_before_last df with
        | Some latest, Some before =>
            let current_price := Fin (close (ohlcv (ind latest))) in
            let stoch_k := stoch_rsi_k (ind latest) in
            let stoch_d := stoch_rsi_d (ind latest) in
            let alert (alert_type : string) :=
              Some {| StochRSIAlert.symbol := symbol;
                      StochRSIAlert.alert_type := alert_type;
                      StochRSIAlert.price := current_price;
                      StochRSIAlert.timestamp := index_ms latest;
                      StochRSIAlert.stoch_k := stoch_k;
                      StochRSIAlert.stoch_d := stoch_d |} in
            (* Crossover alerts at middle level (50) *)
            if stoch_crossover_up (ind latest)
               && (flt stoch_k middle_band || flt stoch_d middle_band)
            then alert "crossup_mid"
            else if stoch_crossover_down (ind latest)
                    && (fgt stoch_k middle_band || fgt stoch_d middle_band)
            then alert "crossdown_mid"
            (* Oversold/Overbought crossover alerts *)
            else if stoch_crossover_up (ind latest)
                    && (flt stoch_k lower_band || flt stoch_d lower_band)
            then alert "crossup_os"
            else if stoch_crossover_down (ind latest)
                    && (fgt stoch_k upper_band || fgt stoch_d upper_band)
            then alert "crossdown_ob"
            else
              (* Band crossing alerts *)
              let prev_k := stoch_rsi_k (ind before) in
              (* K crosses under upper band (80) *)
              if fge prev_k upper_band && flt stoch_k upper_band
              then alert "below_upper_band"
              (* K crosses over lower band (20) *)
              else if fle prev_k lower_band && fgt stoch_k lower_band
              then alert "above_lower_band"
              else None
        | _, _ => None
        end
  end.

(** [get_market_summary]; [None] is the empty dictionary. *)
Record market_summary := {
  summary_symbol : string;
  summary_price : Q;
  summary_ema_fast : Q;
  summary_ema_slow : Q;
  summary_ema_consolidated : Q;
  summary_stoch_rsi_k : pyfloat;
  summary_stoch_rsi_d : pyfloat;
  trend : string;
  momentum : string;
  summary_countBuy : Z;
  summary_countSell : Z;
  signal_ready : bool
}.

Definition get_market_summary (symbol : string) (self : t) : option market_summary :=
  match market_data self !! symbol with
  | None => None
  | Some df =>
      match iloc_last df with
      | None => None
      | Some latest =>
          (* Get current trend status *)
          let trend_status :=
            if bull latest then "strong_bullish"
            else if bear latest then "strong_bearish"
            else if buy (ind latest) then "bullish"
            else if sell (ind latest) then "bearish"
            else "neutral" in
          Some {| summary_symbol := symbol;
                  summary_price := close (ohlcv (ind latest));
                  summary_ema_fast := ema_fast (ind latest);
                  summary_ema_slow := ema_slow (ind latest);
                  summary_ema_consolidated := ema_consolidated (ind latest);
                  summary_stoch_rsi_k := stoch_rsi_k (ind latest);
                  summary_stoch_rsi_d := stoch_rsi_d (ind latest);
                  trend := trend_status;
                  momentum :=
                    if fgt (stoch_rsi_k (ind latest)) upper_band then "overbought"
                    else if flt (stoch_rsi_k (ind latest)) lower_band then "oversold"
                    else "neutral";
                  summary_countBuy := countBuy latest;
                  summary_countSell := countSell latest;
                  signal_ready := buysignal latest || sellsignal latest |}
      end
  end.

End StrategySignals.

(** ** Vocabulary of further statements about the exchange client *)

Module ClientStatements.
Import KrakenExchange.

(** How often a character occurs in a string. *)
Fixpoint occurrences (c : ascii) (s : string) : nat :=
  match s with
  | EmptyString => 0
  | String a rest => (if Ascii.eqb a c then 1 else 0) + occurrences c rest
  end.

(** The last item of a balance reply whose converted key is [key]. *)
Definition last_item (key : string) (items : list (string * json))
  : option (string * json) :=
  List.find (fun item => String.eqb (balance_currency item.1) key) (rev items).

(** A reply with status 200, no error and the given result. *)
Definition result_response (payload : json) : response :=
  {| status_code := 200; text := "";
     json_body := Some {| error := []; result := Some payload |} |}.

(** A conversion for the example: numbers as they are, nothing else. *)
Definition number_only (j : json) : outcome pyfloat :=
  match j with
  | JNum q => Return (Fin q)
  | _ => Raise (TypeError "float() argument must be a string or a real number")
  end.

(** Integers for the example: whole numbers as they are, nothing else. *)
Definition integer_only (j : json) : outcome Z :=
  match j with
  | JNum q => Return (int_of_float q)
  | _ => Raise (TypeError "int() argument must be a string or a real number")
  end.

Definition is_sleep (e : event) : Prop :=
  match e with Sleep _ => True | _ => False end.

End ClientStatements.

(** ** exchange_api.py: orders and history *)

Module KrakenOrders.
Import KrakenExchange.

(** [s.lower()], on ASCII letters. *)
Definition lower_ascii (c : ascii) : ascii :=
  let n := nat_of_ascii c in
  if (65 <=? n)%nat && (n <=? 90)%nat then ascii_of_nat (n + 32) else c.

Fixpoint lower (s : string) : string :=
  match s with
  | EmptyString => EmptyString
  | String c rest => String (lower_ascii c) (lower rest)
  end.

(** [str(e)] *)
Definition str_exn (e : exn) : string :=
  match e with
  | Exception msg | TypeError msg | ValueError msg => msg
  | KeyError key => ("'" ++ key ++ "'")%string
  end.

(** The truth value of an optional float: [None] and zero are false. *)
Definition truthy (price : option pyfloat) : bool :=
  match price with
  | None => false
  | Some (Fin q) => negb (Qeq_bool q 0)
  | Some _ => true
  end.

Definition failure (e : exn) : TradingBot.OrderResult :=
  {| TradingBot.success := false; TradingBot.order_id := None;
     TradingBot.error_message := Some (str_exn e) |}.

Section Orders.
(** [str(x)] on a float, and the expression
    [result.get("txid", [None])[0] if result.get("txid") else None]. *)
Variable str_float : pyfloat -> string.
Variable order_id_of : json -> outcome (option string).

(** [place_order]; every exception ends in a failed [OrderResult]. *)
Definition place_order (symbol side : string) (amount : pyfloat)
    (price : option pyfloat) (order_type : string)
    (stop_loss take_profit : option pyfloat) (self : t) (w : world)
  : TradingBot.OrderResult * t * world :=
  match _convert_symbol_to_kraken symbol with
  | Raise e => (failure e, self, w)
  | Return kraken_pair =>
      let order_data : dict :=
        <["volume" := str_float amount]>
          (<["ordertype" := order_type]>
             (<["type" := lower side]> (<["pair" := kraken_pair]> ∅))) in
      let order_data :=
        match price with
        | Some p =>
            if String.eqb order_type "limit" && truthy price
            then <["price" := str_float p]> order_data
            else order_data
        | None => order_data
        end in
      match _make_request "POST" "/0/private/AddOrder" (Some order_data) 0 self w with
      | (Return result_, self, w) =>
          match order_id_of result_ with
          | Return txid =>
              ({| TradingBot.success := true; TradingBot.order_id := txid;
                  TradingBot.error_message := None |}, self, w)
          | Raise e => (failure e, self, w)
          end
      | (Raise e, self, w) => (failure e, self, w)
      end
  end.

End Orders.

(** *** Historical data *)

Definition interval_entries : list (string * Z) :=
  [("1m", 1); ("5m", 5); ("15m", 15); ("1h", 60); ("4h", 240); ("1d", 1440)].

Definition interval_map : gmap string Z := list_to_map interval_entries.

(** One dictionary of the returned list. *)
Record bar := {
  timestamp : Z;
  open : pyfloat;
  high : pyfloat;
  low : pyfloat;
  close : pyfloat;
  volume : pyfloat
}.

(** The truth value of a decoded JSON value. *)
Definition json_truthy (j : json) : bool :=
  match j with
  | JNull => false
  | JStr s => negb (String.eqb s "")
  | JNum q => negb (Qeq_bool q 0)
  | JList items => match items with [] => false | _ => true end
  | JDict items => match items with [] => false | _ => true end
  end.

(** [x[i]] for a position [i]: an item of a list, a character of a
    string; anything else, or a position out of range, raises. *)
Definition getitem (x : json) (i : nat) : option json :=
  match x with
  | JList items => items !! i
  | JStr s => (fun c => JStr (String c EmptyString)) <$> String.get i s
  | _ => None
  end.

Definition value {A} (o : outcome A) : option A :=
  match o with Return a => Some a | Raise _ => None end.

Section History.
(** The builtins [int] and [float] on the fields of a candle. *)
Variable int_ : json -> outcome Z.
Variable float_ : json -> outcome pyfloat.

(** The body of the loop over the candles; [None] when it raises. *)
Definition candle_dict (candle : json) : option bar :=
  c0 ← getitem candle 0; t ← value (int_ c0);
  c1 ← getitem candle 1; o ← value (float_ c1);
  c2 ← getitem candle 2; h ← value (float_ c2);
  c3 ← getitem candle 3; l ← value (float_ c3);
  c4 ← getitem candle 4; c ← value (float_ c4);
  c6 ← getitem candle 6; v ← value (float_ c6);
  Some {| timestamp := t * 1000; open := o; high := h; low := l;
          close := c; volume := v |}.

(** [get_historical_data]; every exception ends in the empty list. The
    candles are the first value of the result dictionary; slicing or
    reading anything but a list of candles raises. *)
Definition get_historical_data (symbol timeframe : string) (limit : Z)
    (self : t) (w : world) : list bar * t * world :=
  match _convert_symbol_to_kraken symbol with
  | Raise _ => ([], self, w)
  | Return kraken_pair =>
      let interval := default 60 (interval_map !! timeframe) in
      let params : dict :=
        <["interval" := str interval]> (<["pair" := kraken_pair]> ∅) in
      match _make_request "GET" "/0/public/OHLC" (Some params) 0 self w with
      | (Raise _, self, w) => ([], self, w)
      | (Return data, self, w) =>
          if negb (json_truthy data) then ([], self, w)
          else
            match data with
            | JDict ((_, JList candles) :: _) =>
                match mapM candle_dict (BTCCharlieStrategy.iloc_from (- limit) candles) with
                | Some result_ => (result_, self, w)
                | None => ([], self, w)
                end
            | _ => ([], self, w)
            end
      end
  end.

End History.

End KrakenOrders.

(** ** config.py: ConfigManager *)

Module ConfigManager.

(** The fields of [TradingConfig]. *)
Definition TradingConfig_fields : list string :=
  ["fast_ema_period"; "slow_ema_period"; "stoch_rsi_length"; "stoch_length";
   "stoch_k_smooth"; "stoch_d_smooth";
   "max_position_size"; "stop_loss_percentage"; "take_profit_percentage";
   "max_daily_loss"; "max_drawdown";
   "timeframe";
   "trading_pairs"; "order_type"; "one_position_per_pair";
   "log_level"; "data_update_interval"].

(** The settings the bot and the strategy read with [getattr] and a
    default. *)
Definition optional_settings : list string :=
  ["save_stats_interval"; "enable_dead_mans_switch"; "dead_mans_switch_timeout";
   "enable_health_check"; "health_check_port"; "enable_database"; "database_path";
   "min_order_size_usd"; "max_order_size_usd"; "taker_fee"; "maker_fee";
   "max_data_points"].

(** Names that begin with two underscores. The methods and the special
    attributes of a Python object ([__dict__], [__class__], [__init__],
    [__post_init__], [__dataclass_fields__], ...) are all of this form, and
    no field of [TradingConfig] is. *)
Definition reserved (name : string) : bool := String.prefix "__" name.

Section Config.
(** The values of a configuration, whatever their type. The configuration
    object is the map of its attributes. *)
Variable V : Type.

(** [_update_trading_config]; [config_data] is the mapping read from the
    file, as the list of its items. For a key that is not reserved [hasattr] is
    membership in the map of the attributes, and [setattr] on an attribute
    that exists overwrites it. For a reserved key [hasattr] can hold of a
    method or of a special attribute, and the assignment then changes the
    object in another way (assigning [__dict__] replaces all the attributes
    at once, or raises): this is outside the model, which stops there with
    [None]. *)
Definition _update_trading_config (config_data : list (string * V))
    (trading_config : gmap string V) : option (gmap string V) :=
  foldl (fun state item =>
           match state with
           | Some config =>
               if reserved item.1 then None
               else if bool_decide (is_Some (config !! item.1))
                    then Some (<[item.1 := item.2]> config)
                    else Some config
           | None => None
           end)
        (Some trading_config) config_data.

(** [TradingConfig()] with [initial] giving the value of each field. *)
Definition TradingConfig (initial : string -> V) : gmap string V :=
  list_to_map (map (fun field => (field, initial field)) TradingConfig_fields).

End Config.

(** [validate_config], on the attributes it reads; [exchange_configs] is
    the list of the configured exchange names. *)
Definition allowed_timeframes : list string := ["1m"; "5m"; "15m"; "1h"; "4h"; "1d"].

Definition validate_config (exchange_configs : list string)
    (max_position_size : pyfloat) (trading_pairs : list string) (timeframe : string)
  : outcome unit :=
  match exchange_configs with
  | [] =>
      Raise (ValueError
        "No exchange configurations found. Please set API keys in environment variables.")
  | _ =>
      if fle max_position_size (Fin 0) || fgt max_position_size (Fin 1)
      then Raise (ValueError "max_position_size must be between 0 and 1")
      else
        match trading_pairs with
        | [] => Raise (ValueError "No trading pairs configured")
        | _ =>
            if bool_decide (timeframe ∈ allowed_timeframes) then Return tt
            else Raise (ValueError ("Invalid timeframe: " ++ timeframe
                                      ++ ". Allowed values: "
                                      ++ KrakenExchange.str_list allowed_timeframes))
        end
  end.

(** The last value a configuration file gives for a key. *)
Definition last_setting {V} (key : string) (config_data : list (string * V)) : option V :=
  snd <$> List.find (fun item => String.eqb item.1 key) (rev config_data).

End ConfigManager.

(** ** bot.py: risk limits and the signal loop *)

Module RiskManagement.
Import TradingBot.

(** The fields of [BotStats] that [_check_risk_limits] writes. *)
Record BotStats := {
  current_drawdown : pyfloat;
  max_drawdown : pyfloat
}.

(** [self.config.max_drawdown] and [self.config.max_daily_loss] *)
Record risk_limits := {
  config_max_drawdown : pyfloat;
  config_max_daily_loss : pyfloat
}.

Section Risk.
Context {E : Type} `{BaseExchange E}.

(** [_check_risk_limits]. The divisor is positive or NaN past the first
    test, so the divisions do not raise. *)
Definition _check_risk_limits (limits : risk_limits) (stats : BotStats)
    (self : t E) (w : env) : BotStats * t E * env :=
  if fle (initial_balance self) (Fin 0) then (stats, self, w)
  else
    (* Calculate current drawdown *)
    let drawdown :=
      fdiv (fsub (initial_balance self) (account_balance self)) (initial_balance self) in
    let stats := {| current_drawdown := drawdown; max_drawdown := max_drawdown stats |} in
    let stats :=
      if fgt drawdown (max_drawdown stats)
      then {| current_drawdown := drawdown; max_drawdown := drawdown |}
      else stats in
    (* Check maximum drawdown limit *)
    let '(self, w) :=
      if fgt drawdown (config_max_drawdown limits) then
        let w := logged (Critical "Maximum drawdown exceeded") w in
        _emergency_close_all_positions (set_emergency_stop true self) w
      else (self, w) in
    (* Check daily loss limit *)
    let daily_loss :=
      fdiv (fsub (account_balance self) (initial_balance self)) (initial_balance self) in
    let '(self, w) :=
      if flt daily_loss (fneg (config_max_daily_loss limits)) then
        let w := logged (Critical "Daily loss limit exceeded") w in
        _emergency_close_all_positions (set_emergency_stop true self) w
      else (self, w) in
    (stats, self, w).

End Risk.

End RiskManagement.

Module SignalLoop.
Import TradingBot.

Section Loop.
Context {E : Type} `{BaseExchange E}.

(** The body of the loop of [_process_signals] for one symbol; an
    exception is logged and the loop goes on. *)
Definition process_symbol (config : StrategySignals.risk_parameters)
    (strategy : BTCCharlieStrategy.t) (symbol : string) (self : t E) (w : env)
  : t E * env :=
  match StrategySignals.generate_signal config symbol strategy with
  | Raise e => (self, logged (Error "Error processing signal") w)
  | Return signal_ =>
      let '(executed, self, w) :=
        match signal_ with
        | Some sig =>
            match signal sig with
            | HOLD => (Return tt, self, w)
            | _ => _execute_signal sig self w
            end
        | None => (Return tt, self, w)
        end in
      match executed with
      | Raise e => (self, logged (Error "Error processing signal") w)
      | Return _ =>
          (* Check for Stochastic RSI alerts (informational only) *)
          match StrategySignals.check_stoch_rsi_alerts symbol strategy with
          | Some stoch_alert => (self, logged (Info "Stochastic RSI Alert") w)
          | None => (self, w)
          end
      end
  end.

(** [_process_signals] *)
Definition _process_signals (config : StrategySignals.risk_parameters)
    (strategy : BTCCharlieStrategy.t) (trading_pairs : list string)
    (self : t E) (w : env) : t E * env :=
  foldl (fun state symbol => process_symbol config strategy symbol state.1 state.2)
        (self, w) trading_pairs.

End Loop.

End SignalLoop.

(** ** Vocabulary of further statements about the bot *)

Module LoopStatements.
Import TradingBot.

(** The order that closes a position. *)
Definition closing_order (position : Position) : call :=
  PlaceOrder (position_symbol position)
             (if String.eqb (side position) "long" then "sell" else "buy")
             (size position) "market".

(** How many times the positions were asked for. *)
Definition liquidations (calls_ : list call) : nat :=
  length (List.filter (fun c => match c with GetPositions => true | _ => false end)
                      calls_).

(** A bot on the paper exchange with the given initial and current
    balance. *)
Definition with_balances (initial balance : pyfloat) (self : t unit) : t unit :=
  {| cfg := cfg self; exchange := exchange self;
     active_positions := active_positions self;
     is_running := is_running self; emergency_stop := emergency_stop self;
     trades_executed := trades_executed self; account_balance := balance;
     initial_balance := initial; last_heartbeat := last_heartbeat self;
     dead_mans_switch_enabled := dead_mans_switch_enabled self;
     dead_mans_switch_timeout := dead_mans_switch_timeout self |}.

(** The limits of [TradingConfig]: 10% drawdown, 3% daily loss. *)
Definition default_limits : RiskManagement.risk_limits :=
  {| RiskManagement.config_max_drawdown := Fin (10 # 100);
     RiskManagement.config_max_daily_loss := Fin (3 # 100) |}.

Definition fresh_stats : RiskManagement.BotStats :=
  {| RiskManagement.current_drawdown := Fin 0; RiskManagement.max_drawdown := Fin 0 |}.

(** The risk parameters of [TradingConfig]: 2% stop, 4% target. *)
Definition default_risk : StrategySignals.risk_parameters :=
  {| StrategySignals.stop_loss_percentage := Fin (2 # 100);
     StrategySignals.take_profit_percentage := Fin (4 # 100) |}.

(** Twenty-eight candles at 100, then one at 110. *)
Definition crossing_market : list BTCCharlieStrategy.candle :=
  StrategyStatements.candles_of (repeat 100%Q 28 ++ [110%Q]).

End LoopStatements.

(* ===================================================================== *)
(** * Part II: properties                                                 *)
(* ===================================================================== *)

(** ** Python values *)

Lemma int_of_str_str (n : Z) : int_of_str (str n) = Some n.
Proof.
  unfold int_of_str, str.
  rewrite NilZero.isi.
  - cbn. f_equal. apply DecimalZ.of_to.
  - destruct n; cbn; [discriminate | |]; intros [= H];
      exact (DecimalPos.Unsigned.to_uint_nonnil _ H).
  - destruct n; cbn; [discriminate | |]; intros [= H];
      exact (DecimalPos.Unsigned.to_uint_nonnil _ H).
Qed.

(** ** Nonces *)

Section Nonce.
Import KrakenNonceManager.

Lemma get_nonce_value now self :
  get_nonce now self =
    (str (Z.max (int_of_float (now * 1000)) (last_nonce self + 1)),
     {| last_nonce := Z.max (int_of_float (now * 1000)) (last_nonce self + 1) |}).
Proof.
  unfold get_nonce.
  destruct (Z.leb_spec (int_of_float (now * 1000)) (last_nonce self)).
  - rewrite Z.max_r by lia. reflexivity.
  - rewrite Z.max_l by lia. reflexivity.
Qed.

Lemma get_nonce_advances now self :
  last_nonce self < last_nonce (get_nonce now self).2.
Proof. rewrite get_nonce_value. cbn. lia. Qed.

Lemma get_nonces_sorted clock : forall self,
  exists ns : list Z,
    Forall2 (fun s n => int_of_str s = Some n) (get_nonces clock self).1 ns /\
    StronglySorted Z.lt (last_nonce self :: ns).
Proof.
  induction clock as [|now rest IH]; intros self.
  - exists []. cbn. split; [constructor | repeat constructor].
  - cbn [get_nonces].
    pose proof (get_nonce_advances now self) as Hadv.
    rewrite get_nonce_value in *. cbn [snd] in Hadv.
    set (n := Z.max _ _) in *.
    destruct (IH {| last_nonce := n |}) as (ns & Hparse & Hsorted).
    destruct (get_nonces rest {| last_nonce := n |}) as [ss self'] eqn:E.
    cbn [fst snd last_nonce] in *.
    exists (n :: ns). split.
    + constructor; [apply int_of_str_str | exact Hparse].
    + constructor; [exact Hsorted |].
      constructor; [exact Hadv |].
      apply StronglySorted_inv in Hsorted as [_ Hall].
      eapply Forall_impl; [exact Hall |]. cbn. intros; lia.
Qed.

(** C5. Whatever the clock readings are (advancing, stalled or running
    backwards), the nonces returned by successive [get_nonce] calls are
    decimal strings of integers that strictly increase, each also greater
    than the value stored before the first call; a single call returns the
    larger of the clock's milliseconds and the last nonce plus one, so a
    clock that did not advance still moves the nonce by at least 1. *)
Theorem get_nonce_strictly_increasing (self : t) (clock : list Q) :
  (exists ns : list Z,
      Forall2 (fun s n => int_of_str s = Some n) (get_nonces clock self).1 ns /\
      StronglySorted Z.lt (last_nonce self :: ns)) /\
  (forall now : Q,
      (get_nonce now self).1 =
        str (Z.max (int_of_float (now * 1000)) (last_nonce self + 1)) /\
      last_nonce self + 1 <= last_nonce (get_nonce now self).2).
Proof.
  split.
  - destruct (get_nonces_sorted clock self) as (ns & H1 & H2). eauto.
  - intros now. rewrite get_nonce_value. cbn. split; [reflexivity | lia].
Qed.

End Nonce.

(** ** Symbol aliases *)

Section Aliases.
Import KrakenExchange ExchangeStatements.

Lemma kraken_map_entries c a :
  kraken_map !! c = Some a ->
  (c = "BTC" /\ a = "XBT") \/ (c = "USDT" /\ a = "USD") \/ (c = "USDC" /\ a = "USD").
Proof.
  intros H. apply elem_of_list_to_map_2 in H.
  unfold kraken_entries in H.
  repeat (apply elem_of_cons in H as [[= -> ->] | H]; [tauto |]).
  apply elem_of_nil in H. contradiction.
Qed.

Lemma prefix_Z_inv c : String.prefix "Z" c = true -> exists rest, c = String "Z" rest.
Proof.
  destruct c as [|a rest]; cbn -[ascii_dec]; [discriminate |].
  destruct (ascii_dec "Z"%char a) as [<- | _]; [eauto | intros; discriminate].
Qed.

Lemma string_not_own_tail a (s : string) : s <> String a s.
Proof.
  intros H. apply (f_equal String.length) in H. cbn in H. lia.
Qed.

Lemma balance_currency_fixed c :
  balance_currency c = c <-> String.prefix "Z" c = false /\ c <> "XXBT".
Proof.
  unfold balance_currency. destruct (String.prefix "Z" c) eqn:Ez.
  - split; [| intros [? _]; discriminate].
    destruct (prefix_Z_inv c Ez) as [rest ->]. intros H.
    exfalso. exact (string_not_own_tail _ _ H).
  - destruct (String.eqb_spec c "XXBT") as [-> | Hne].
    + split; [discriminate | intros [_ H]; congruence].
    + tauto.
Qed.

(** C3, as the code has it. The forward conversion replaces each table
    entry by its alias; the key conversion of [get_balance] (strip a
    leading "Z", turn "XXBT" into "BTC") leaves those aliases unchanged,
    so going forth and back yields the alias and not the canonical code,
    for single codes and for pairs of entries alike. Forth and back is the
    identity exactly on the codes outside the table that neither start with
    "Z" nor are "XXBT". *)
Theorem alias_round_trip (c : string) :
  Forall (fun '(canonical, alias) =>
            kraken_map !! canonical = Some alias /\
            balance_currency alias = alias /\ alias <> canonical)
         kraken_entries /\
  Forall (fun '((base, base_alias), (quote, quote_alias)) =>
            pair_round_trip (base ++ "/" ++ quote)
              = Return (base_alias ++ quote_alias)%string /\
            (base_alias ++ quote_alias)%string <> (base ++ "/" ++ quote)%string)
         (list_prod kraken_entries kraken_entries) /\
  (balance_currency (default c (kraken_map !! c)) = c <->
   kraken_map !! c = None /\ String.prefix "Z" c = false /\ c <> "XXBT").
Proof.
  split; [| split].
  - repeat constructor; discriminate.
  - repeat constructor; discriminate.
  - destruct (kraken_map !! c) as [a|] eqn:E; cbn [default].
    + split; [| intros [? _]; discriminate].
      apply kraken_map_entries in E as [[-> ->] | [[-> ->] | [-> ->]]]; discriminate.
    + rewrite balance_currency_fixed. tauto.
Qed.

(** C3, counterexample to the reading of the specification: BTC/USDT goes
    to XBTUSD, and the key conversion of [get_balance] leaves XBTUSD as it
    is; BTC/USDC goes to the same code, so no conversion back could recover
    both. *)
Lemma alias_round_trip_loses_pair :
  pair_round_trip "BTC/USDT" = Return "XBTUSD" /\
  pair_round_trip "BTC/USDT" <> Return "BTC/USDT" /\
  _convert_symbol_to_kraken "BTC/USDC" = _convert_symbol_to_kraken "BTC/USDT".
Proof. repeat split. discriminate. Qed.

End Aliases.

(** ** Error handling of private requests *)

Section Requests.
Import KrakenExchange ExchangeStatements.

Lemma read_error_reply r error_msg :
  error_reply r error_msg -> read_response r = ApiError error_msg.
Proof.
  intros (Hs & b & Hb & He & ->). unfold read_response.
  rewrite Hs, Hb. cbn. destruct (error b); [congruence | reflexivity].
Qed.

(** One attempt, by the class of the error it receives. *)
Lemma make_request_on_error method endpoint data retry_count self w
    data1 r self1 w1 error_msg :
  send method endpoint data self (_check_lockout self w) = (data1, r, self1, w1) ->
  error_reply r error_msg ->
  _make_request method endpoint data retry_count self w =
    match classify_error error_msg with
    | InvalidKey =>
        (Raise (api_failure error_msg),
         set_lockout_until (clock w1 (ticks w1) + 900) self1, (time_ w1).2)
    | InvalidNonce =>
        if (retry_count <? 3)%nat
        then _make_request method endpoint data1 (S retry_count) self1 (sleep (1 # 10) w1)
        else (Raise (api_failure error_msg), self1, w1)
    | RateLimit =>
        (Raise (api_failure error_msg),
         set_lockout_until (clock w1 (ticks w1) + 300) self1, (time_ w1).2)
    | OtherError => (Raise (api_failure error_msg), self1, w1)
    end.
Proof.
  intros Hsend Hr. apply read_error_reply in Hr.
  rewrite _make_request_equation_1, Hsend. cbn -[Nat.ltb]. rewrite Hr. cbn -[Nat.ltb].
  destruct (classify_error error_msg); cbn -[Nat.ltb]; try reflexivity.
  destruct (Nat.ltb_spec retry_count 3), (lt_dec retry_count 3); try lia; reflexivity.
Qed.

Lemma check_lockout_world self w :
  http (_check_lockout self w) = http w /\
  requests (_check_lockout self w) = requests w /\
  clock (_check_lockout self w) = clock w.
Proof.
  unfold _check_lockout. cbn. destruct (Qltb _ _); cbn; auto.
Qed.

(** What a private attempt sends: the response is the next one of the
    world, the nonce in the posted data is new, the lockout is untouched. *)
Lemma send_private method endpoint data self w :
  String.eqb method "GET" = false ->
  let sent := send method endpoint data self w in
  sent.1.1.2 = http w (requests w) /\
  http sent.2 = http w /\
  clock sent.2 = clock w /\
  requests sent.2 = S (requests w) /\
  lockout_until sent.1.2 = lockout_until self /\
  KrakenNonceManager.last_nonce (nonce_manager self)
    < KrakenNonceManager.last_nonce (nonce_manager sent.1.2) /\
  exists d,
    sent.1.1.1 = Some d /\
    d !! "nonce" = Some (str (KrakenNonceManager.last_nonce (nonce_manager sent.1.2))) /\
    exists earlier, events sent.2 = earlier ++ [Post (base_url self ++ endpoint) d].
Proof.
  intros Hm. unfold send. rewrite Hm. cbn -[KrakenNonceManager.get_nonce].
  rewrite get_nonce_value.
  cbn. destruct (Qltb _ _); cbn.
  all: repeat split; try lia.
  all: eexists; split; [reflexivity |]; split; [apply lookup_insert_eq | eauto].
Qed.

(** Retries: with [n] retries left, [n + 1] invalid-nonce replies in a row
    exhaust them. *)
Lemma retry_exhaustion method endpoint (n : nat) : forall data retry_count self w,
  String.eqb method "GET" = false ->
  (retry_count + n = 3)%nat ->
  (forall k, (k <= n)%nat ->
     exists msg, error_reply (http w (requests w + k)%nat) msg /\
                 classify_error msg = InvalidNonce) ->
  exists msg self' w',
    _make_request method endpoint data retry_count self w
      = (Raise (api_failure msg), self', w') /\
    requests w' = (requests w + S n)%nat /\
    lockout_until self' = lockout_until self /\
    KrakenNonceManager.last_nonce (nonce_manager self) + Z.of_nat (S n)
      <= KrakenNonceManager.last_nonce (nonce_manager self').
Proof.
  induction n as [|n IH]; intros data retry_count self w Hm Hrc Hall.
  - destruct (send method endpoint data self (_check_lockout self w))
      as [[[data1 r] self1] w1] eqn:Es.
    pose proof (send_private method endpoint data self (_check_lockout self w) Hm) as Hs.
    rewrite Es in Hs. cbn [fst snd] in Hs.
    destruct Hs as (Hr & Hhttp & Hclock & Hreq & Hlock & Hnonce & _).
    destruct (check_lockout_world self w) as (C1 & C2 & C3).
    destruct (Hall 0%nat) as (msg & Hmsg & Hclass); [lia |].
    rewrite Nat.add_0_r in Hmsg. rewrite <- C1, <- C2, <- Hr in Hmsg.
    rewrite (make_request_on_error _ _ _ _ _ _ _ _ _ _ _ Es Hmsg), Hclass.
    replace retry_count with 3%nat by lia. cbn [Nat.ltb Nat.leb].
    exists msg, self1, w1. repeat split; [lia | exact Hlock | lia].
  - destruct (send method endpoint data self (_check_lockout self w))
      as [[[data1 r] self1] w1] eqn:Es.
    pose proof (send_private method endpoint data self (_check_lockout self w) Hm) as Hs.
    rewrite Es in Hs. cbn [fst snd] in Hs.
    destruct Hs as (Hr & Hhttp & Hclock & Hreq & Hlock & Hnonce & _).
    destruct (check_lockout_world self w) as (C1 & C2 & C3).
    destruct (Hall 0%nat) as (msg & Hmsg & Hclass); [lia |].
    rewrite Nat.add_0_r in Hmsg. rewrite <- C1, <- C2, <- Hr in Hmsg.
    rewrite (make_request_on_error _ _ _ _ _ _ _ _ _ _ _ Es Hmsg), Hclass.
    destruct (Nat.ltb_spec retry_count 3); [| lia].
    destruct (IH data1 (S retry_count) self1 (sleep (1 # 10) w1) Hm)
      as (msg' & self' & w' & H1 & H2 & H3 & H4); [lia | |].
    { intros k Hk. cbn [sleep log requests http].
      rewrite Hhttp, C1, Hreq, C2.
      replace (S (requests w) + k)%nat with (requests w + S k)%nat by lia.
      apply Hall. lia. }
    exists msg', self', w'. split; [exact H1 |].
    cbn [sleep log requests] in H2. rewrite Hreq, C2 in H2.
    repeat split; [lia | congruence | lia].
Qed.


(** A response with another status than 200 fails the call at once. *)
Lemma make_request_on_other_status method endpoint data retry_count self w
    data1 r self1 w1 :
  send method endpoint data self (_check_lockout self w) = (data1, r, self1, w1) ->
  status_code r <> 200 ->
  _make_request method endpoint data retry_count self w =
    (Raise (Exception ("HTTP " ++ str (status_code r) ++ ": " ++ text r)), self1, w1).
Proof.
  intros Hsend Hs. rewrite _make_request_equation_1, Hsend. cbn.
  unfold read_response. apply Z.eqb_neq in Hs. rewrite Hs. reflexivity.
Qed.

(** C6, as the code has it. A private attempt posts a nonce larger than
    any issued before and leaves the lockout as it was. A response whose
    status is not 200 fails the call without lockout or retry. When the
    response has status 200 and a non-empty error member, the call is
    settled by the first matching class of the message: invalid key sets
    the lockout to the current time plus 900 seconds and fails; invalid
    nonce, while fewer than 3 retries were made, sleeps 0.1 seconds and
    makes the same call again, and fails without lockout otherwise; rate
    limit sets the lockout to the current time plus 300 seconds and fails;
    any other error fails and leaves the lockout as it was. Four
    invalid-nonce replies in a row end a fresh call in failure after four
    requests, each with its own nonce, the lockout unchanged. *)
Theorem private_request_error_handling (method endpoint : string) (data : option dict)
    (retry_count : nat) (self : t) (w : world) :
  String.eqb method "GET" = false ->
  let sent := send method endpoint data self (_check_lockout self w) in
  KrakenNonceManager.last_nonce (nonce_manager self)
    < KrakenNonceManager.last_nonce (nonce_manager sent.1.2) /\
  lockout_until sent.1.2 = lockout_until self /\
  (status_code sent.1.1.2 <> 200 ->
   _make_request method endpoint data retry_count self w =
     (Raise (Exception ("HTTP " ++ str (status_code sent.1.1.2) ++ ": "
                          ++ text sent.1.1.2)),
      sent.1.2, sent.2)) /\
  (forall error_msg,
     error_reply sent.1.1.2 error_msg ->
     _make_request method endpoint data retry_count self w =
       match classify_error error_msg with
       | InvalidKey =>
           (Raise (api_failure error_msg),
            set_lockout_until (clock sent.2 (ticks sent.2) + 900) sent.1.2,
            (time_ sent.2).2)
       | InvalidNonce =>
           if (retry_count <? 3)%nat
           then _make_request method endpoint sent.1.1.1 (S retry_count) sent.1.2
                              (sleep (1 # 10) sent.2)
           else (Raise (api_failure error_msg), sent.1.2, sent.2)
       | RateLimit =>
           (Raise (api_failure error_msg),
            set_lockout_until (clock sent.2 (ticks sent.2) + 300) sent.1.2,
            (time_ sent.2).2)
       | OtherError => (Raise (api_failure error_msg), sent.1.2, sent.2)
       end) /\
  ((forall k, (k <= 3)%nat ->
      exists msg, error_reply (http w (requests w + k)%nat) msg /\
                  classify_error msg = InvalidNonce) ->
   exists msg self' w',
     _make_request method endpoint data 0 self w = (Raise (api_failure msg), self', w') /\
     requests w' = (requests w + 4)%nat /\
     lockout_until self' = lockout_until self /\
     KrakenNonceManager.last_nonce (nonce_manager self) + 4
       <= KrakenNonceManager.last_nonce (nonce_manager self')).
Proof.
  intros Hm sent.
  pose proof (send_private method endpoint data self (_check_lockout self w) Hm) as Hs.
  fold sent in Hs. cbn zeta in Hs.
  destruct Hs as (_ & _ & _ & _ & Hlock & Hnonce & _).
  assert (Hsent : send method endpoint data self (_check_lockout self w)
                  = (sent.1.1.1, sent.1.1.2, sent.1.2, sent.2)).
  { unfold sent. now destruct (send _ _ _ _ _) as [[[? ?] ?] ?]. }
  split; [exact Hnonce |]. split; [exact Hlock |]. split; [| split].
  - intros Hstatus. now apply (make_request_on_other_status _ _ _ _ _ _ _ _ _ _ Hsent).
  - intros error_msg Hreply.
    now apply (make_request_on_error _ _ _ _ _ _ _ _ _ _ _ Hsent).
  - intros Hall.
    apply (retry_exhaustion method endpoint 3 data 0%nat self w Hm eq_refl Hall).
Qed.

(** C6, counterexample to the reading of the specification: a response
    with status 201, a 2xx status, that carries the invalid-key error fails
    the call as a transport failure and sets no lockout. *)
Lemma created_status_sets_no_lockout :
  let r := error_response 201 "EAPI:Invalid key" in
  let call := _make_request "POST" "/0/private/Balance" None 0 __init__ (always r) in
  200 <= status_code r < 300 /\
  (exists b, json_body r = Some b /\ error b <> [] /\
             classify_error (str_list (error b)) = InvalidKey) /\
  call.1.1 = Raise (Exception "HTTP 201: ") /\
  lockout_until call.1.2 = lockout_until __init__.
Proof.
  intros r call. split; [cbn; lia |]. split.
  - eexists. split; [reflexivity |]. split; [discriminate | reflexivity].
  - split; vm_compute; reflexivity.
Qed.

Lemma private_request_error_handling_witness :
  let w := always (error_response 200 "EAPI:Invalid nonce") in
  let sent := send "POST" "/0/private/Balance" None __init__ (_check_lockout __init__ w) in
  String.eqb "POST" "GET" = false /\
  error_reply sent.1.1.2 "['EAPI:Invalid nonce']" /\
  exists msg self' w',
    _make_request "POST" "/0/private/Balance" None 0 __init__ w
      = (Raise (api_failure msg), self', w') /\
    requests w' = (requests w + 4)%nat /\
    lockout_until self' = lockout_until __init__ /\
    KrakenNonceManager.last_nonce (nonce_manager __init__) + 4
      <= KrakenNonceManager.last_nonce (nonce_manager self').
Proof.
  intros w sent.
  assert (Hreply : forall k : nat,
             error_reply (http w k) "['EAPI:Invalid nonce']").
  { intros k. split; [reflexivity |]. eexists. split; [reflexivity |].
    split; [discriminate | reflexivity]. }
  split; [reflexivity |]. split; [apply (Hreply 0%nat) |].
  apply (private_request_error_handling "POST" "/0/private/Balance" None 0
           __init__ w eq_refl).
  intros k _. exists "['EAPI:Invalid nonce']". split; [apply Hreply | reflexivity].
Defined.

End Requests.


(** ** The counter state machine *)

Section Counters.
Import BTCCharlieStrategy.

(** One iteration of the loop on the two locals. *)
Lemma counter_loop_cons cb cs prev r rest :
  counter_loop cb cs prev (r :: rest) =
    let cb' := if sell r then 0 else if buy r then cb + 1 else cb in
    let cs' := if sell r then (if buy r then 0 else cs) + 1 else if buy r then 0 else cs in
    {| ind := r;
       countBuy := cb';
       countSell := cs';
       buysignal :=
         match prev with
         | Some p => (cb' <? 2) && (cb' >? 0) && (cs' <? 1) && buy r && negb (buy p)
         | None => false
         end;
       sellsignal :=
         match prev with
         | Some p => (cs' >? 0) && (cs' <? 2) && (cb' <? 1) && sell r && negb (sell p)
         | None => false
         end;
       bull := cb' >? 1;
       bear := cs' >? 1 |} :: counter_loop cb' cs' (Some r) rest.
Proof. cbn. destruct (buy r), (sell r), prev; reflexivity. Qed.

Lemma counter_loop_length df : forall cb cs prev,
  length (counter_loop cb cs prev df) = length df.
Proof.
  induction df as [|r rest IH]; intros; [reflexivity |].
  rewrite counter_loop_cons. cbn. now rewrite IH.
Qed.

Lemma counter_loop_ind df : forall cb cs prev,
  map ind (counter_loop cb cs prev df) = df.
Proof.
  induction df as [|r rest IH]; intros; [reflexivity |].
  rewrite counter_loop_cons. cbn. now rewrite IH.
Qed.

(** The invariant of the loop, from any admissible pair of counters. *)
Lemma counter_step_invariant (b s : bool) (cb cs : Z) :
  0 <= cb -> 0 <= cs -> cb = 0 \/ cs = 0 ->
  let cb' := if s then 0 else if b then cb + 1 else cb in
  let cs' := if s then (if b then 0 else cs) + 1 else if b then 0 else cs in
  0 <= cb' /\ 0 <= cs' /\ (cb' = 0 \/ cs' = 0) /\
  (cb' = 0 /\ cs' = 0 <-> cb = 0 /\ cs = 0 /\ b = false /\ s = false).
Proof. destruct b, s; cbn; intuition (try lia; try discriminate). Qed.

Lemma counter_loop_invariant df : forall cb cs prev i r,
  0 <= cb -> 0 <= cs -> cb = 0 \/ cs = 0 ->
  counter_loop cb cs prev df !! i = Some r ->
  0 <= countBuy r /\ 0 <= countSell r /\
  (countBuy r = 0 \/ countSell r = 0) /\
  (countBuy r = 0 /\ countSell r = 0 <->
   cb = 0 /\ cs = 0 /\
   forall j x, (j <= i)%nat -> df !! j = Some x -> buy x = false /\ sell x = false).
Proof.
  induction df as [|x rest IH]; intros cb cs prev i r Hcb Hcs Hex Hi; [discriminate |].
  rewrite counter_loop_cons in Hi. cbn zeta in Hi.
  pose proof (counter_step_invariant (buy x) (sell x) cb cs Hcb Hcs Hex) as Hstep.
  cbn zeta in Hstep. destruct Hstep as (S1 & S2 & S3 & S4).
  destruct i as [|i].
  - cbn in Hi. injection Hi as <-. cbn [countBuy countSell].
    split; [exact S1 |]. split; [exact S2 |]. split; [exact S3 |].
    rewrite S4. split.
    + intros (-> & -> & Hb & Hs). split; [reflexivity |]. split; [reflexivity |].
      intros [|j] y Hj Hy; [| lia]. cbn in Hy. injection Hy as <-. now split.
    + intros (-> & -> & Hall). destruct (Hall 0%nat x) as [Hb Hs]; [lia | reflexivity |].
      now repeat split.
  - cbn [lookup list_lookup] in Hi.
    apply IH in Hi; [| assumption ..].
    destruct Hi as (H1 & H2 & H3 & H4).
    split; [exact H1 |]. split; [exact H2 |]. split; [exact H3 |].
    rewrite H4. split.
    + intros (E1 & E2 & Hall). destruct S4 as [S4 _].
      destruct (S4 (conj E1 E2)) as (-> & -> & Hb & Hs).
      split; [reflexivity |]. split; [reflexivity |].
      intros [|j] y Hj Hy.
      * cbn in Hy. injection Hy as <-. now split.
      * cbn in Hy. apply (Hall j y); [lia | exact Hy].
    + intros (E1 & E2 & Hall). destruct S4 as [_ S4].
      destruct (Hall 0%nat x) as [Hb Hs]; [lia | reflexivity |].
      destruct S4 as [E3 E4]; [now repeat split |].
      split; [exact E3 |]. split; [exact E4 |].
      intros j y Hj Hy. apply (Hall (S j) y); [lia | exact Hy].
Qed.

(** C8. In the frame returned by [_calculate_counter_logic], on every row
    both counters are non-negative and at most one of them is nonzero; both
    are zero exactly on the rows up to which neither [buy] nor [sell] has
    held yet, so from the first such candle on exactly one is nonzero. *)
Theorem counters_mutually_exclusive (df : list irow) (symbol : string) (self : t)
    (i : nat) (r : row) :
  (_calculate_counter_logic df symbol self).1 !! i = Some r ->
  0 <= countBuy r /\ 0 <= countSell r /\
  (countBuy r = 0 \/ countSell r = 0) /\
  (countBuy r = 0 /\ countSell r = 0 <->
   forall j x, (j <= i)%nat -> df !! j = Some x -> buy x = false /\ sell x = false).
Proof.
  cbn [_calculate_counter_logic fst]. intros Hi.
  eapply counter_loop_invariant in Hi; [| lia ..].
  destruct Hi as (H1 & H2 & H3 & H4).
  split; [exact H1 |]. split; [exact H2 |]. split; [exact H3 |].
  rewrite H4. tauto.
Qed.

Lemma counters_mutually_exclusive_witness :
  let df := _calculate_indicators (__init__ None)
              (StrategyStatements.candles_of [26; 13; 40; 50; 60]%Q) in
  exists r,
    (_calculate_counter_logic df "BTC/USD" (__init__ None)).1 !! 2%nat = Some r /\
    0 <= countBuy r /\ 0 <= countSell r /\
    (countBuy r = 0 \/ countSell r = 0) /\
    (countBuy r = 0 /\ countSell r = 0 <->
     forall j x, (j <= 2)%nat -> df !! j = Some x -> buy x = false /\ sell x = false).
Proof.
  intros df.
  let d := eval vm_compute in
    ((_calculate_counter_logic df "BTC/USD" (__init__ None)).1 !! 2%nat) in
  match d with Some ?r => exists r end.
  split; [vm_compute; reflexivity |].
  apply (counters_mutually_exclusive df "BTC/USD" (__init__ None) 2%nat).
  vm_compute; reflexivity.
Defined.

End Counters.

(** ** Signals on a run of [buy] candles *)

Section BuyRuns.
Import BTCCharlieStrategy StrategyStatements.

(** [buy] and [sell] compare the same two averages and exclude each other. *)
Lemma indicators_exclusive self candles r :
  r ∈ _calculate_indicators self candles -> buy r = true -> sell r = false.
Proof.
  unfold _calculate_indicators.
  destruct (_calculate_stochastic_rsi _ _ _ _) as [col_k col_d].
  intros Hin. apply elem_of_lookup_imap in Hin as (i & c & -> & _). cbn.
  destruct (Qcompare _ _); [discriminate | discriminate | reflexivity].
Qed.

(** Inside a run the previous candle has [buy], so no signal is written. *)
Lemma no_signal_inside_run run : forall cb cs q post,
  buy q = true ->
  Forall (fun r => buy r = true) run ->
  map buysignal (take (length run) (counter_loop cb cs (Some q) (run ++ post)))
  = repeat false (length run).
Proof.
  induction run as [|r run IH]; intros cb cs q post Hq Hrun; [reflexivity |].
  apply Forall_cons in Hrun as [Hr Hrun].
  cbn [app length]. rewrite counter_loop_cons. cbn zeta.
  cbn [take map buysignal repeat]. rewrite Hq. cbn [negb].
  rewrite andb_false_r. f_equal. now apply IH.
Qed.

(** The first candle of a run fires exactly when the counter it inherits
    is zero. *)
Lemma first_of_run_fires (cb : Z) :
  (cb + 1 <? 2) && (cb + 1 >? 0) && (0 <? 1) && true && negb false = (cb =? 0).
Proof.
  cbn. rewrite !andb_true_r.
  destruct (Z.ltb_spec (cb + 1) 2), (Z.gtb_spec (cb + 1) 0), (Z.eqb_spec cb 0);
    cbn; lia || reflexivity.
Qed.

Lemma run_signals_loop pre : forall cb cs prev p run post,
  buy p = false ->
  Forall (fun r => buy r = true /\ sell r = false) run ->
  exists rp,
    counter_loop cb cs prev (pre ++ p :: run ++ post) !! length pre = Some rp /\
    ind rp = p /\
    (sell p = true -> countBuy rp = 0) /\
    run_signals pre run (counter_loop cb cs prev (pre ++ p :: run ++ post))
    = match run with
      | [] => []
      | _ :: tl => (countBuy rp =? 0) :: repeat false (length tl)
      end.
Proof.
  induction pre as [|x pre IH]; intros cb cs prev p run post Hp Hrun.
  - cbn [app length]. rewrite counter_loop_cons. cbn zeta.
    eexists. split; [reflexivity |]. cbn [ind countBuy].
    split; [reflexivity |]. split; [now intros -> |].
    unfold run_signals. cbn [length drop].
    destruct run as [|r tl]; [reflexivity |].
    apply Forall_cons in Hrun as [[Hb Hs] Htl].
    cbn [app length]. rewrite counter_loop_cons. cbn zeta.
    rewrite Hb, Hs, Hp. cbn [drop take map buysignal]. f_equal.
    + apply first_of_run_fires.
    + apply no_signal_inside_run; [exact Hb |].
      eapply Forall_impl; [exact Htl |]. now intros ? [? _].
  - cbn [app length]. rewrite counter_loop_cons. cbn zeta.
    destruct (IH (if sell x then 0 else if buy x then cb + 1 else cb)
                 (if sell x then (if buy x then 0 else cs) + 1
                  else if buy x then 0 else cs)
                 (Some x) p run post Hp Hrun) as (rp & H1 & H2 & H3 & H4).
    exists rp. split; [exact H1 |]. split; [exact H2 |]. split; [exact H3 |].
    exact H4.
Qed.

(** C7, as the code has it. For a run of at least two [buy] candles that
    follows a candle without [buy], no candle of the run after the first
    carries [buysignal], and the first one carries it exactly when the
    candle before the run has [countBuy = 0]; that is the case when that
    candle has [sell]. A neutral candle keeps the [countBuy] of an earlier
    run, and then the run carries no [buysignal] at all. *)
Theorem buy_signal_on_fresh_run (self : t) (symbol : string) (candles : list candle)
    (pre : list irow) (p : irow) (run post : list irow) :
  let df := _calculate_indicators self candles in
  let rows := (_calculate_counter_logic df symbol self).1 in
  df = pre ++ p :: run ++ post ->
  buy p = false ->
  Forall (fun r => buy r = true) run ->
  (2 <= length run)%nat ->
  exists rp,
    rows !! length pre = Some rp /\
    ind rp = p /\
    (sell p = true -> countBuy rp = 0) /\
    run_signals pre run rows = (countBuy rp =? 0) :: repeat false (length run - 1).
Proof.
  intros df rows Hdf Hp Hrun Hlen. subst rows. cbn [_calculate_counter_logic fst].
  assert (Hexcl : Forall (fun r => buy r = true /\ sell r = false) run).
  { apply Forall_forall. intros r Hr.
    assert (Hb : buy r = true) by (eapply Forall_forall in Hrun; eauto).
    split; [exact Hb |]. apply (indicators_exclusive self candles); [| exact Hb].
    fold df. rewrite Hdf. apply list_elem_of_In. apply in_or_app. right. right.
    apply in_or_app. left. now apply list_elem_of_In. }
  rewrite Hdf.
  destruct (run_signals_loop pre 0 0 None p run post Hp Hexcl) as (rp & H1 & H2 & H3 & H4).
  exists rp. split; [exact H1 |]. split; [exact H2 |]. split; [exact H3 |].
  rewrite H4. destruct run as [|r tl]; [cbn in Hlen; lia |].
  cbn [length]. now rewrite Nat.sub_succ, Nat.sub_0_r.
Qed.


(** C7, counterexample to the reading of the specification. Closes 13, 26,
    3, 26, 26: the second candle is a [buy] candle and fires; on the third
    the two averages coincide (171/13), a neutral candle that keeps
    [countBuy = 1]; the run formed by the last two candles then starts at
    [countBuy = 2] and carries no [buysignal]. *)
Lemma buy_run_after_neutral_never_fires :
  ~ buy_run_fires_once (__init__ None) "BTC/USD" (candles_of [13; 26; 3; 26; 26]%Q).
Proof.
  unfold buy_run_fires_once. intros H.
  let d := eval vm_compute in
    (_calculate_indicators (__init__ None) (candles_of [13; 26; 3; 26; 26]%Q)) in
  match d with
  | [?a; ?b; ?c; ?x; ?y] => specialize (H [a; b] c [x; y] [])
  end.
  assert (H' := H ltac:(vm_compute; reflexivity) ltac:(reflexivity)
                  ltac:(repeat constructor) ltac:(cbn; lia)).
  vm_compute in H'. discriminate H'.
Qed.

(** A run that follows a [sell] candle: closes 26, 13, 40, 50, 60. *)
Lemma buy_signal_on_fresh_run_witness :
  exists pre p run,
    _calculate_indicators (__init__ None) (candles_of [26; 13; 40; 50; 60]%Q)
      = pre ++ p :: run ++ [] /\
    buy p = false /\ sell p = true /\
    exists rp,
      (_calculate_counter_logic
         (_calculate_indicators (__init__ None) (candles_of [26; 13; 40; 50; 60]%Q))
         "BTC/USD" (__init__ None)).1 !! length pre = Some rp /\
      ind rp = p /\
      (sell p = true -> countBuy rp = 0) /\
      run_signals pre run
        (_calculate_counter_logic
           (_calculate_indicators (__init__ None) (candles_of [26; 13; 40; 50; 60]%Q))
           "BTC/USD" (__init__ None)).1
      = (countBuy rp =? 0) :: repeat false (length run - 1).
Proof.
  let d := eval vm_compute in
    (_calculate_indicators (__init__ None) (candles_of [26; 13; 40; 50; 60]%Q)) in
  match d with
  | [?a; ?b; ?c; ?x; ?y] => exists [a], b, [c; x; y]
  end.
  split; [vm_compute; reflexivity |].
  split; [reflexivity |]. split; [reflexivity |].
  apply (buy_signal_on_fresh_run (__init__ None) "BTC/USD"
           (candles_of [26; 13; 40; 50; 60]%Q) _ _ _ []).
  - vm_compute; reflexivity.
  - reflexivity.
  - repeat constructor.
  - cbn; lia.
Defined.

End BuyRuns.

(** ** Counters across calls of [update_market_data] *)

Section AcrossCalls.
Import BTCCharlieStrategy StrategyStatements.

Lemma update_keeps_parameters symbol data self :
  same_parameters (update_market_data symbol data self).2 self.
Proof.
  unfold update_market_data, _calculate_counter_logic.
  destruct data; [repeat split |].
  destruct (counters self !! symbol), (List.last _ None); repeat split.
Qed.

Lemma indicators_same_parameters s1 s2 df :
  same_parameters s1 s2 -> _calculate_indicators s1 df = _calculate_indicators s2 df.
Proof.
  intros (_ & H1 & H2 & H3 & H4 & H5 & H6 & H7).
  unfold _calculate_indicators. now rewrite H1, H2, H3, H4, H5, H6, H7.
Qed.

Lemma window_same_parameters s1 s2 data :
  same_parameters s1 s2 -> window s1 data = window s2 data.
Proof. intros (H & _). unfold window. now rewrite H. Qed.

Lemma window_nonempty self data :
  data <> [] -> 0 < default 500 (max_data_points self) -> window self data <> [].
Proof.
  intros Hne Hpos. unfold window, iloc_from.
  set (m := default 500 (max_data_points self)) in *.
  destruct (Z.gtb_spec (Z.of_nat (length data)) m) as [Hgt|Hle]; [| exact Hne].
  destruct (Z.ltb_spec (- m) 0); [| lia].
  intros Hnil. apply (f_equal (@length _)) in Hnil.
  rewrite length_drop in Hnil. cbn in Hnil. lia.
Qed.

Lemma last_some_nonempty {A} (l : list A) :
  l <> [] -> exists x, List.last (map Some l) None = Some x.
Proof.
  induction l as [|a l IH]; [congruence |]. intros _.
  destruct l as [|b l]; [now exists a |].
  destruct IH as [x Hx]; [discriminate |]. exists x. exact Hx.
Qed.

Lemma update_market_data_unfold symbol data self :
  data <> [] ->
  let rows := counter_loop 0 0 None (_calculate_indicators self (window self data)) in
  exists self',
    update_market_data symbol data self = (Return tt, self') /\
    market_data self' !! symbol = Some (iloc_from (-200) rows) /\
    (forall final, List.last (map Some rows) None = Some final ->
                   counters self' !! symbol = Some (counts_of final)).
Proof.
  intros Hne rows. unfold update_market_data.
  destruct data as [|c data]; [congruence |].
  fold (window self (c :: data)).
  unfold _calculate_counter_logic. fold rows.
  eexists. split; [reflexivity |]. split.
  - cbn. apply lookup_insert_eq.
  - intros final Hfinal. rewrite Hfinal. cbn. apply lookup_insert_eq.
Qed.

(** C1, as the code has it. Whatever an earlier call stored, a call with a
    non-empty batch evaluates the window with both counters starting at
    zero; it stores the rows so obtained and, for the symbol, the
    [countBuy]/[countSell] of the last row of the window. *)
Theorem update_market_data_counters (symbol : string) (d1 d2 : list candle) (self : t) :
  d2 <> [] ->
  0 < default 500 (max_data_points self) ->
  let self1 := (update_market_data symbol d1 self).2 in
  let rows := counter_loop 0 0 None (_calculate_indicators self (window self d2)) in
  exists self2 final,
    update_market_data symbol d2 self1 = (Return tt, self2) /\
    market_data self2 !! symbol = Some (iloc_from (-200) rows) /\
    List.last (map Some rows) None = Some final /\
    counters self2 !! symbol = Some (counts_of final).
Proof.
  intros Hne Hpos self1 rows.
  pose proof (update_keeps_parameters symbol d1 self) as Hpar. fold self1 in Hpar.
  destruct (update_market_data_unfold symbol d2 self1 Hne) as (self2 & H1 & H2 & H3).
  rewrite (window_same_parameters _ _ _ Hpar) in H2, H3.
  rewrite (indicators_same_parameters _ _ _ Hpar) in H2, H3. fold rows in H2, H3.
  destruct (last_some_nonempty rows) as [final Hfinal].
  { intros Hnil. apply (f_equal (@length _)) in Hnil.
    unfold rows in Hnil. rewrite counter_loop_length in Hnil.
    unfold _calculate_indicators in Hnil.
    destruct (_calculate_stochastic_rsi _ _ _ _) in Hnil.
    rewrite length_imap in Hnil.
    apply (window_nonempty self d2 Hne Hpos). now apply length_zero_iff_nil. }
  exists self2, final. auto.
Qed.

(** C1, counterexample to the reading of the specification. Two calls with
    the closes 13, 26: the first leaves [countBuy = 1] stored; a loop
    carried over from it would give [countBuy] 1 and 2 on the second call,
    the code gives 0 and 1. *)
Lemma counters_restart_at_zero :
  let d := candles_of [13; 26]%Q in
  let self1 := (update_market_data "BTC/USD" d (__init__ None)).2 in
  let self2 := (update_market_data "BTC/USD" d self1).2 in
  counters self1 !! "BTC/USD" = Some {| stored_countBuy := 1; stored_countSell := 0 |} /\
  map countBuy <$> market_data self2 !! "BTC/USD" = Some [0; 1] /\
  map countBuy (counter_rows_carried (_calculate_indicators self1 (window self1 d))
                                     "BTC/USD" self1) = [1; 2] /\
  market_data self2 !! "BTC/USD" <>
    Some (iloc_from (-200)
            (counter_rows_carried (_calculate_indicators self1 (window self1 d))
                                  "BTC/USD" self1)).
Proof.
  intros d self1 self2.
  split; [vm_compute; reflexivity |].
  split; [vm_compute; reflexivity |].
  split; [vm_compute; reflexivity |].
  intros H. apply (f_equal (fmap (map countBuy))) in H.
  vm_compute in H. discriminate H.
Qed.

Lemma update_market_data_counters_witness :
  candles_of [26; 13; 40]%Q <> [] /\
  0 < default 500 (max_data_points (__init__ None)) /\
  exists self2 final,
    update_market_data "BTC/USD" (candles_of [26; 13; 40]%Q)
      (update_market_data "BTC/USD" (candles_of [13; 26]%Q) (__init__ None)).2
    = (Return tt, self2) /\
    market_data self2 !! "BTC/USD" =
      Some (iloc_from (-200)
              (counter_loop 0 0 None
                 (_calculate_indicators (__init__ None)
                    (window (__init__ None) (candles_of [26; 13; 40]%Q))))) /\
    List.last
      (map Some
         (counter_loop 0 0 None
            (_calculate_indicators (__init__ None)
               (window (__init__ None) (candles_of [26; 13; 40]%Q)))))
      None = Some final /\
    counters self2 !! "BTC/USD" = Some (counts_of final).
Proof.
  split; [discriminate |]. split; [reflexivity |].
  apply (update_market_data_counters "BTC/USD" (candles_of [13; 26]%Q)
           (candles_of [26; 13; 40]%Q) (__init__ None)).
  - discriminate.
  - reflexivity.
Defined.

End AcrossCalls.

(** ** Range of the indicators *)

Section Indicators.
Import BTCCharlieStrategy StrategyStatements.

Section Rationals.
Open Scope Q_scope.



Lemma Qeq_bool_pos_false (b : Q) : 0 < b -> Qeq_bool b 0 = false.
Proof.
  intros Hb. destruct (Qeq_bool b 0) eqn:E; [| reflexivity].
  apply Qeq_bool_iff in E. lra.
Qed.


End Rationals.
























Section Oscillators.
Import BTCCharlieStrategy StrategyStatements IndicatorStatements.
Open Scope Q_scope.
























End Oscillators.


End Indicators.

(** ** Order sizing *)

Section Sizing.
Import TradingBot BotStatements.
Context {E : Type} `{BaseExchange E}.

Lemma positive_not_le_zero (b : pyfloat) : flt (Fin 0) b = true -> fle b (Fin 0) = false.
Proof.
  destruct b as [q| | |]; cbn; try discriminate; try reflexivity.
  unfold flt, fle. cbn [fcompare]. rewrite <- (Qcompare_antisym q 0).
  destruct (q ?= 0)%Q; cbn; congruence.
Qed.

Lemma position_size_outcome (self : t E) (price : pyfloat) :
  _calculate_position_size self price =
    if fle (account_balance self) (Fin 0) then Return (Fin 0)
    else Raise (TypeError "argument of type 'float' is not iterable").
Proof. unfold _calculate_position_size. destruct (fle _ _); reflexivity. Qed.

(** C2. With a positive balance [_calculate_position_size] raises
    [TypeError] at the test ['BTC' in price], for every price; an
    [_execute_signal] attempt then either stops at the existing position or
    ends with that exception, and in both cases calls nothing on the
    exchange and tracks no position. The function returns a value, 0.0,
    exactly when the balance is less than or equal to zero. *)
Theorem position_size_never_returned (self : t E) (sig : StrategySignal)
    (price : pyfloat) (w : env) :
  flt (Fin 0) (account_balance self) = true ->
  _calculate_position_size self price
    = Raise (TypeError "argument of type 'float' is not iterable") /\
  (_execute_signal sig self w).1.1
    = (if one_position_per_pair (cfg self)
          && bool_decide (is_Some (active_positions self !! symbol sig))
       then Return tt
       else Raise (TypeError "argument of type 'float' is not iterable")) /\
  calls (_execute_signal sig self w).2 = calls w /\
  (_execute_signal sig self w).1.2 = self /\
  (forall (other : t E) (v : pyfloat),
      _calculate_position_size other price = Return v <->
      fle (account_balance other) (Fin 0) = true /\ v = Fin 0).
Proof.
  intros Hpos. apply positive_not_le_zero in Hpos.
  assert (Hraise : forall p, _calculate_position_size self p
                    = Raise (TypeError "argument of type 'float' is not iterable")).
  { intros p. now rewrite position_size_outcome, Hpos. }
  assert (Hret : forall (other : t E) (v : pyfloat),
             _calculate_position_size other price = Return v <->
             fle (account_balance other) (Fin 0) = true /\ v = Fin 0).
  { intros other v. rewrite position_size_outcome.
    destruct (fle (account_balance other) (Fin 0)); split.
    - intros [= <-]. auto.
    - intros [_ ->]. reflexivity.
    - discriminate.
    - intros [? _]. discriminate. }
  split; [apply Hraise |].
  unfold _execute_signal. rewrite Hraise.
  destruct (one_position_per_pair (cfg self) && _); cbn; auto.
Qed.

End Sizing.

Section SizingExamples.
Import TradingBot BotStatements.

Lemma position_size_never_returned_witness :
  let self := with_balance (Fin 1000) (__init__ default_config tt 0) in
  let sig := buy_signal_at "BTC/USDT" 50000 in
  flt (Fin 0) (account_balance self) = true /\
  _calculate_position_size self (Fin 50000)
    = Raise (TypeError "argument of type 'float' is not iterable") /\
  calls (_execute_signal sig self (stopped_clock 0)).2 = [].
Proof.
  intros self sig. split; [reflexivity |].
  destruct (position_size_never_returned self sig (Fin 50000) (stopped_clock 0) eq_refl)
    as (H1 & _ & H3 & _).
  split; [exact H1 | exact H3].
Defined.

(** C9, the code at the input of the specification's example: balance
    1000, fraction 0.02, price 50000, minimum notional 10. The size the
    specification describes is 0.0004, a notional of 20, not below the
    minimum; the code raises [TypeError] before any size exists and places
    no order. *)
Theorem order_size_is_never_computed :
  let self := with_balance (Fin 1000) (__init__ default_config tt 0) in
  let sig := buy_signal_at "BTC/USDT" 50000 in
  let attempt := _execute_signal sig self (stopped_clock 0) in
  order_size_spec (Fin 1000) (Fin (2 # 100)) (Fin 10000) (Fin 50000) (Fin (1 # 10000))
    = Fin (1 # 2500) /\
  fmul (Fin (1 # 2500)) (Fin 50000) = Fin 20 /\
  flt (Fin 20) (Fin 10) = false /\
  _calculate_position_size self (Fin 50000)
    = Raise (TypeError "argument of type 'float' is not iterable") /\
  attempt.1.1 = Raise (TypeError "argument of type 'float' is not iterable") /\
  calls attempt.2 = [] /\
  logs attempt.2 = [].
Proof. repeat split. Qed.

End SizingExamples.

(** ** Dead man's switch *)

Section Switch.
Import TradingBot BotStatements.
Context {E : Type} `{BaseExchange E}.

(** In the loop the heartbeat is refreshed immediately before the check,
    so the check compares two successive clock readings and the age of the
    previous heartbeat plays no part. *)
Lemma switch_check_in_loop (self : t E) (w : env) :
  dead_mans_switch_enabled self = true ->
  (clock w (S (ticks w)) - clock w (ticks w) <= dead_mans_switch_timeout self)%Q ->
  emergency_stop (_main_loop_head self w).1 = emergency_stop self /\
  calls (_main_loop_head self w).2 = calls w /\
  last_heartbeat (_main_loop_head self w).1 = clock w (ticks w).
Proof.
  intros Hen Hclock. unfold _main_loop_head, update_heartbeat, _check_dead_mans_switch.
  cbn. rewrite Hen. cbn.
  destruct (Qcompare_spec (clock w (S (ticks w)) - clock w (ticks w))
                          (dead_mans_switch_timeout self)) as [E1|E1|E1];
    cbn; auto. lra.
Qed.

(** Called on its own with a heartbeat older than the timeout, the check
    sets [emergency_stop] and asks the exchange for the open positions. *)
Lemma switch_check_alone (self : t E) (w : env) :
  dead_mans_switch_enabled self = true ->
  (dead_mans_switch_timeout self < clock w (ticks w) - last_heartbeat self)%Q ->
  emergency_stop (_check_dead_mans_switch self w).1 = true /\
  exists later, calls (_check_dead_mans_switch self w).2 = calls w ++ GetPositions :: later.
Proof.
  intros Hen Hold. unfold _check_dead_mans_switch. rewrite Hen. cbn.
  destruct (Qcompare_spec (clock w (ticks w) - last_heartbeat self)
                          (dead_mans_switch_timeout self)) as [E1|E1|E1]; try lra.
  unfold _emergency_close_all_positions. cbn.
  destruct (get_positions (exchange self)) as [[positions|e] ex]; cbn.
  - destruct (close_positions positions ex _) as [ex' w'] eqn:Ec. cbn.
    split; [reflexivity |].
    assert (Hgen : forall ps ex0 w0 ex1 w1,
               close_positions ps ex0 w0 = (ex1, w1) ->
               exists later, calls w1 = calls w0 ++ later).
    { induction ps as [|p ps IH]; intros ex0 w0 ex1 w1 Hc; cbn in Hc.
      - injection Hc as <- <-. exists []. now rewrite app_nil_r.
      - destruct (place_order _ _ _ _ _ _ ex0) as [res ex2].
        apply IH in Hc as [later Hl]. rewrite Hl.
        destruct (success res); cbn; rewrite <- app_assoc; eauto. }
    apply Hgen in Ec as [later Hl]. rewrite Hl. cbn.
    rewrite <- app_assoc. eauto.
  - split; [reflexivity |]. exists []. reflexivity.
Qed.

End Switch.

Section SwitchExamples.
Import TradingBot BotStatements.

(** C10, the code at a failing input. The switch is enabled with a timeout
    of 3600 s, the last heartbeat dates from time 0 and the clock stands at
    10000: the heartbeat is older than the timeout, and one position is
    open. The iteration refreshes the heartbeat to 10000 and then finds an
    age of 0: [emergency_stop] stays false and nothing is called on the
    exchange. The check alone, on the same state, does stop and liquidate. *)
Theorem stale_heartbeat_does_not_trip_switch :
  let self := with_switch 3600 (__init__ default_config tt 0) in
  let w := stopped_clock 10000 in
  (dead_mans_switch_timeout self < clock w (ticks w) - last_heartbeat self)%Q /\
  emergency_stop (_main_loop_head self w).1 = false /\
  calls (_main_loop_head self w).2 = [] /\
  emergency_stop (_check_dead_mans_switch self w).1 = true /\
  calls (_check_dead_mans_switch self w).2
    = [GetPositions; PlaceOrder "XBTUSD" "sell" (Fin 1) "market"].
Proof. repeat split. Qed.

End SwitchExamples.


(** ** Further properties of the counter state machine *)

Section SignalFlags.
Import BTCCharlieStrategy StrategyStatements.

(** What the flags of one row say about its counters. *)
Lemma counter_loop_flags df : forall cb cs prev r,
  r ∈ counter_loop cb cs prev df ->
  (buysignal r = true ->
   countBuy r = 1 /\ countSell r < 1 /\ buy (ind r) = true /\ bull r = false) /\
  (sellsignal r = true ->
   countSell r = 1 /\ countBuy r < 1 /\ sell (ind r) = true /\ bear r = false) /\
  (bull r = true <-> 1 < countBuy r) /\
  (bear r = true <-> 1 < countSell r).
Proof.
  induction df as [|x rest IH]; intros cb cs prev r Hr; [inversion Hr |].
  rewrite counter_loop_cons in Hr. cbn zeta in Hr.
  apply elem_of_cons in Hr as [-> | Hr]; [| eapply IH; exact Hr].
  cbn [buysignal sellsignal countBuy countSell ind bull bear].
  set (cb' := if sell x then 0 else if buy x then cb + 1 else cb).
  set (cs' := if sell x then (if buy x then 0 else cs) + 1 else if buy x then 0 else cs).
  split; [| split; [| split]].
  - destruct prev as [p|]; [| discriminate].
    rewrite !andb_true_iff. intros [[[[H1 H2] H3] H4] _].
    apply Z.ltb_lt in H1, H3. apply Z.gtb_lt in H2.
    repeat split; try lia; try assumption.
  - destruct prev as [p|]; [| discriminate].
    rewrite !andb_true_iff. intros [[[[H1 H2] H3] H4] _].
    apply Z.ltb_lt in H2, H3. apply Z.gtb_lt in H1.
    repeat split; try lia; try assumption.
  - destruct (Z.gtb_spec cb' 1); split; intros; try lia; congruence.
  - destruct (Z.gtb_spec cs' 1); split; intros; try lia; congruence.
Qed.

(** X1. In the frame [_calculate_counter_logic] returns, on every row: a
    buy signal stands on a candle whose buy condition holds, with
    [countBuy = 1], [countSell = 0] and no bull flag; a sell signal the
    same way round; no row carries both signals, and no row is both bull
    and bear. *)
Theorem signals_and_trends_exclusive (df : list irow) (symbol : string) (self : t) :
  Forall (fun r =>
            (buysignal r = true ->
             countBuy r = 1 /\ countSell r = 0 /\ buy (ind r) = true /\ bull r = false) /\
            (sellsignal r = true ->
             countSell r = 1 /\ countBuy r = 0 /\ sell (ind r) = true /\ bear r = false) /\
            buysignal r && sellsignal r = false /\
            bull r && bear r = false)
         (_calculate_counter_logic df symbol self).1.
Proof.
  cbn [_calculate_counter_logic fst]. apply Forall_forall. intros r Hr.
  pose proof (counter_loop_flags df 0 0 None r Hr) as (Hb & Hs & Hbull & Hbear).
  apply list_elem_of_lookup in Hr as [i Hi].
  pose proof (counter_loop_invariant df 0 0 None i r ltac:(lia) ltac:(lia)
                ltac:(now left) Hi) as (P1 & P2 & P3 & _).
  split; [| split; [| split]].
  - intros H. destruct (Hb H) as (? & ? & ? & ?). repeat split; try assumption; lia.
  - intros H. destruct (Hs H) as (? & ? & ? & ?). repeat split; try assumption; lia.
  - destruct (buysignal r) eqn:E1, (sellsignal r) eqn:E2; try reflexivity.
    destruct (Hb eq_refl) as (? & _). destruct (Hs eq_refl) as (_ & ? & _). lia.
  - destruct (bull r) eqn:E1, (bear r) eqn:E2; try reflexivity.
    apply proj1 in Hbull, Hbear. specialize (Hbull eq_refl). specialize (Hbear eq_refl). lia.
Qed.

Lemma signals_and_trends_exclusive_witness :
  let df := _calculate_indicators (__init__ None) (candles_of [26; 13; 40]%Q) in
  exists r,
    (_calculate_counter_logic df "BTC/USD" (__init__ None)).1 !! 2%nat = Some r /\
    buysignal r = true /\
    countBuy r = 1 /\ countSell r = 0 /\ buy (ind r) = true /\ bull r = false.
Proof.
  intros df.
  let d := eval vm_compute in
    ((_calculate_counter_logic df "BTC/USD" (__init__ None)).1 !! 2%nat) in
  match d with Some ?r => exists r end.
  assert (Hr : (_calculate_counter_logic df "BTC/USD" (__init__ None)).1 !! 2%nat
               = Some _) by (vm_compute; reflexivity).
  split; [exact Hr |]. split; [reflexivity |].
  pose proof (signals_and_trends_exclusive df "BTC/USD" (__init__ None)) as Hall.
  destruct (proj1 (Forall_lookup _ _) Hall 2%nat _ Hr) as (Hb & _).
  exact (Hb eq_refl).
Defined.

End SignalFlags.


(** ** Moving averages *)

Section MovingAverages.
Import BTCCharlieStrategy StrategyStatements.
Open Scope Q_scope.

Lemma ewm_from_length alpha xs : forall prev,
  length (ewm_from alpha prev xs) = length xs.
Proof. induction xs as [|x xs IH]; intros prev; cbn; [reflexivity | now rewrite IH]. Qed.

Lemma ewm_mean_length span xs : length (ewm_mean span xs) = length xs.
Proof. destruct xs; cbn; [reflexivity | now rewrite ewm_from_length]. Qed.

Lemma ewm_from_constant alpha c xs : forall prev,
  prev == c -> Forall (fun x => x == c) xs ->
  Forall (fun y => y == c) (ewm_from alpha prev xs).
Proof.
  induction xs as [|x xs IH]; intros prev Hp Hall; [constructor |].
  apply Forall_cons in Hall as [Hx Hall]. cbn [ewm_from].
  assert (Hy : Qred ((1 - alpha) * prev + alpha * x) == c).
  { rewrite Qred_correct, Hp, Hx. ring. }
  constructor; [exact Hy |]. now apply IH.
Qed.

Lemma ewm_mean_constant span c xs :
  Forall (fun x => x == c) xs -> Forall (fun y => y == c) (ewm_mean span xs).
Proof.
  intros Hall. destruct xs as [|x xs]; [constructor |].
  pose proof Hall as Hall'. apply Forall_cons in Hall' as [Hx Hrest].
  cbn [ewm_mean]. constructor; [exact Hx |]. now apply ewm_from_constant.
Qed.

(** A row of [_calculate_indicators], column by column. *)
Lemma indicators_lookup self candles i r :
  _calculate_indicators self candles !! i = Some r ->
  let closes := map close candles in
  candles !! i = Some (ohlcv r) /\
  ema_fast r = nth i (ewm_mean (fast_ema_period self) closes) 0 /\
  ema_slow r = nth i (ewm_mean (slow_ema_period self) closes) 0 /\
  ema_consolidated r = nth i (ewm_mean (consolidated_ema_period self) closes) 0 /\
  buy r = match ema_fast r ?= ema_slow r with Gt => true | _ => false end /\
  sell r = match ema_fast r ?= ema_slow r with Lt => true | _ => false end.
Proof.
  unfold _calculate_indicators.
  destruct (_calculate_stochastic_rsi _ _ _ _) as [col_k col_d].
  rewrite list_lookup_imap. destruct (candles !! i) as [c|]; [| discriminate].
  cbn. intros [= <-]. cbn. repeat split.
Qed.

Lemma indicators_length self candles :
  length (_calculate_indicators self candles) = length candles.
Proof.
  unfold _calculate_indicators.
  destruct (_calculate_stochastic_rsi _ _ _ _) as [col_k col_d].
  apply length_imap.
Qed.

Lemma nth_Forall_Q (P : Q -> Prop) (col : list Q) i :
  Forall P col -> (i < length col)%nat -> P (nth i col 0).
Proof. intros Hall Hi. now apply Forall_nth. Qed.

Close Scope Q_scope.

(** X2. The oldest candle of a frame is always neutral: both averages
    start at its close, so neither condition holds on it, both counters
    are zero and it carries no signal. *)
Theorem oldest_candle_is_neutral (self : t) (symbol : string)
    (c : candle) (rest : list candle) :
  exists r rows,
    (_calculate_counter_logic (_calculate_indicators self (c :: rest)) symbol self).1
      = r :: rows /\
    ohlcv (ind r) = c /\
    ema_fast (ind r) = close c /\ ema_slow (ind r) = close c /\
    buy (ind r) = false /\ sell (ind r) = false /\
    countBuy r = 0 /\ countSell r = 0 /\
    buysignal r = false /\ sellsignal r = false.
Proof.
  cbn [_calculate_counter_logic fst].
  destruct (_calculate_indicators self (c :: rest)) as [|x xs] eqn:E.
  { apply (f_equal (@length _)) in E. rewrite indicators_length in E. discriminate. }
  assert (Hx : _calculate_indicators self (c :: rest) !! 0%nat = Some x)
    by now rewrite E.
  apply indicators_lookup in Hx as (H1 & H2 & H3 & _ & H5 & H6).
  cbn in H1, H2, H3. injection H1 as H1.
  rewrite H2, H3 in H5, H6.
  assert (Hq : (close c ?= close c)%Q = Eq) by (apply Qeq_alt; reflexivity).
  rewrite Hq in H5, H6.
  rewrite counter_loop_cons. cbn zeta. rewrite H5, H6.
  eexists _, _. split; [reflexivity |]. cbn.
  repeat split; congruence.
Qed.

End MovingAverages.


(** ** The stored window *)

Section StoredWindow.
Import BTCCharlieStrategy StrategyStatements.

Lemma counter_loop_neutral df : forall prev,
  Forall (fun x => buy x = false /\ sell x = false) df ->
  Forall (fun r => countBuy r = 0 /\ countSell r = 0 /\
                   buysignal r = false /\ sellsignal r = false /\
                   bull r = false /\ bear r = false)
         (counter_loop 0 0 prev df).
Proof.
  induction df as [|x rest IH]; intros prev Hall; [constructor |].
  apply Forall_cons in Hall as [[Hb Hs] Hall].
  rewrite counter_loop_cons. cbn zeta. rewrite Hb, Hs.
  constructor; [| now apply IH].
  cbn. destruct prev; cbn; repeat split; reflexivity.
Qed.

(** X4. A market whose closes are all equal gives no signal: on every
    row neither condition holds, both counters stay at zero and every flag
    is off. *)
Theorem flat_market_gives_no_signal (self : t) (symbol : string)
    (candles : list candle) (c : Q) :
  Forall (fun k => (close k == c)%Q) candles ->
  Forall (fun r => buy (ind r) = false /\ sell (ind r) = false /\
                   countBuy r = 0 /\ countSell r = 0 /\
                   buysignal r = false /\ sellsignal r = false /\
                   bull r = false /\ bear r = false)
         (_calculate_counter_logic (_calculate_indicators self candles) symbol self).1.
Proof.
  intros Hflat. cbn [_calculate_counter_logic fst].
  assert (Hneutral : Forall (fun x => buy x = false /\ sell x = false)
                            (_calculate_indicators self candles)).
  { apply Forall_lookup. intros i r Hr.
    assert (Hi : (i < length candles)%nat).
    { apply lookup_lt_Some in Hr. now rewrite indicators_length in Hr. }
    apply indicators_lookup in Hr as (_ & Hf & Hs & _ & -> & ->).
    assert (Hcl : Forall (fun x => (x == c)%Q) (map close candles))
      by (apply Forall_fmap; exact Hflat).
    assert (Hfc : (ema_fast r == c)%Q).
    { rewrite Hf. apply (nth_Forall_Q (fun y => (y == c)%Q));
        [now apply ewm_mean_constant | now rewrite ewm_mean_length, length_map]. }
    assert (Hsc : (ema_slow r == c)%Q).
    { rewrite Hs. apply (nth_Forall_Q (fun y => (y == c)%Q));
        [now apply ewm_mean_constant | now rewrite ewm_mean_length, length_map]. }
    assert (Heq : (ema_fast r ?= ema_slow r)%Q = Eq).
    { apply Qeq_alt. now rewrite Hfc, Hsc. }
    now rewrite Heq. }
  pose proof (counter_loop_neutral _ None Hneutral) as Hrows.
  apply Forall_lookup. intros i r Hr.
  pose proof (proj1 (Forall_lookup _ _) Hrows i r Hr) as (H1 & H2 & H3 & H4 & H5 & H6).
  assert (Hind : _calculate_indicators self candles !! i = Some (ind r)).
  { rewrite <- (counter_loop_ind (_calculate_indicators self candles) 0 0 None).
    rewrite list_lookup_fmap, Hr. reflexivity. }
  pose proof (proj1 (Forall_lookup _ _) Hneutral i (ind r) Hind) as [Hb Hs].
  repeat split; assumption.
Qed.

Lemma flat_market_gives_no_signal_witness :
  let candles := candles_of (repeat 100%Q 40) in
  Forall (fun k => (close k == 100)%Q) candles /\
  Forall (fun r => buy (ind r) = false /\ sell (ind r) = false /\
                   countBuy r = 0 /\ countSell r = 0 /\
                   buysignal r = false /\ sellsignal r = false /\
                   bull r = false /\ bear r = false)
         (_calculate_counter_logic (_calculate_indicators (__init__ None) candles)
                                   "BTC/USD" (__init__ None)).1.
Proof.
  intros candles.
  assert (H : Forall (fun k => (close k == 100)%Q) candles).
  { apply Forall_forall. intros k Hk.
    apply elem_of_lookup_imap in Hk as (i & q & -> & Hq).
    cbn. apply list_elem_of_lookup_2, list_elem_of_In, repeat_spec in Hq. now subst. }
  split; [exact H |].
  exact (flat_market_gives_no_signal (__init__ None) "BTC/USD" candles 100 H).
Defined.

(** Lengths of Python slices. *)
Lemma iloc_from_negative_length {A} (n : nat) (l : list A) :
  (0 < n)%nat -> length (iloc_from (- Z.of_nat n) l) = Nat.min (length l) n.
Proof.
  intros Hn. unfold iloc_from.
  destruct (Z.ltb_spec (- Z.of_nat n) 0); [| lia].
  rewrite length_drop. lia.
Qed.

Lemma iloc_from_fmap {A B} (f : A -> B) start (l : list A) :
  iloc_from start (map f l) = map f (iloc_from start l).
Proof. unfold iloc_from. rewrite length_map. symmetry. apply fmap_drop. Qed.

Lemma iloc_from_twice {A} (m n : nat) (l : list A) :
  (0 < n <= m)%nat ->
  iloc_from (- Z.of_nat n) (iloc_from (- Z.of_nat m) l) = iloc_from (- Z.of_nat n) l.
Proof.
  intros Hnm. unfold iloc_from.
  destruct (Z.ltb_spec (- Z.of_nat n) 0); [| lia].
  destruct (Z.ltb_spec (- Z.of_nat m) 0); [| lia].
  rewrite drop_drop, length_drop. f_equal. lia.
Qed.

Lemma indicators_ohlcv self candles :
  map ohlcv (_calculate_indicators self candles) = candles.
Proof.
  apply list_eq. intros i. rewrite list_lookup_fmap.
  destruct (_calculate_indicators self candles !! i) as [r|] eqn:E.
  - apply indicators_lookup in E as (-> & _). reflexivity.
  - apply lookup_ge_None_1 in E. rewrite indicators_length in E.
    symmetry. now apply lookup_ge_None_2.
Qed.

(** The rows a call stores: the last 200 candles of its window. *)
Lemma stored_rows (symbol : string) (data : list candle) (self : t) :
  data <> [] ->
  exists rows,
    market_data (update_market_data symbol data self).2 !! symbol = Some rows /\
    (length rows <= 200)%nat /\
    map (fun r => ohlcv (ind r)) rows = iloc_from (-200) (window self data).
Proof.
  intros Hne.
  destruct (update_market_data_unfold symbol data self Hne) as (self' & H1 & H2 & _).
  rewrite H1. cbn [snd]. eexists. split; [exact H2 |].
  split.
  - rewrite (iloc_from_negative_length 200) by lia. lia.
  - rewrite <- iloc_from_fmap. f_equal.
    rewrite <- (map_map ind ohlcv), counter_loop_ind. apply indicators_ohlcv.
Qed.

(** X5. After [update_market_data] on a non-empty batch the rows stored
    for the symbol are at most 200, and their candles are the last 200 of
    the window, in order; with the default limit of 500 points these are
    the last 200 candles of the batch. *)
Theorem stored_window_is_bounded (symbol : string) (data : list candle) (self : t) :
  data <> [] ->
  exists rows,
    market_data (update_market_data symbol data self).2 !! symbol = Some rows /\
    (length rows <= 200)%nat /\
    map (fun r => ohlcv (ind r)) rows = iloc_from (-200) (window self data) /\
    (max_data_points self = None ->
     map (fun r => ohlcv (ind r)) rows = iloc_from (-200) data /\
     length rows = Nat.min (length data) 200).
Proof.
  intros Hne.
  destruct (stored_rows symbol data self Hne) as (rows & Hrows & Hlen & Hmap).
  exists rows. split; [exact Hrows |]. split; [exact Hlen |]. split; [exact Hmap |].
  intros Hnone.
  assert (Hw : iloc_from (-200) (window self data) = iloc_from (-200) data).
  { unfold window. rewrite Hnone. cbn [default].
    destruct (Z.of_nat (length data) >? 500); [| reflexivity].
    apply (iloc_from_twice 500 200). lia. }
  split; [now rewrite Hmap |].
  apply (f_equal (@length _)) in Hmap. rewrite length_map in Hmap.
  rewrite Hmap, Hw. apply (iloc_from_negative_length 200). lia.
Qed.

Lemma stored_window_is_bounded_witness :
  let data := candles_of (repeat 100%Q 250) in
  data <> [] /\
  exists rows,
    market_data (update_market_data "BTC/USD" data (__init__ None)).2 !! "BTC/USD"
      = Some rows /\
    (length rows <= 200)%nat /\
    map (fun r => ohlcv (ind r)) rows = iloc_from (-200) (window (__init__ None) data) /\
    (max_data_points (__init__ None) = None ->
     map (fun r => ohlcv (ind r)) rows = iloc_from (-200) data /\
     length rows = Nat.min (length data) 200).
Proof.
  intros data. split; [discriminate |].
  apply (stored_window_is_bounded "BTC/USD" data (__init__ None)). discriminate.
Defined.

(** X6. [update_market_data] for one symbol changes neither the rows nor
    the counters stored for any other symbol. *)
Theorem update_leaves_other_symbols (symbol other : string) (data : list candle)
    (self : t) :
  symbol <> other ->
  market_data (update_market_data symbol data self).2 !! other = market_data self !! other /\
  counters (update_market_data symbol data self).2 !! other = counters self !! other.
Proof.
  intros Hne. unfold update_market_data, _calculate_counter_logic.
  destruct data as [|c data]; [split; reflexivity |].
  destruct (counters self !! symbol), (List.last _ None); cbn;
    rewrite ?lookup_insert_ne by exact Hne; split; reflexivity.
Qed.

Lemma update_leaves_other_symbols_witness :
  let self := (update_market_data "ETH/USD" (candles_of [13; 26]%Q) (__init__ None)).2 in
  "BTC/USD" <> "ETH/USD" /\
  market_data (update_market_data "BTC/USD" (candles_of [26; 13; 40]%Q) self).2 !! "ETH/USD"
    = market_data self !! "ETH/USD" /\
  counters (update_market_data "BTC/USD" (candles_of [26; 13; 40]%Q) self).2 !! "ETH/USD"
    = counters self !! "ETH/USD".
Proof.
  intros self. split; [discriminate |].
  apply (update_leaves_other_symbols "BTC/USD" "ETH/USD"). discriminate.
Defined.

(** The state after a call, field by field. *)
Lemma update_market_data_result (symbol : string) (data : list candle) (self : t) :
  data <> [] ->
  let rows := counter_loop 0 0 None (_calculate_indicators self (window self data)) in
  let started :=
    match counters self !! symbol with
    | Some _ => counters self
    | None => <[symbol := {| stored_countBuy := 0; stored_countSell := 0 |}]> (counters self)
    end in
  let stored :=
    match List.last (map Some rows) None with
    | Some final => <[symbol := counts_of final]> started
    | None => started
    end in
  update_market_data symbol data self =
    (Return tt,
     {| max_data_points := max_data_points self;
        fast_ema_period := fast_ema_period self;
        slow_ema_period := slow_ema_period self;
        consolidated_ema_period := consolidated_ema_period self;
        stoch_k_smooth := stoch_k_smooth self;
        stoch_d_smooth := stoch_d_smooth self;
        stoch_rsi_length := stoch_rsi_length self;
        stoch_length := stoch_length self;
        market_data := <[symbol := iloc_from (-200) rows]> (market_data self);
        counters := stored |}).
Proof.
  intros Hne rows started stored. unfold update_market_data.
  destruct data as [|c data]; [congruence |].
  fold (window self (c :: data)).
  unfold _calculate_counter_logic. fold rows.
  subst stored started.
  destruct (counters self !! symbol), (List.last (map Some rows) None); reflexivity.
Qed.

(** X7. [update_market_data] is idempotent: a second call with the same
    symbol and batch returns the same outcome and leaves the state as the
    first call left it. *)
Theorem update_market_data_idempotent (symbol : string) (data : list candle) (self : t) :
  update_market_data symbol data (update_market_data symbol data self).2
  = update_market_data symbol data self.
Proof.
  destruct data as [|c data]; [reflexivity |].
  assert (Hne : c :: data <> []) by discriminate.
  pose proof (update_keeps_parameters symbol (c :: data) self) as Hpar.
  rewrite (update_market_data_result symbol (c :: data) _ Hne).
  rewrite (window_same_parameters _ _ _ Hpar), (indicators_same_parameters _ _ _ Hpar).
  destruct Hpar as (P1 & P2 & P3 & P4 & P5 & P6 & P7 & P8).
  rewrite P1, P2, P3, P4, P5, P6, P7, P8.
  rewrite (update_market_data_result symbol (c :: data) self Hne).
  cbn [snd market_data counters]. cbn zeta.
  set (rows := counter_loop 0 0 None _).
  f_equal. f_equal; [apply insert_insert_eq |].
  destruct (counters self !! symbol) as [old|] eqn:Ec;
    destruct (List.last (map Some rows) None) as [final|];
    rewrite ?lookup_insert_eq, ?Ec; rewrite ?insert_insert_eq; reflexivity.
Qed.

End StoredWindow.


(** ** Signals and alerts *)

Section Signals.
Import BTCCharlieStrategy StrategyStatements StrategySignals.

Lemma last_Some_elem {A} (l : list A) x :
  List.last (map Some l) None = Some x -> x ∈ l.
Proof.
  induction l as [|a l IH]; [discriminate |].
  destruct l as [|b l]; cbn.
  - intros [= ->]. apply list_elem_of_here.
  - intros H. apply list_elem_of_further. now apply IH.
Qed.

Lemma last_drop {A} (l : list A) n x :
  List.last (map Some (drop n l)) None = Some x ->
  List.last (map Some l) None = Some x.
Proof.
  revert l. induction n as [|n IH]; intros l; [now rewrite drop_0 |].
  destruct l as [|a l]; [discriminate |]. cbn [drop]. intros H.
  specialize (IH l H). destruct l as [|b l]; [discriminate | exact IH].
Qed.

Lemma iloc_last_iloc_from {A} start (l : list A) x :
  iloc_last (iloc_from start l) = Some x -> iloc_last l = Some x.
Proof. unfold iloc_last, iloc_from. apply last_drop. Qed.

Lemma iloc_last_fmap {A B} (f : A -> B) (l : list A) :
  iloc_last (map f l) = f <$> iloc_last l.
Proof.
  unfold iloc_last. induction l as [|a l IH]; [reflexivity |].
  destruct l as [|b l]; [reflexivity | exact IH].
Qed.

Lemma window_length self data : (length (window self data) <= length data)%nat.
Proof.
  unfold window, iloc_from. destruct (_ >? _); [| lia].
  rewrite length_drop. lia.
Qed.

Lemma window_last self data x :
  iloc_last (window self data) = Some x -> iloc_last data = Some x.
Proof.
  unfold window. destruct (_ >? _); [apply iloc_last_iloc_from | auto].
Qed.

(** X8. After [update_market_data] on a batch, [generate_signal] returns
    a signal only if the batch holds at least the required history, and
    then the signal is for that symbol at the close of the newest candle:
    a BUY of type bull when the fast average is above the slow one on that
    candle with [countBuy = 1] and [countSell = 0], a SELL of type bear in
    the mirrored case. *)
Theorem signal_only_on_fresh_crossover (config : risk_parameters) (symbol : string)
    (data : list candle) (self : t) (sig : TradingBot.StrategySignal) :
  data <> [] ->
  generate_signal config symbol (update_market_data symbol data self).2
    = Return (Some sig) ->
  exists rows latest newest,
    market_data (update_market_data symbol data self).2 !! symbol = Some rows /\
    iloc_last rows = Some latest /\
    iloc_last data = Some newest /\
    ohlcv (ind latest) = newest /\
    (required_history self <= length data)%nat /\
    TradingBot.symbol sig = symbol /\
    TradingBot.price sig = Fin (close newest) /\
    ((TradingBot.signal sig = TradingBot.BUY /\ TradingBot.signal_type sig = "bull" /\
      buy (ind latest) = true /\ countBuy latest = 1 /\ countSell latest = 0 /\
      (ema_slow (ind latest) < ema_fast (ind latest))%Q) \/
     (TradingBot.signal sig = TradingBot.SELL /\ TradingBot.signal_type sig = "bear" /\
      sell (ind latest) = true /\ countSell latest = 1 /\ countBuy latest = 0 /\
      (ema_fast (ind latest) < ema_slow (ind latest))%Q)).
Proof.
  intros Hne Hsig.
  pose proof (update_keeps_parameters symbol data self) as (_ & _ & P3 & _ & _ & _ & P7 & P8).
  destruct (stored_rows symbol data self Hne) as (rows & Hrows & Hlen & Hmap).
  destruct (update_market_data_unfold symbol data self Hne) as (self' & H1 & H2 & _).
  rewrite H1 in *. cbn [snd] in *.
  unfold generate_signal in Hsig. rewrite Hrows in Hsig.
  assert (Hreq : required_history self' = required_history self).
  { unfold required_history. now rewrite P3, P7, P8. }
  rewrite Hreq in Hsig.
  destruct (Nat.ltb_spec (length rows) (required_history self)) as [|Hhist];
    [discriminate |].
  destruct (iloc_last rows) as [latest|] eqn:Elast; [| discriminate].
  rewrite H2 in Hrows. injection Hrows as Hrows.
  assert (Hin : latest ∈ counter_loop 0 0 None
                           (_calculate_indicators self (window self data))).
  { rewrite <- Hrows in Elast. apply iloc_last_iloc_from in Elast.
    now apply last_Some_elem. }
  pose proof (counter_loop_flags _ 0 0 None latest Hin) as (Hb & Hs & _).
  assert (Hinv : 0 <= countBuy latest /\ 0 <= countSell latest).
  { apply list_elem_of_lookup in Hin as [i Hi].
    pose proof (counter_loop_invariant _ 0 0 None i latest ltac:(lia) ltac:(lia)
                  ltac:(now left) Hi). tauto. }
  assert (Hrow : ind latest ∈ _calculate_indicators self (window self data)).
  { rewrite <- (counter_loop_ind _ 0 0 None). now apply list_elem_of_fmap_2. }
  apply list_elem_of_lookup in Hrow as [j Hj].
  apply indicators_lookup in Hj as (_ & _ & _ & _ & Hbuy & Hsell).
  assert (Hnew : iloc_last data = Some (ohlcv (ind latest))).
  { apply (window_last self). apply (iloc_last_iloc_from (-200)).
    rewrite <- Hmap, iloc_last_fmap, Elast. reflexivity. }
  assert (Hdata : (required_history self <= length data)%nat).
  { apply (f_equal (@length _)) in Hmap. rewrite length_map in Hmap.
    pose proof (window_length self data).
    assert (length (iloc_from (-200) (window self data)) <= length (window self data))%nat.
    { unfold iloc_from. rewrite length_drop. lia. }
    lia. }
  exists rows, latest, (ohlcv (ind latest)).
  split; [now rewrite <- Hrows |]. split; [exact Elast |].
  split; [exact Hnew |]. split; [reflexivity |]. split; [exact Hdata |].
  destruct (buysignal latest) eqn:Eb.
  - cbn in Hsig. injection Hsig as <-. cbn.
    split; [reflexivity |]. split; [reflexivity |]. left.
    destruct (Hb eq_refl) as (B1 & B2 & B3 & _).
    repeat split; try assumption; try lia.
    rewrite Hbuy in B3. apply Qgt_alt.
    destruct (ema_fast (ind latest) ?= ema_slow (ind latest))%Q; congruence.
  - destruct (sellsignal latest) eqn:Es; [| discriminate].
    cbn in Hsig. injection Hsig as <-. cbn.
    split; [reflexivity |]. split; [reflexivity |]. right.
    destruct (Hs eq_refl) as (S1 & S2 & S3 & _).
    repeat split; try assumption; try lia.
    rewrite Hsell in S3. apply Qlt_alt.
    destruct (ema_fast (ind latest) ?= ema_slow (ind latest))%Q; congruence.
Qed.

(** Twenty-eight candles at 100, then one at 110: the averages cross on the
    last candle. *)
Lemma signal_only_on_fresh_crossover_witness :
  let config := {| stop_loss_percentage := Fin (2 # 100);
                   take_profit_percentage := Fin (4 # 100) |} in
  let data := candles_of (repeat 100%Q 28 ++ [110%Q]) in
  data <> [] /\
  exists sig,
    generate_signal config "BTC/USD"
      (update_market_data "BTC/USD" data (__init__ None)).2 = Return (Some sig) /\
    TradingBot.signal sig = TradingBot.BUY /\
    TradingBot.price sig = Fin 110.
Proof.
  intros config data. split; [discriminate |].
  let v := eval vm_compute in
    (generate_signal config "BTC/USD"
       (update_market_data "BTC/USD" data (__init__ None)).2) in
  match v with Return (Some ?sg) => exists sg end.
  assert (Hsig : generate_signal config "BTC/USD"
                   (update_market_data "BTC/USD" data (__init__ None)).2
                 = Return (Some _)) by (vm_compute; reflexivity).
  split; [exact Hsig |].
  destruct (signal_only_on_fresh_crossover config "BTC/USD" data (__init__ None) _
              ltac:(discriminate) Hsig)
    as (rows & latest & newest & _ & _ & Hnew & _ & _ & _ & Hprice & _).
  split; [reflexivity |].
  rewrite Hprice. vm_compute in Hnew. injection Hnew as <-. reflexivity.
Defined.

(** X9. With fewer candles than the required history, the larger of the
    slow period and the two stochastic lengths together, [generate_signal]
    returns no signal. *)
Theorem no_signal_without_history (config : risk_parameters) (symbol : string)
    (data : list candle) (self : t) :
  data <> [] ->
  (length data < required_history self)%nat ->
  generate_signal config symbol (update_market_data symbol data self).2 = Return None.
Proof.
  intros Hne Hshort.
  pose proof (update_keeps_parameters symbol data self) as (_ & _ & P3 & _ & _ & _ & P7 & P8).
  destruct (stored_rows symbol data self Hne) as (rows & Hrows & _ & Hmap).
  unfold generate_signal. rewrite Hrows.
  assert (Hreq : required_history (update_market_data symbol data self).2
                 = required_history self).
  { unfold required_history. now rewrite P3, P7, P8. }
  rewrite Hreq.
  assert (Hlen : (length rows <= length data)%nat).
  { apply (f_equal (@length _)) in Hmap. rewrite length_map in Hmap.
    pose proof (window_length self data).
    assert (length (iloc_from (-200) (window self data)) <= length (window self data))%nat.
    { unfold iloc_from. rewrite length_drop. lia. }
    lia. }
  destruct (Nat.ltb_spec (length rows) (required_history self)); [reflexivity | lia].
Qed.

Lemma no_signal_without_history_witness :
  let config := {| stop_loss_percentage := Fin (2 # 100);
                   take_profit_percentage := Fin (4 # 100) |} in
  let data := candles_of (repeat 100%Q 26 ++ [110%Q]) in
  data <> [] /\
  (length data < required_history (__init__ None))%nat /\
  generate_signal config "BTC/USD" (update_market_data "BTC/USD" data (__init__ None)).2
    = Return None.
Proof.
  intros config data. split; [discriminate |]. split; [cbn; lia |].
  apply (no_signal_without_history config "BTC/USD" data (__init__ None));
    [discriminate | cbn; lia].
Defined.

Lemma flt_Fin (a b : Q) : (a < b)%Q -> flt (Fin a) (Fin b) = true.
Proof.
  intros H. unfold flt, fcompare.
  destruct (Qcompare_spec a b) as [E | E | E]; [| reflexivity |]; lra.
Qed.

Lemma fle_Fin (a b : Q) : (a <= b)%Q -> fle (Fin a) (Fin b) = true.
Proof.
  intros H. unfold fle, fcompare.
  destruct (Qcompare_spec a b) as [E | E | E]; [reflexivity | reflexivity | lra].
Qed.

(** X10. For a positive price and percentages that are not negative
    [_calculate_stop_loss_take_profit] brackets the price: for a BUY the
    stop is not above the price and the target not below it, for a SELL
    the target is not above the price and the stop not below it. *)
Theorem stop_and_target_bracket_price (config : risk_parameters) (p s g : Q) :
  stop_loss_percentage config = Fin s ->
  take_profit_percentage config = Fin g ->
  (0 < p)%Q -> (0 <= s)%Q -> (0 <= g)%Q ->
  let long := _calculate_stop_loss_take_profit config (Fin p) TradingBot.BUY in
  let short := _calculate_stop_loss_take_profit config (Fin p) TradingBot.SELL in
  fle long.1 (Fin p) = true /\ fle (Fin p) long.2 = true /\
  fle short.2 (Fin p) = true /\ fle (Fin p) short.1 = true.
Proof.
  intros Hs Hg Hp Hs0 Hg0. unfold _calculate_stop_loss_take_profit.
  rewrite Hs, Hg. cbn [fst snd fmul fsub fadd fneg].
  repeat split; apply fle_Fin; rewrite !Qred_correct; nra.
Qed.

Lemma stop_and_target_bracket_price_witness :
  let config := {| stop_loss_percentage := Fin (2 # 100);
                   take_profit_percentage := Fin (4 # 100) |} in
  let long := _calculate_stop_loss_take_profit config (Fin 50000) TradingBot.BUY in
  (0 < 50000)%Q /\ (0 <= 2 # 100)%Q /\ (0 <= 4 # 100)%Q /\
  fle long.1 (Fin 50000) = true /\ fle (Fin 50000) long.2 = true.
Proof.
  intros config long.
  assert (Hp : (0 < 50000)%Q) by reflexivity.
  assert (Hs : (0 <= 2 # 100)%Q) by (vm_compute; discriminate).
  assert (Hg : (0 <= 4 # 100)%Q) by (vm_compute; discriminate).
  split; [exact Hp |]. split; [exact Hs |]. split; [exact Hg |].
  destruct (stop_and_target_bracket_price config 50000 (2 # 100) (4 # 100)
              eq_refl eq_refl Hp Hs Hg) as (H1 & H2 & _).
  split; [exact H1 | exact H2].
Defined.

(** Comparisons against the bands. *)
Lemma flt_below (x : pyfloat) (a b : Q) :
  (a <= b)%Q -> flt x (Fin a) = true -> flt x (Fin b) = true.
Proof.
  intros Hab. destruct x as [q| | |]; try (cbn; congruence).
  unfold flt at 1. cbn [fcompare].
  destruct (Qcompare_spec q a); try discriminate. intros _.
  apply flt_Fin. lra.
Qed.

Lemma fgt_above (x : pyfloat) (a b : Q) :
  (b <= a)%Q -> fgt x (Fin a) = true -> fgt x (Fin b) = true.
Proof.
  intros Hab. destruct x as [q| | |]; try (cbn; congruence).
  unfold fgt. unfold flt at 1. cbn [fcompare].
  destruct (Qcompare_spec a q); try discriminate. intros _.
  apply flt_Fin. lra.
Qed.

Lemma crossovers_exclude (k d k1 d1 : pyfloat) :
  (fgt k d && fle k1 d1) && (flt k d && fge k1 d1) = false.
Proof.
  destruct (fgt k d) eqn:E1, (flt k d) eqn:E2; cbn; try reflexivity;
    try (now rewrite andb_false_r).
  exfalso. unfold fgt, flt in *.
  destruct k as [a| | |], d as [b| | |]; cbn in *; try discriminate.
  rewrite <- (Qcompare_antisym a b) in E1. destruct (a ?= b)%Q; discriminate.
Qed.

Lemma not_below_middle_not_below_lower (k d : pyfloat) :
  flt k middle_band || flt d middle_band = false ->
  flt k lower_band || flt d lower_band = false.
Proof.
  intros [A B]%orb_false_iff. apply orb_false_iff. split.
  - destruct (flt k lower_band) eqn:F; [| reflexivity].
    apply (flt_below k 20 50) in F; [unfold middle_band in A; congruence | lra].
  - destruct (flt d lower_band) eqn:F; [| reflexivity].
    apply (flt_below d 20 50) in F; [unfold middle_band in B; congruence | lra].
Qed.

Lemma not_above_middle_not_above_upper (k d : pyfloat) :
  fgt k middle_band || fgt d middle_band = false ->
  fgt k upper_band || fgt d upper_band = false.
Proof.
  intros [A B]%orb_false_iff. apply orb_false_iff. split.
  - destruct (fgt k upper_band) eqn:F; [| reflexivity].
    apply (fgt_above k 80 50) in F; [unfold middle_band in A; congruence | lra].
  - destruct (fgt d upper_band) eqn:F; [| reflexivity].
    apply (fgt_above d 80 50) in F; [unfold middle_band in B; congruence | lra].
Qed.

#[local] Ltac alert_raised :=
  cbn; split; [reflexivity | split; [auto 6 | split; discriminate]].

(** X11. An alert of [check_stoch_rsi_alerts] is for the symbol asked
    and has one of the types crossup_mid, crossdown_mid, below_upper_band,
    above_lower_band; the types crossup_os and crossdown_ob are never
    returned, since a value below 20 is below 50 and a value above 80 is
    above 50, so the middle-level branches take those cases first. *)
Theorem alerts_that_are_never_raised (symbol : string) (self : t) :
  match check_stoch_rsi_alerts symbol self with
  | Some a =>
      StochRSIAlert.symbol a = symbol /\
      In (StochRSIAlert.alert_type a)
         ["crossup_mid"; "crossdown_mid"; "below_upper_band"; "above_lower_band"] /\
      StochRSIAlert.alert_type a <> "crossup_os" /\
      StochRSIAlert.alert_type a <> "crossdown_ob"
  | None => True
  end.
Proof.
  unfold check_stoch_rsi_alerts.
  {
    destruct (market_data self !! symbol) as [df|]; [| exact I].
    destruct (length df <? 2)%nat; [exact I |].
    destruct (iloc_last df) as [latest|]; [| exact I].
    destruct (iloc_before_last df) as [before|]; [| exact I].
    cbv zeta.
    set (k := stoch_rsi_k (ind latest)). set (d := stoch_rsi_d (ind latest)).
    assert (Hband :
      match
        (if fge (stoch_rsi_k (ind before)) upper_band && flt k upper_band
         then Some {| StochRSIAlert.symbol := symbol;
                      StochRSIAlert.alert_type := "below_upper_band";
                      StochRSIAlert.price := Fin (close (ohlcv (ind latest)));
                      StochRSIAlert.timestamp := index_ms latest;
                      StochRSIAlert.stoch_k := k;
                      StochRSIAlert.stoch_d := d |}
         else if fle (stoch_rsi_k (ind before)) lower_band && fgt k lower_band
         then Some {| StochRSIAlert.symbol := symbol;
                      StochRSIAlert.alert_type := "above_lower_band";
                      StochRSIAlert.price := Fin (close (ohlcv (ind latest)));
                      StochRSIAlert.timestamp := index_ms latest;
                      StochRSIAlert.stoch_k := k;
                      StochRSIAlert.stoch_d := d |}
         else None)
      with
      | Some a =>
          StochRSIAlert.symbol a = symbol /\
          In (StochRSIAlert.alert_type a)
             ["crossup_mid"; "crossdown_mid"; "below_upper_band"; "above_lower_band"] /\
          StochRSIAlert.alert_type a <> "crossup_os" /\
          StochRSIAlert.alert_type a <> "crossdown_ob"
      | None => True
      end).
    { destruct (fge _ _ && flt k upper_band); [alert_raised |].
      destruct (fle _ _ && fgt k lower_band); [alert_raised | exact I]. }
    destruct (flt k middle_band || flt d middle_band) eqn:E1.
    + destruct (stoch_crossover_up (ind latest)); cbn [andb]; [alert_raised |].
      destruct (stoch_crossover_down (ind latest)); cbn [andb]; [| exact Hband].
      destruct (fgt k middle_band || fgt d middle_band) eqn:E2; [alert_raised |].
      rewrite (not_above_middle_not_above_upper k d E2). exact Hband.
    + rewrite (not_below_middle_not_below_lower k d E1), !andb_false_r.
      destruct (fgt k middle_band || fgt d middle_band) eqn:E2.
      * destruct (stoch_crossover_down (ind latest)); cbn [andb];
          [alert_raised | exact Hband].
      * rewrite (not_above_middle_not_above_upper k d E2), !andb_false_r.
        exact Hband.
  }
Qed.

(** X12. No row of [_calculate_indicators] is flagged as an upward and
    a downward crossover of the stochastic lines at once. *)
Theorem stochastic_crossovers_exclusive (self : t) (candles : list candle) :
  Forall (fun r => stoch_crossover_up r && stoch_crossover_down r = false)
         (_calculate_indicators self candles).
Proof.
  unfold _calculate_indicators.
  destruct (_calculate_stochastic_rsi _ _ _ _) as [col_k col_d].
  apply Forall_forall. intros r Hr.
  apply elem_of_lookup_imap in Hr as (i & c & -> & _). cbn.
  apply crossovers_exclude.
Qed.

End Signals.

(** ** The market summary *)

Section Summary.
Import BTCCharlieStrategy StrategyStatements StrategySignals.

(** A row whose condition holds has counted it. *)
Lemma counter_loop_active df : forall cb cs prev r,
  0 <= cb -> 0 <= cs ->
  r ∈ counter_loop cb cs prev df ->
  (buy (ind r) = true -> sell (ind r) = false -> 1 <= countBuy r) /\
  (sell (ind r) = true -> 1 <= countSell r).
Proof.
  induction df as [|x rest IH]; intros cb cs prev r Hcb Hcs Hr; [inversion Hr |].
  rewrite counter_loop_cons in Hr. cbn zeta in Hr.
  apply elem_of_cons in Hr as [-> | Hr].
  - cbn [countBuy countSell ind].
    destruct (buy x), (sell x); split; intros; try discriminate; lia.
  - eapply IH; [| | exact Hr]; destruct (buy x), (sell x); lia.
Qed.

(** X13. After [update_market_data] on a non-empty batch (window limit
    positive) [get_market_summary] returns a summary for the symbol whose
    trend follows the counters: strong_bullish exactly when [countBuy > 1],
    strong_bearish exactly when [countSell > 1], bullish exactly when
    [countBuy = 1] with the fast average above the slow one, bearish in the
    mirrored case; when [signal_ready] is set the trend is bullish or
    bearish. *)
Theorem summary_trend_matches_counters (symbol : string) (data : list candle) (self : t) :
  data <> [] ->
  0 < default 500 (max_data_points self) ->
  exists s,
    get_market_summary symbol (update_market_data symbol data self).2 = Some s /\
    summary_symbol s = symbol /\
    (trend s = "strong_bullish" <-> 1 < summary_countBuy s) /\
    (trend s = "strong_bearish" <-> 1 < summary_countSell s) /\
    (trend s = "bullish" <->
     summary_countBuy s = 1 /\ (summary_ema_slow s < summary_ema_fast s)%Q) /\
    (trend s = "bearish" <->
     summary_countSell s = 1 /\ (summary_ema_fast s < summary_ema_slow s)%Q) /\
    (signal_ready s = true -> trend s = "bullish" \/ trend s = "bearish").
Proof.
  intros Hne Hmax.
  destruct (update_market_data_unfold symbol data self Hne) as (self' & H1 & H2 & _).
  rewrite H1. cbn [snd]. unfold get_market_summary. rewrite H2.
  pose proof (window_nonempty self data Hne Hmax) as Hw.
  destruct (iloc_last (iloc_from (-200)
              (counter_loop 0 0 None (_calculate_indicators self (window self data)))))
    as [latest|] eqn:Elast.
  2: { exfalso. apply Hw.
       assert (Hlen : length (iloc_from (-200)
                 (counter_loop 0 0 None
                    (_calculate_indicators self (window self data)))) = 0%nat).
       { destruct (iloc_from _ _) as [|a l] eqn:E; [reflexivity |].
         exfalso. revert Elast. clear. unfold iloc_last.
         generalize a. induction l as [|b l IH]; intros a'; [discriminate |].
         cbn. apply IH. }
       rewrite (iloc_from_negative_length 200) in Hlen by lia.
       rewrite counter_loop_length, indicators_length in Hlen.
       destruct (window self data); [reflexivity | cbn in Hlen; lia]. }
  eexists. split; [reflexivity |]. cbn.
  split; [reflexivity |].
  assert (Hin : latest ∈ counter_loop 0 0 None
                           (_calculate_indicators self (window self data))).
  { apply iloc_last_iloc_from in Elast. now apply last_Some_elem. }
  pose proof (counter_loop_flags _ 0 0 None latest Hin) as (Hb & Hs & Hbull & Hbear).
  pose proof (counter_loop_active _ 0 0 None latest ltac:(lia) ltac:(lia) Hin)
    as (Hab & Has).
  assert (Hinv : 0 <= countBuy latest /\ 0 <= countSell latest /\
                 (countBuy latest = 0 \/ countSell latest = 0)).
  { apply list_elem_of_lookup in Hin as [i Hi].
    pose proof (counter_loop_invariant _ 0 0 None i latest ltac:(lia) ltac:(lia)
                  ltac:(now left) Hi). tauto. }
  assert (Hrow : ind latest ∈ _calculate_indicators self (window self data)).
  { rewrite <- (counter_loop_ind _ 0 0 None). now apply list_elem_of_fmap_2. }
  apply list_elem_of_lookup in Hrow as [j Hj].
  apply indicators_lookup in Hj as (_ & _ & _ & _ & Hbuy & Hsell).
  assert (Hcmp : (buy (ind latest) = true <->
                  (ema_slow (ind latest) < ema_fast (ind latest))%Q) /\
                 (sell (ind latest) = true <->
                  (ema_fast (ind latest) < ema_slow (ind latest))%Q)).
  { rewrite Hbuy, Hsell.
    destruct (Qcompare_spec (ema_fast (ind latest)) (ema_slow (ind latest)));
      split; split; intros; try discriminate; try reflexivity; try lra. }
  destruct Hcmp as [Cb Cs].
  assert (Hexcl : buy (ind latest) = true -> sell (ind latest) = false).
  { intros B. apply Cb in B. apply not_true_is_false. intros S.
    apply Cs in S. lra. }
  assert (Hready : buysignal latest || sellsignal latest = true ->
                   bull latest = false /\ bear latest = false /\
                   (buy (ind latest) = true \/ sell (ind latest) = true)).
  { intros [R | R]%orb_true_iff.
    - destruct (Hb R) as (B1 & B2 & B3 & B4).
      split; [exact B4 |]. split; [| now left].
      apply not_true_is_false. intros X. apply Hbear in X. lia.
    - destruct (Hs R) as (S1 & S2 & S3 & S4).
      split; [| split; [exact S4 | now right]].
      apply not_true_is_false. intros X. apply Hbull in X. lia. }
  destruct Hinv as (I1 & I2 & I3).
  destruct (bull latest) eqn:Ebull.
  { apply proj1 in Hbull. specialize (Hbull eq_refl).
    split; [split; intros; [exact Hbull | reflexivity] |].
    split; [split; intros; [discriminate | lia] |].
    split; [split; [discriminate | intros [X _]; lia] |].
    split; [split; [discriminate | intros [X _]; lia] |].
    intros R. destruct (Hready R) as (X & _). discriminate. }
  destruct (bear latest) eqn:Ebear.
  { apply proj1 in Hbear. specialize (Hbear eq_refl).
    split; [split; intros; [discriminate | lia] |].
    split; [split; intros; [exact Hbear | reflexivity] |].
    split; [split; [discriminate | intros [X _]; lia] |].
    split; [split; [discriminate | intros [X _]; lia] |].
    intros R. destruct (Hready R) as (_ & X & _). discriminate. }
  assert (Hnb : ~ 1 < countBuy latest).
  { intros X. apply Hbull in X. discriminate. }
  assert (Hns : ~ 1 < countSell latest).
  { intros X. apply Hbear in X. discriminate. }
  destruct (buy (ind latest)) eqn:Ebuy.
  { specialize (Hab eq_refl (Hexcl eq_refl)). apply proj1 in Cb. specialize (Cb eq_refl).
    split; [split; intros; [discriminate | lia] |].
    split; [split; intros; [discriminate | lia] |].
    split; [split; [intros _; split; [lia | exact Cb] | reflexivity] |].
    split; [split; [discriminate | intros [_ X]; lra] |].
    intros _. now left. }
  destruct (sell (ind latest)) eqn:Esell.
  { specialize (Has eq_refl). apply proj1 in Cs. specialize (Cs eq_refl).
    split; [split; intros; [discriminate | lia] |].
    split; [split; intros; [discriminate | lia] |].
    split; [split; [discriminate | intros [_ X]; lra] |].
    split; [split; [intros _; split; [lia | exact Cs] | reflexivity] |].
    intros _. now right. }
  split; [split; intros; [discriminate | lia] |].
  split; [split; intros; [discriminate | lia] |].
  split; [split; [discriminate | intros [_ X]; apply Cb in X; discriminate] |].
  split; [split; [discriminate | intros [_ X]; apply Cs in X; discriminate] |].
  intros R. destruct (Hready R) as (_ & _ & [X | X]); discriminate.
Qed.

Lemma summary_trend_matches_counters_witness :
  let data := candles_of (repeat 100%Q 28 ++ [110%Q]) in
  data <> [] /\
  exists s,
    get_market_summary "BTC/USD" (update_market_data "BTC/USD" data (__init__ None)).2
      = Some s /\
    trend s = "bullish" /\ signal_ready s = true /\ summary_countBuy s = 1.
Proof.
  intros data. split; [discriminate |].
  destruct (summary_trend_matches_counters "BTC/USD" data (__init__ None)
              ltac:(discriminate) eq_refl) as (s & Hs & _).
  exists s. split; [exact Hs |].
  vm_compute in Hs. injection Hs as <-. repeat split.
Defined.

End Summary.

(** ** Requests: effects of a call *)

Section RequestEffects.
Import KrakenExchange ExchangeStatements.

(** One attempt, for either method. *)
Lemma send_effect method endpoint data self w :
  let sent := send method endpoint data self w in
  sent.1.1.2 = http w (requests w) /\
  http sent.2 = http w /\
  clock sent.2 = clock w /\
  requests sent.2 = S (requests w) /\
  lockout_until sent.1.2 = lockout_until self /\
  base_url sent.1.2 = base_url self /\
  min_request_interval sent.1.2 = min_request_interval self /\
  (if String.eqb method "GET"
   then nonce_manager sent.1.2 = nonce_manager self
   else KrakenNonceManager.last_nonce (nonce_manager self)
        < KrakenNonceManager.last_nonce (nonce_manager sent.1.2)) /\
  exists later, events sent.2 = events w ++ later.
Proof.
  unfold send. destruct (String.eqb method "GET").
  - cbn. destruct (Qltb _ _); cbn; repeat split; try reflexivity.
    + rewrite <- app_assoc. eauto.
    + eauto.
  - cbn -[KrakenNonceManager.get_nonce]. rewrite get_nonce_value.
    cbn. destruct (Qltb _ _); cbn; repeat split; try lia.
    + rewrite <- app_assoc. eauto.
    + eauto.
Qed.

Lemma check_lockout_events self w :
  events (_check_lockout self w) =
    events w ++
    (if Qltb (clock w (ticks w)) (lockout_until self)
     then [Sleep (lockout_until self - clock w (S (ticks w)))]
     else []).
Proof.
  unfold _check_lockout. cbn. destruct (Qltb _ _); cbn; [reflexivity |].
  now rewrite app_nil_r.
Qed.

(** [_make_request], one attempt at a time. *)
Lemma make_request_step method endpoint data retry_count self w :
  let sent := send method endpoint data self (_check_lockout self w) in
  _make_request method endpoint data retry_count self w =
    match read_response sent.1.1.2 with
    | HttpFailure msg | ParseFailure msg => (Raise (Exception msg), sent.1.2, sent.2)
    | Success payload => (Return payload, sent.1.2, sent.2)
    | ApiError error_msg =>
        match classify_error error_msg with
        | InvalidKey =>
            (Raise (api_failure error_msg),
             set_lockout_until (clock sent.2 (ticks sent.2) + 900) sent.1.2,
             (time_ sent.2).2)
        | InvalidNonce =>
            if (retry_count <? 3)%nat
            then _make_request method endpoint sent.1.1.1 (S retry_count) sent.1.2
                               (sleep (1 # 10) sent.2)
            else (Raise (api_failure error_msg), sent.1.2, sent.2)
        | RateLimit =>
            (Raise (api_failure error_msg),
             set_lockout_until (clock sent.2 (ticks sent.2) + 300) sent.1.2,
             (time_ sent.2).2)
        | OtherError => (Raise (api_failure error_msg), sent.1.2, sent.2)
        end
    end.
Proof.
  intros sent. rewrite _make_request_equation_1. subst sent.
  destruct (send method endpoint data self (_check_lockout self w))
    as [[[data1 r] self1] w1].
  cbn -[Nat.ltb]. destruct (read_response r); cbn -[Nat.ltb]; try reflexivity.
  destruct (classify_error error_msg); cbn -[Nat.ltb]; try reflexivity.
  destruct (Nat.ltb_spec retry_count 3), (lt_dec retry_count 3); try lia; reflexivity.
Qed.

(** What any call does, whatever the exchange answers. *)
Lemma make_request_effect method endpoint (n : nat) :
  forall retry_count data self w,
  (3 - retry_count = n)%nat ->
  let call := _make_request method endpoint data retry_count self w in
  (requests w < requests call.2 <= requests w + S (3 - retry_count))%nat /\
  http call.2 = http w /\
  clock call.2 = clock w /\
  (if String.eqb method "GET"
   then nonce_manager call.1.2 = nonce_manager self
   else KrakenNonceManager.last_nonce (nonce_manager self)
          + Z.of_nat (requests call.2 - requests w)
        <= KrakenNonceManager.last_nonce (nonce_manager call.1.2)) /\
  (returned call.1.1 = true -> lockout_until call.1.2 = lockout_until self) /\
  base_url call.1.2 = base_url self /\
  min_request_interval call.1.2 = min_request_interval self /\
  exists later, events call.2 = events (_check_lockout self w) ++ later.
Proof.
  induction n as [|n IH]; intros retry_count data self w Hn call; subst call;
    rewrite make_request_step;
    pose proof (send_effect method endpoint data self (_check_lockout self w)) as Hs;
    cbn zeta in Hs;
    destruct (send method endpoint data self (_check_lockout self w))
      as [[[data1 r] self1] w1];
    cbn [fst snd] in *;
    destruct Hs as (Hr & Hhttp & Hclock & Hreq & Hlock & Hurl & Hmin & Hnonce & later & Hev);
    destruct (check_lockout_world self w) as (C1 & C2 & C3);
    rewrite C1 in Hhttp; rewrite C2 in Hreq; rewrite C3 in Hclock.
  all: assert (Hone :
      (requests w < requests w1 <= requests w + 1)%nat /\
      (if String.eqb method "GET"
       then nonce_manager self1 = nonce_manager self
       else KrakenNonceManager.last_nonce (nonce_manager self)
              + Z.of_nat (requests w1 - requests w)
            <= KrakenNonceManager.last_nonce (nonce_manager self1)));
    [ split; [lia |]; destruct (String.eqb method "GET"); [exact Hnonce |];
      rewrite Hreq; replace (S (requests w) - requests w)%nat with 1%nat by lia; lia |].
  all: destruct Hone as [Hcount Hnonce'].
  all: assert (Hterminal : forall o : outcome json,
      (requests w < requests (o, self1, w1).2 <= requests w + S (3 - retry_count))%nat /\
      http w1 = http w /\ clock w1 = clock w /\
      (if String.eqb method "GET"
       then nonce_manager self1 = nonce_manager self
       else KrakenNonceManager.last_nonce (nonce_manager self)
              + Z.of_nat (requests w1 - requests w)
            <= KrakenNonceManager.last_nonce (nonce_manager self1)) /\
      (returned o = true -> lockout_until self1 = lockout_until self) /\
      base_url self1 = base_url self /\
      min_request_interval self1 = min_request_interval self /\
      exists later, events w1 = events (_check_lockout self w) ++ later);
    [ intros o; cbn [snd]; repeat split; try assumption; try lia; eauto |].
  all: destruct (read_response r) as [msg | msg | error_msg | payload];
    cbn [fst snd]; try apply Hterminal.
  all: destruct (classify_error error_msg); cbn [fst snd]; try apply Hterminal.
  all: try (cbn; repeat split; try assumption; try lia; try discriminate; eauto; fail).
  - destruct (Nat.ltb_spec retry_count 3); [lia | apply Hterminal].
  - destruct (Nat.ltb_spec retry_count 3); [| apply Hterminal].
    specialize (IH (S retry_count) data1 self1 (sleep (1 # 10) w1) ltac:(lia)).
    cbn zeta in IH.
    destruct (_make_request method endpoint data1 (S retry_count) self1
                            (sleep (1 # 10) w1)) as [[o self2] w2].
    cbn [fst snd] in *.
    destruct IH as (I1 & I2 & I3 & I4 & I5 & I6 & I7 & later' & I8).
    cbn [sleep log requests http clock] in I1, I2, I3, I4.
    split; [lia |]. split; [congruence |]. split; [congruence |].
    split.
    { destruct (String.eqb method "GET"); [congruence |].
      replace (requests w2 - requests w)%nat
        with ((requests w1 - requests w) + (requests w2 - requests w1))%nat by lia.
      lia. }
    split; [intros Ho; rewrite (I5 Ho); exact Hlock |].
    split; [congruence |]. split; [congruence |].
    rewrite check_lockout_events in I8. cbn [sleep log events ticks clock] in I8.
    rewrite Hev in I8.
    rewrite <- !app_assoc in I8. eexists. exact I8.
Qed.

(** X14. Whatever the exchange answers, a call of [_make_request] sends at
    least one request and at most four (one more than the retries left);
    a public request leaves the nonce manager as it was, a private call
    advances the nonce by at least one per request sent; the lockout is
    changed by failing calls only; the base URL and the request interval
    are never changed; and what was logged before stays logged. *)
Theorem request_count_and_nonce_bounds (method endpoint : string) (data : option dict)
    (retry_count : nat) (self : t) (w : world) :
  let call := _make_request method endpoint data retry_count self w in
  (requests w < requests call.2 <= requests w + S (3 - retry_count))%nat /\
  (if String.eqb method "GET"
   then nonce_manager call.1.2 = nonce_manager self
   else KrakenNonceManager.last_nonce (nonce_manager self)
          + Z.of_nat (requests call.2 - requests w)
        <= KrakenNonceManager.last_nonce (nonce_manager call.1.2)) /\
  (if returned call.1.1 then lockout_until call.1.2 = lockout_until self else True) /\
  base_url call.1.2 = base_url self /\
  min_request_interval call.1.2 = min_request_interval self /\
  exists later, events call.2 = events w ++ later.
Proof.
  intros call.
  pose proof (make_request_effect method endpoint (3 - retry_count) retry_count
                data self w eq_refl) as H.
  cbn zeta in H. fold call in H.
  destruct H as (H1 & _ & _ & H4 & H5 & H6 & H7 & later & H8).
  split; [exact H1 |]. split; [exact H4 |].
  split; [destruct (returned call.1.1); [now apply H5 | exact I] |].
  split; [exact H6 |]. split; [exact H7 |].
  rewrite check_lockout_events, <- app_assoc in H8. eauto.
Qed.

Lemma Qltb_lt (a b : Q) : Qltb a b = true <-> (a < b)%Q.
Proof.
  unfold Qltb. destruct (Qcompare_spec a b) as [E | E | E]; split; intros H;
    try discriminate; try reflexivity; try assumption; lra.
Qed.

(** X15. A lockout delays a call but does not refuse it: while the clock
    is before [lockout_until], [_make_request] first sleeps for the time
    that remains at the second clock reading and then sends its request
    all the same. *)
Theorem lockout_delays_the_request (method endpoint : string) (data : option dict)
    (retry_count : nat) (self : t) (w : world) :
  (clock w (ticks w) < lockout_until self)%Q ->
  let call := _make_request method endpoint data retry_count self w in
  (requests w < requests call.2)%nat /\
  exists later,
    events call.2 =
      events w ++ Sleep (lockout_until self - clock w (S (ticks w))) :: later.
Proof.
  intros Hlock call.
  pose proof (make_request_effect method endpoint (3 - retry_count) retry_count
                data self w eq_refl) as H.
  cbn zeta in H. fold call in H.
  destruct H as (H1 & _ & _ & _ & _ & _ & _ & later & H8).
  split; [lia |].
  rewrite check_lockout_events in H8. apply Qltb_lt in Hlock. rewrite Hlock in H8.
  rewrite <- app_assoc in H8. eauto.
Qed.

Lemma lockout_delays_the_request_witness :
  let self := set_lockout_until 1700000900 __init__ in
  let w := always (error_response 200 "EGeneral:Internal error") in
  let call := _make_request "POST" "/0/private/Balance" None 0 self w in
  (clock w (ticks w) < lockout_until self)%Q /\
  (requests w < requests call.2)%nat /\
  exists later, events call.2 = events w ++ Sleep 899 :: later.
Proof.
  intros self w call. split; [reflexivity |].
  destruct (lockout_delays_the_request "POST" "/0/private/Balance" None 0 self w
              eq_refl) as (H1 & later & H2).
  split; [exact H1 |]. exists later. exact H2.
Defined.

(** Retries that end well. *)
Lemma retry_recovery method endpoint (k : nat) :
  forall data retry_count self w payload,
  (retry_count + k <= 3)%nat ->
  (forall j, (j < k)%nat ->
     exists msg, error_reply (http w (requests w + j)%nat) msg /\
                 classify_error msg = InvalidNonce) ->
  read_response (http w (requests w + k)%nat) = Success payload ->
  exists self' w',
    _make_request method endpoint data retry_count self w = (Return payload, self', w') /\
    requests w' = (requests w + S k)%nat /\
    lockout_until self' = lockout_until self.
Proof.
  induction k as [|k IH]; intros data retry_count self w payload Hrc Hall Hok;
    rewrite make_request_step;
    pose proof (send_effect method endpoint data self (_check_lockout self w)) as Hs;
    cbn zeta in Hs;
    destruct (send method endpoint data self (_check_lockout self w))
      as [[[data1 r] self1] w1];
    cbn [fst snd] in *;
    destruct Hs as (Hr & Hhttp & Hclock & Hreq & Hlock & _);
    destruct (check_lockout_world self w) as (C1 & C2 & C3);
    rewrite C1, C2 in Hr; rewrite C1 in Hhttp; rewrite C2 in Hreq.
  - rewrite Nat.add_0_r in Hok. rewrite Hr, Hok.
    exists self1, w1. repeat split; [lia | exact Hlock].
  - destruct (Hall 0%nat) as (msg & Hmsg & Hclass); [lia |].
    rewrite Nat.add_0_r, <- Hr in Hmsg.
    rewrite (read_error_reply _ _ Hmsg), Hclass.
    destruct (Nat.ltb_spec retry_count 3); [| lia].
    destruct (IH data1 (S retry_count) self1 (sleep (1 # 10) w1) payload)
      as (self' & w' & H1 & H2 & H3); [lia | | |].
    + intros j Hj. cbn [sleep log requests http]. rewrite Hhttp, Hreq.
      replace (S (requests w) + j)%nat with (requests w + S j)%nat by lia.
      apply Hall. lia.
    + cbn [sleep log requests http]. rewrite Hhttp, Hreq.
      replace (S (requests w) + k)%nat with (requests w + S k)%nat by lia.
      exact Hok.
    + exists self', w'. split; [exact H1 |].
      cbn [sleep log requests] in H2. rewrite Hreq in H2.
      split; [lia | congruence].
Qed.

(** X16. Invalid-nonce replies are recovered from: when the first [k]
    replies, [k] at most 3, are invalid-nonce errors and the next one is a
    success, a fresh call returns the payload of that reply after [k + 1]
    requests and leaves the lockout as it was. *)
Theorem invalid_nonce_retry_recovers (method endpoint : string) (data : option dict)
    (self : t) (w : world) (k : nat) (payload : json) :
  (k <= 3)%nat ->
  (forall j, (j < k)%nat ->
     exists msg, error_reply (http w (requests w + j)%nat) msg /\
                 classify_error msg = InvalidNonce) ->
  read_response (http w (requests w + k)%nat) = Success payload ->
  exists self' w',
    _make_request method endpoint data 0 self w = (Return payload, self', w') /\
    requests w' = (requests w + S k)%nat /\
    lockout_until self' = lockout_until self.
Proof.
  intros Hk Hall Hok.
  apply (retry_recovery method endpoint k data 0%nat self w payload); assumption.
Qed.

Lemma invalid_nonce_retry_recovers_witness :
  let w := {| clock := fun n => inject_Z (1700000000 + Z.of_nat n); ticks := 0;
              http := fun n =>
                if (n <? 2)%nat then error_response 200 "EAPI:Invalid nonce"
                else {| status_code := 200; text := "";
                        json_body := Some {| error := [];
                                             result := Some (JDict [("ZUSD", JStr "5")]) |} |};
              requests := 0; events := [] |} in
  exists self' w',
    _make_request "POST" "/0/private/Balance" None 0 __init__ w
      = (Return (JDict [("ZUSD", JStr "5")]), self', w') /\
    requests w' = 3%nat /\
    lockout_until self' = lockout_until __init__.
Proof.
  intros w.
  apply (invalid_nonce_retry_recovers "POST" "/0/private/Balance" None __init__ w 2
           (JDict [("ZUSD", JStr "5")])).
  - lia.
  - intros j Hj. exists "['EAPI:Invalid nonce']".
    assert (Hhttp : http w (requests w + j)%nat = error_response 200 "EAPI:Invalid nonce").
    { cbn. destruct j as [|[|j]]; [reflexivity | reflexivity | lia]. }
    rewrite Hhttp. split; [| reflexivity].
    split; [reflexivity |]. eexists. split; [reflexivity |].
    split; [discriminate | reflexivity].
  - reflexivity.
Defined.

End RequestEffects.

(** ** Symbols and balances *)

Section Symbols.
Import KrakenExchange ExchangeStatements ClientStatements.

Lemma split_length sep s : length (split sep s) = S (occurrences sep s).
Proof.
  induction s as [|a s IH]; [reflexivity |].
  cbn [split occurrences]. destruct (Ascii.eqb a sep).
  - cbn. now rewrite IH.
  - destruct (split sep s) as [|h t]; [discriminate |]. cbn in *. lia.
Qed.

Lemma split_no_separator sep s : occurrences sep s = 0%nat -> split sep s = [s].
Proof.
  induction s as [|a s IH]; [reflexivity |].
  cbn [split occurrences]. destruct (Ascii.eqb a sep); [discriminate |].
  intros H. now rewrite IH.
Qed.

Lemma split_at_separator sep base rest :
  occurrences sep base = 0%nat ->
  split sep (base ++ String sep rest) = base :: split sep rest.
Proof.
  induction base as [|a base IH].
  - intros _. change (split sep (String sep rest) = EmptyString :: split sep rest).
    cbn [split]. now rewrite Ascii.eqb_refl.
  - change (String a base ++ String sep rest)%string
      with (String a (base ++ String sep rest)%string).
    cbn [split occurrences]. destruct (Ascii.eqb a sep); [discriminate |].
    intros H. now rewrite IH.
Qed.

(** X17. [_convert_symbol_to_kraken] returns a pair code exactly for the
    symbols that contain one slash; for a base and a quote without slash
    the code of [base/quote] is the two codes, each replaced by its alias
    when the table has one, put together. *)
Theorem convert_symbol_needs_one_slash (symbol base quote : string) :
  ((exists code, _convert_symbol_to_kraken symbol = Return code) <->
   occurrences "/" symbol = 1%nat) /\
  (occurrences "/" base = 0%nat -> occurrences "/" quote = 0%nat ->
   _convert_symbol_to_kraken (base ++ "/" ++ quote)%string =
     Return (default base (kraken_map !! base)
               ++ default quote (kraken_map !! quote))%string).
Proof.
  split.
  - unfold _convert_symbol_to_kraken.
    pose proof (split_length "/" symbol) as Hlen.
    destruct (split "/" symbol) as [|a [|b [|c l]]]; cbn in Hlen; split;
      try (intros [code H]; discriminate); try (intros H; lia).
    intros _. eauto.
  - intros Hb Hq. unfold _convert_symbol_to_kraken.
    change ("/" ++ quote)%string with (String "/" quote).
    rewrite (split_at_separator "/" base quote Hb), (split_no_separator "/" quote Hq).
    reflexivity.
Qed.

Lemma convert_symbol_needs_one_slash_witness :
  occurrences "/" "BTC" = 0%nat /\ occurrences "/" "USDT" = 0%nat /\
  _convert_symbol_to_kraken "BTC/USDT" = Return "XBTUSD" /\
  ((exists code, _convert_symbol_to_kraken "BTC/USDT/X" = Return code) <->
   occurrences "/" "BTC/USDT/X" = 1%nat).
Proof.
  destruct (convert_symbol_needs_one_slash "BTC/USDT/X" "BTC" "USDT") as [H1 H2].
  split; [reflexivity |]. split; [reflexivity |].
  split; [exact (H2 eq_refl eq_refl) | exact H1].
Defined.

End Symbols.

Section Balances.
Import KrakenExchange ExchangeStatements ClientStatements.
Variable float_ : json -> outcome pyfloat.

Lemma find_app {A} (f : A -> bool) (l1 l2 : list A) :
  List.find f (l1 ++ l2) =
    match List.find f l1 with Some x => Some x | None => List.find f l2 end.
Proof.
  induction l1 as [|a l1 IH]; [reflexivity |].
  cbn. destruct (f a); [reflexivity | exact IH].
Qed.

Lemma convert_balances_last_wins (items : list (string * json)) :
  forall acc,
  Forall (fun item => returned (float_ item.2) = true) items ->
  exists m,
    convert_balances float_ items acc = Return m /\
    forall key,
      m !! key =
        match last_item key items with
        | Some item =>
            match float_ item.2 with Return x => Some x | Raise _ => None end
        | None => acc !! key
        end.
Proof.
  induction items as [|[c b] rest IH]; intros acc Hall.
  - exists acc. split; reflexivity.
  - apply Forall_cons in Hall as [Hb Hall]. cbn [snd] in Hb.
    cbn [convert_balances]. destruct (float_ b) as [x|e] eqn:Eb; [| discriminate].
    destruct (IH (<[balance_currency c := x]> acc) Hall) as (m & Hm & Hkeys).
    exists m. split; [exact Hm |].
    intros key. rewrite Hkeys. unfold last_item. cbn [rev].
    rewrite find_app.
    destruct (List.find _ (rev rest)) as [item|]; [reflexivity |].
    cbn [List.find fst snd].
    destruct (String.eqb (balance_currency c) key) eqn:E.
    + apply String.eqb_eq in E. subst key. cbn [snd]. rewrite Eb.
      apply lookup_insert_eq.
    + apply String.eqb_neq in E. now apply lookup_insert_ne.
Qed.

Lemma convert_balances_raises (items : list (string * json)) :
  forall acc before item e after,
  items = before ++ item :: after ->
  Forall (fun item => returned (float_ item.2) = true) before ->
  float_ item.2 = Raise e ->
  convert_balances float_ items acc = Raise e.
Proof.
  induction items as [|[c b] rest IH]; intros acc before item e after Hsplit Hall He.
  - destruct before; discriminate.
  - destruct before as [|[c' b'] before].
    + cbn in Hsplit. injection Hsplit as <- <-. cbn [convert_balances].
      cbn [snd] in He. now rewrite He.
    + cbn in Hsplit. injection Hsplit as -> -> ->.
      apply Forall_cons in Hall as [Hb Hall]. cbn [snd] in Hb.
      cbn [convert_balances]. destruct (float_ b') as [x|e'] eqn:Eb; [| discriminate].
      now apply (IH _ before item e after).
Qed.

(** X18. [get_balance] on a successful reply whose result is a dictionary:
    when every balance converts, the call returns after one request a
    dictionary in which each converted currency key (leading Z stripped,
    XXBT read as BTC) holds the balance of the last item of the reply with
    that converted key, and no other key; when a balance fails to convert,
    the call raises the error of the first one that fails. *)
Theorem balance_of_last_item_wins (self : t) (w : world) (items : list (string * json)) :
  read_response (http w (requests w)) = Success (JDict items) ->
  (Forall (fun item => returned (float_ item.2) = true) items ->
   exists m self' w',
     get_balance float_ self w = (Return m, self', w') /\
     requests w' = S (requests w) /\
     forall key,
       m !! key =
         match last_item key items with
         | Some item =>
             match float_ item.2 with Return x => Some x | Raise _ => None end
         | None => None
         end) /\
  (forall before item e after,
     items = before ++ item :: after ->
     Forall (fun item => returned (float_ item.2) = true) before ->
     float_ item.2 = Raise e ->
     exists self' w', get_balance float_ self w = (Raise e, self', w')).
Proof.
  intros Hok.
  destruct (retry_recovery "POST" "/0/private/Balance" 0 None 0%nat self w (JDict items))
    as (self' & w' & Hcall & Hreq & _).
  { lia. }
  { intros j Hj. lia. }
  { now rewrite Nat.add_0_r. }
  split.
  - intros Hall.
    destruct (convert_balances_last_wins items ∅ Hall) as (m & Hm & Hkeys).
    exists m, self', w'. unfold get_balance. rewrite Hcall, Hm.
    split; [reflexivity |]. split; [lia |].
    intros key. rewrite Hkeys. destruct (last_item key items); [reflexivity |].
    apply lookup_empty.
  - intros before item e after Hsplit Hall He.
    exists self', w'. unfold get_balance. rewrite Hcall.
    now rewrite (convert_balances_raises items ∅ before item e after).
Qed.

End Balances.

Section BalancesExample.
Import KrakenExchange ExchangeStatements ClientStatements.

Lemma balance_of_last_item_wins_witness :
  let items := [("ZUSD", JNum 5); ("XXBT", JNum 1); ("USD", JNum 7)] in
  let w := always (result_response (JDict items)) in
  exists m self' w',
    get_balance number_only __init__ w = (Return m, self', w') /\
    m !! "USD" = Some (Fin 7) /\ m !! "BTC" = Some (Fin 1) /\ m !! "ZUSD" = None.
Proof.
  intros items w.
  destruct (balance_of_last_item_wins number_only __init__ w items eq_refl) as [H _].
  destruct H as (m & self' & w' & Hcall & _ & Hkeys).
  { repeat constructor. }
  exists m, self', w'. split; [exact Hcall |].
  rewrite !Hkeys. repeat split.
Defined.

End BalancesExample.

(** ** Orders and history *)

Section FirstRequest.
Import KrakenExchange ExchangeStatements ClientStatements.

Lemma check_lockout_waits self w :
  exists waits, events (_check_lockout self w) = events w ++ waits /\ Forall is_sleep waits.
Proof.
  rewrite check_lockout_events. destruct (Qltb _ _); eexists; split; try reflexivity.
  - repeat constructor.
  - constructor.
Qed.

(** What a private attempt posts. *)
Lemma send_private_post method endpoint data self w :
  String.eqb method "GET" = false ->
  let sent := send method endpoint data self w in
  exists nonce waits,
    sent.1.1.1 = Some (<["nonce" := nonce]> (default ∅ data)) /\
    events sent.2 =
      events w ++ waits
        ++ [Post (base_url self ++ endpoint) (<["nonce" := nonce]> (default ∅ data))] /\
    Forall is_sleep waits.
Proof.
  intros Hm. unfold send. rewrite Hm. cbn -[KrakenNonceManager.get_nonce].
  rewrite get_nonce_value. cbn. destruct (Qltb _ _); cbn.
  - eexists _, [_]. rewrite <- app_assoc. repeat split. repeat constructor.
  - eexists _, []. repeat split. constructor.
Qed.

(** What a public attempt asks. *)
Lemma send_public_get endpoint data self w :
  let sent := send "GET" endpoint data self w in
  exists waits,
    events sent.2 = events w ++ waits ++ [Get (base_url self ++ endpoint) data] /\
    Forall is_sleep waits.
Proof.
  unfold send. cbn. destruct (Qltb _ _); cbn.
  - eexists [_]. rewrite <- app_assoc. repeat split. repeat constructor.
  - eexists []. repeat split. constructor.
Qed.

(** The log of a call starts with the log of its first attempt. *)
Lemma make_request_after_send method endpoint data retry_count self w :
  let sent := send method endpoint data self (_check_lockout self w) in
  exists later,
    events (_make_request method endpoint data retry_count self w).2
      = events sent.2 ++ later.
Proof.
  intros sent. rewrite make_request_step. fold sent.
  destruct (read_response sent.1.1.2); cbn [snd];
    try (exists []; now rewrite app_nil_r).
  destruct (classify_error error_msg); cbn [snd time_ events];
    try (exists []; now rewrite app_nil_r).
  destruct (retry_count <? 3)%nat; [| exists []; now rewrite app_nil_r].
  pose proof (make_request_effect method endpoint (3 - S retry_count) (S retry_count)
                sent.1.1.1 sent.1.2 (sleep (1 # 10) sent.2) eq_refl) as H.
  cbn zeta in H. destruct H as (_ & _ & _ & _ & _ & _ & _ & later & H).
  rewrite check_lockout_events in H. cbn [sleep log events] in H.
  rewrite <- !app_assoc in H. eauto.
Qed.

End FirstRequest.

Section Orders.
Import KrakenExchange ExchangeStatements ClientStatements KrakenOrders.
Variable str_float : pyfloat -> string.
Variable order_id_of : json -> outcome (option string).

(** X19. [place_order] on a symbol that is not a pair ends in a failed
    result without any request. On a pair it posts to AddOrder, after
    waiting at most, a form that holds the pair code, the side in lower
    case, the order type, the amount and a nonce; a price only for a limit
    order with a price that is given and not zero; and nothing else. The
    stop-loss and the take-profit of the caller are sent nowhere: the call
    does the same with and without them. *)
Theorem order_form_contents (symbol side : string) (amount : pyfloat)
    (price : option pyfloat) (order_type : string)
    (stop_loss take_profit : option pyfloat) (self : t) (w : world) :
  let out := place_order str_float order_id_of symbol side amount price order_type
               stop_loss take_profit self w in
  match _convert_symbol_to_kraken symbol with
  | Raise e => out = (failure e, self, w)
  | Return kraken_pair =>
      exists order_data waits later,
        events out.2 =
          events w ++ waits
            ++ Post (base_url self ++ "/0/private/AddOrder") order_data :: later /\
        Forall is_sleep waits /\
        order_data !! "pair" = Some kraken_pair /\
        order_data !! "type" = Some (lower side) /\
        order_data !! "ordertype" = Some order_type /\
        order_data !! "volume" = Some (str_float amount) /\
        order_data !! "price" =
          (if String.eqb order_type "limit" && truthy price
           then str_float <$> price else None) /\
        is_Some (order_data !! "nonce") /\
        dom order_data ⊆@{gset string}
          {[ "pair"; "type"; "ordertype"; "volume"; "price"; "nonce" ]}
  end /\
  out = place_order str_float order_id_of symbol side amount price order_type
          None None self w.
Proof.
  intros out. split; [| reflexivity]. subst out. unfold place_order.
  destruct (_convert_symbol_to_kraken symbol) as [kraken_pair|e]; [| reflexivity].
  set (core := <["volume" := str_float amount]>
                 (<["ordertype" := order_type]>
                    (<["type" := lower side]> (<["pair" := kraken_pair]> (∅ : dict))))).
  set (form := match price with
               | Some p =>
                   if String.eqb order_type "limit" && truthy price
                   then <["price" := str_float p]> core else core
               | None => core
               end).
  destruct (make_request_after_send "POST" "/0/private/AddOrder" (Some form) 0 self w)
    as (later & Hlater).
  destruct (send_private_post "POST" "/0/private/AddOrder" (Some form) self
              (_check_lockout self w) eq_refl) as (nonce & waits2 & _ & Hsent & Hw2).
  destruct (check_lockout_waits self w) as (waits1 & Hcheck & Hw1).
  cbn zeta in *. rewrite Hsent, Hcheck in Hlater. cbn [default] in Hlater.
  assert (Hworld : forall (r : TradingBot.OrderResult * t * world) ,
            r.2 = (_make_request "POST" "/0/private/AddOrder" (Some form) 0 self w).2 ->
            events r.2 = events w ++ (waits1 ++ waits2)
                           ++ Post (base_url self ++ "/0/private/AddOrder")
                                   (<["nonce" := nonce]> form) :: later).
  { intros r ->. rewrite Hlater, <- !app_assoc. reflexivity. }
  exists (<["nonce" := nonce]> form), (waits1 ++ waits2), later.
  split.
  { apply Hworld.
    destruct (_make_request "POST" "/0/private/AddOrder" (Some form) 0 self w)
      as [[[result_|e] self'] w']; [destruct (order_id_of result_) |]; reflexivity. }
  split; [apply Forall_app; split; assumption |].
  assert (Hform : forall key, key <> "price" -> form !! key = core !! key).
  { intros key Hkey. subst form. destruct price as [p|]; [| reflexivity].
    destruct (_ && _); [now rewrite lookup_insert_ne | reflexivity]. }
  assert (Hprice : form !! "price" =
                     (if String.eqb order_type "limit" && truthy price
                      then str_float <$> price else None)).
  { subst form. destruct price as [p|].
    - destruct (_ && _); [now rewrite lookup_insert_eq | reflexivity].
    - rewrite andb_false_r. reflexivity. }
  repeat split.
  - rewrite lookup_insert_ne, Hform by discriminate. reflexivity.
  - rewrite lookup_insert_ne, Hform by discriminate. reflexivity.
  - rewrite lookup_insert_ne, Hform by discriminate. reflexivity.
  - rewrite lookup_insert_ne, Hform by discriminate. reflexivity.
  - rewrite lookup_insert_ne by discriminate. exact Hprice.
  - rewrite lookup_insert_eq. eauto.
  - subst form core. apply elem_of_subseteq. intros key Hkey.
    destruct price as [p|]; [destruct (_ && _) |];
      rewrite !dom_insert, dom_empty in Hkey;
      rewrite !elem_of_union, !elem_of_singleton, elem_of_empty in Hkey;
      rewrite !elem_of_union, !elem_of_singleton; tauto.
Qed.

End Orders.

Section History.
Import KrakenExchange ExchangeStatements ClientStatements KrakenOrders.
Variable int_ : json -> outcome Z.
Variable float_ : json -> outcome pyfloat.

Lemma candle_dict_timestamp candle b :
  candle_dict int_ float_ candle = Some b -> timestamp b mod 1000 = 0.
Proof.
  unfold candle_dict. intros Hb. simplify_option_eq. cbn.
  apply Z.mod_mul. discriminate.
Qed.

(** The part of [get_historical_data] after the request. *)
Lemma historical_data_rows symbol timeframe limit self w :
  let out := get_historical_data int_ float_ symbol timeframe limit self w in
  out.1.1 = [] \/
  exists candles : list json,
    mapM (candle_dict int_ float_) (BTCCharlieStrategy.iloc_from (- limit) candles)
      = Some out.1.1.
Proof.
  unfold get_historical_data.
  destruct (_convert_symbol_to_kraken symbol) as [pair|e]; [| now left].
  destruct (_make_request _ _ _ _ _ _) as [[[data|e] self'] w']; [| now left].
  destruct (negb (json_truthy data)); [now left |].
  destruct data as [| | | |[|[key [| | |candles|]] others]]; try (now left).
  destruct (mapM _ _) as [rows|] eqn:E; [| now left].
  right. exists candles. exact E.
Qed.

(** X20. [get_historical_data] never raises and sends between one and
    four public requests, none when the symbol is not a pair; it leaves
    the nonce manager alone; every timestamp it returns is a whole number
    of seconds expressed in milliseconds; and with a positive limit it
    returns at most [limit] candles. *)
Theorem history_is_bounded (symbol timeframe : string) (limit : Z) (self : t) (w : world) :
  0 < limit ->
  let out := get_historical_data int_ float_ symbol timeframe limit self w in
  (length out.1.1 <= Z.to_nat limit)%nat /\
  Forall (fun b => timestamp b mod 1000 = 0) out.1.1 /\
  nonce_manager out.1.2 = nonce_manager self /\
  match _convert_symbol_to_kraken symbol with
  | Raise _ => out = ([], self, w)
  | Return _ => (requests w < requests out.2 <= requests w + 4)%nat
  end.
Proof.
  intros Hlimit out.
  pose proof (historical_data_rows symbol timeframe limit self w) as Hrows.
  cbn zeta in Hrows. fold out in Hrows.
  split; [| split].
  - destruct Hrows as [-> | (candles & Hm)]; [cbn; lia |].
    apply length_mapM in Hm. rewrite <- Hm.
    unfold BTCCharlieStrategy.iloc_from.
    destruct (Z.ltb_spec (- limit) 0); [| lia].
    rewrite length_drop. lia.
  - destruct Hrows as [-> | (candles & Hm)]; [constructor |].
    apply mapM_Some in Hm. apply Forall_forall. intros b Hb.
    apply list_elem_of_lookup in Hb as [i Hi].
    destruct (Forall2_lookup_r _ _ _ _ _ Hm Hi) as (candle & _ & Hc).
    exact (candle_dict_timestamp candle b Hc).
  - subst out. unfold get_historical_data.
    destruct (_convert_symbol_to_kraken symbol) as [pair|e]; [| split; reflexivity].
    set (params := <["interval" := _]> _).
    pose proof (make_request_effect "GET" "/0/public/OHLC" 3 0%nat (Some params)
                  self w eq_refl) as H.
    cbn zeta in H. destruct H as (H1 & _ & _ & H4 & _).
    cbn [String.eqb Ascii.eqb Bool.eqb] in H4.
    destruct (_make_request "GET" "/0/public/OHLC" (Some params) 0 self w)
      as [[[data|e] self'] w']; cbn [fst snd] in *; [| split; [exact H4 | lia]].
    destruct (negb (json_truthy data)); [split; [exact H4 | cbn [fst snd]; lia] |].
    destruct data as [| | | |[|[key [| | |candles|]] others]];
      try (split; [exact H4 | cbn [fst snd]; lia]).
    destruct (mapM _ _); split; try exact H4; cbn [fst snd]; lia.
Qed.

(** X21. When the reply to the OHLC request is a success whose first
    value is a list of candles and the candles asked for convert,
    [get_historical_data] returns the converted candles of the slice
    [candles[-limit:]], in order: the last [limit] candles for a positive
    limit, and all of them for a limit of zero. *)
Theorem history_returns_slice (symbol timeframe : string) (limit : Z) (self : t)
    (w : world) (kraken_pair key : string) (candles : list json)
    (others : list (string * json)) (bars : list bar) :
  _convert_symbol_to_kraken symbol = Return kraken_pair ->
  read_response (http w (requests w)) = Success (JDict ((key, JList candles) :: others)) ->
  mapM (candle_dict int_ float_) (BTCCharlieStrategy.iloc_from (- limit) candles)
    = Some bars ->
  (get_historical_data int_ float_ symbol timeframe limit self w).1.1 = bars /\
  (limit = 0 -> length bars = length candles) /\
  (0 < limit -> length bars = Nat.min (length candles) (Z.to_nat limit)).
Proof.
  intros Hpair Hok Hbars. unfold get_historical_data. rewrite Hpair.
  set (params := <["interval" := _]> _).
  destruct (retry_recovery "GET" "/0/public/OHLC" 0 (Some params) 0%nat self w
              (JDict ((key, JList candles) :: others)))
    as (self' & w' & Hcall & _).
  { lia. }
  { intros j Hj. lia. }
  { now rewrite Nat.add_0_r. }
  rewrite Hcall. cbn [json_truthy negb]. rewrite Hbars.
  split; [reflexivity |].
  apply length_mapM in Hbars. rewrite <- Hbars.
  unfold BTCCharlieStrategy.iloc_from.
  split.
  - intros ->. cbn. reflexivity.
  - intros Hpos. destruct (Z.ltb_spec (- limit) 0); [| lia].
    rewrite length_drop. lia.
Qed.

End History.

Section HistoryExample.
Import KrakenExchange ExchangeStatements ClientStatements KrakenOrders.

Lemma history_is_bounded_witness :
  let candle (t : Z) :=
    JList [JNum (inject_Z t); JNum 1; JNum 2; JNum 3; JNum 4; JNum 5; JNum 6; JNum 7] in
  let w := always (result_response
                     (JDict [("XXBTZUSD", JList [candle 60; candle 120; candle 180]);
                             ("last", JNum 120)])) in
  let out := get_historical_data integer_only number_only "BTC/USD" "1h" 2 __init__ w in
  0 < 2 /\
  (length out.1.1 <= 2)%nat /\
  map timestamp out.1.1 = [120000; 180000] /\
  map volume out.1.1 = [Fin 6; Fin 6].
Proof.
  intros candle w out. split; [lia |].
  destruct (history_is_bounded integer_only number_only "BTC/USD" "1h" 2 __init__ w
              ltac:(lia)) as (H1 & _).
  split; [exact H1 |]. split; vm_compute; reflexivity.
Defined.

Lemma history_returns_slice_witness :
  let candle (t : Z) :=
    JList [JNum (inject_Z t); JNum 1; JNum 2; JNum 3; JNum 4; JNum 5; JNum 6; JNum 7] in
  let candles := [candle 60; candle 120; candle 180] in
  let w := always (result_response (JDict [("XXBTZUSD", JList candles)])) in
  exists bars,
    (get_historical_data integer_only number_only "BTC/USD" "1h" 0 __init__ w).1.1 = bars /\
    length bars = 3%nat.
Proof.
  intros candle candles w.
  assert (Hpair : _convert_symbol_to_kraken "BTC/USD" = Return "XBTUSD") by reflexivity.
  assert (Hok : read_response (http w (requests w))
                = Success (JDict [("XXBTZUSD", JList candles)])) by reflexivity.
  destruct (mapM (candle_dict integer_only number_only)
                 (BTCCharlieStrategy.iloc_from (- 0) candles)) as [bars|] eqn:Hbars;
    [| vm_compute in Hbars; discriminate].
  exists bars.
  destruct (history_returns_slice integer_only number_only "BTC/USD" "1h" 0 __init__ w
              "XBTUSD" "XXBTZUSD" candles [] bars Hpair Hok Hbars) as (H1 & H2 & _).
  split; [exact H1 | exact (H2 eq_refl)].
Defined.

End HistoryExample.

(** ** The configuration file *)

Section Configuration.
Import ConfigManager.
Variable V : Type.

Lemma update_trading_config_lookup (config_data : list (string * V)) :
  forall (config : gmap string V),
  Forall (fun item => reserved item.1 = false) config_data ->
  exists loaded,
    _update_trading_config V config_data config = Some loaded /\
    forall key,
      loaded !! key =
        match config !! key with
        | None => None
        | Some v => Some (default v (last_setting key config_data))
        end.
Proof.
  unfold _update_trading_config.
  induction config_data as [|[k v] rest IH]; intros config Hplain.
  - exists config. split; [reflexivity |].
    intros key. cbn. destruct (config !! key); reflexivity.
  - apply Forall_cons in Hplain as [Hk Hrest]. cbn [fst snd] in Hk.
    cbn [foldl fst snd]. rewrite Hk.
    assert (Hlast : forall key,
              last_setting key ((k, v) :: rest) =
                match last_setting key rest with
                | Some x => Some x
                | None => if String.eqb k key then Some v else None
                end).
    { intros key. unfold last_setting. cbn [rev]. rewrite find_app.
      destruct (List.find _ (rev rest)); [reflexivity |].
      cbn. destruct (String.eqb k key); reflexivity. }
    destruct (config !! k) as [old|] eqn:Ec.
    + rewrite bool_decide_eq_true_2 by eauto.
      destruct (IH (<[k := v]> config) Hrest) as (loaded & Hloaded & Hlookup).
      exists loaded. split; [exact Hloaded |].
      intros key. rewrite Hlookup, Hlast.
      destruct (String.eqb_spec k key) as [-> | Hne].
      * rewrite lookup_insert_eq, Ec.
        destruct (last_setting key rest); reflexivity.
      * rewrite lookup_insert_ne by exact Hne.
        destruct (config !! key); destruct (last_setting key rest); reflexivity.
    + rewrite bool_decide_eq_false_2 by (intros [? ?]; discriminate).
      destruct (IH config Hrest) as (loaded & Hloaded & Hlookup).
      exists loaded. split; [exact Hloaded |].
      intros key. rewrite Hlookup, Hlast.
      destruct (String.eqb_spec k key) as [-> | Hne].
      * rewrite Ec. reflexivity.
      * destruct (config !! key); destruct (last_setting key rest); reflexivity.
Qed.

Lemma TradingConfig_lookup (initial : string -> V) (key : string) :
  TradingConfig V initial !! key =
    if bool_decide (key ∈ TradingConfig_fields) then Some (initial key) else None.
Proof.
  unfold TradingConfig. generalize TradingConfig_fields. intros fields.
  induction fields as [|f fields IH].
  - cbn. rewrite bool_decide_eq_false_2; [apply lookup_empty | apply not_elem_of_nil].
  - cbn [map]. rewrite list_to_map_cons. destruct (decide (f = key)) as [-> | Hne].
    + rewrite lookup_insert_eq, bool_decide_eq_true_2; [reflexivity | apply list_elem_of_here].
    + rewrite lookup_insert_ne by exact Hne. rewrite IH.
      destruct (decide (key ∈ fields)) as [Hin | Hout].
      * rewrite !bool_decide_eq_true_2; [reflexivity | now apply list_elem_of_further | exact Hin].
      * rewrite !bool_decide_eq_false_2; [reflexivity | | exact Hout].
        intros [? | ?]%elem_of_cons; congruence.
Qed.

Lemma optional_settings_are_no_fields (optional : string) :
  optional ∈ optional_settings -> optional ∉ TradingConfig_fields.
Proof.
  intros Hopt Hfield.
  assert (Hdisjoint : forallb (fun o => forallb (fun f => negb (String.eqb o f))
                                                TradingConfig_fields)
                              optional_settings = true) by (vm_compute; reflexivity).
  rewrite forallb_forall in Hdisjoint.
  apply list_elem_of_In in Hopt. specialize (Hdisjoint optional Hopt).
  rewrite forallb_forall in Hdisjoint.
  apply list_elem_of_In in Hfield. specialize (Hdisjoint optional Hfield).
  now rewrite String.eqb_refl in Hdisjoint.
Qed.

(** X26. Loading a configuration file in which no key begins with two
    underscores never adds a setting: after [_update_trading_config] on a
    fresh [TradingConfig] the attributes are again exactly its fields, each
    holding the last value the file gives for it, or its default when the
    file has none; in particular none of the settings that the bot and the
    strategy read with [getattr] and a default (minimum and maximum order
    value, dead man's switch, data points, fees, health check, database,
    statistics interval) is set by such a file. *)
Theorem config_file_cannot_add_settings (initial : string -> V)
    (config_data : list (string * V)) (key : string) :
  Forall (fun item => reserved item.1 = false) config_data ->
  exists loaded,
    _update_trading_config V config_data (TradingConfig V initial) = Some loaded /\
    loaded !! key =
      (if bool_decide (key ∈ TradingConfig_fields)
       then Some (default (initial key) (last_setting key config_data))
       else None) /\
    Forall (fun optional => loaded !! optional = None) optional_settings.
Proof.
  intros Hplain.
  destruct (update_trading_config_lookup config_data (TradingConfig V initial) Hplain)
    as (loaded & Hloaded & Hlookup).
  exists loaded. split; [exact Hloaded |]. split.
  - rewrite Hlookup, TradingConfig_lookup.
    destruct (bool_decide _); reflexivity.
  - apply Forall_forall. intros optional Hopt.
    rewrite Hlookup, TradingConfig_lookup.
    rewrite bool_decide_eq_false_2; [reflexivity |].
    now apply optional_settings_are_no_fields.
Qed.

End Configuration.

Section ConfigurationExample.
Import ConfigManager.

(** A file that sets the position size and names a minimum order value:
    the first is taken, the second is dropped. *)
Lemma config_file_cannot_add_settings_witness :
  let config_data := [("max_position_size", 5); ("min_order_size_usd", 50)] in
  Forall (fun item => reserved item.1 = false) config_data /\
  exists loaded,
    _update_trading_config Z config_data (TradingConfig Z (fun _ => 0)) = Some loaded /\
    loaded !! "max_position_size" = Some 5 /\
    loaded !! "min_order_size_usd" = None.
Proof.
  intros config_data.
  assert (Hplain : Forall (fun item : string * Z => reserved item.1 = false) config_data).
  { repeat constructor. }
  split; [exact Hplain |].
  destruct (config_file_cannot_add_settings Z (fun _ => 0) config_data
              "max_position_size" Hplain) as (loaded & Hloaded & Hkey & Hoptional).
  exists loaded. split; [exact Hloaded |]. split.
  - rewrite Hkey. reflexivity.
  - rewrite Forall_forall in Hoptional. apply Hoptional.
    unfold optional_settings. rewrite !elem_of_cons. tauto.
Defined.


End ConfigurationExample.

Section Validation.
Import ConfigManager.

(** X29. A configuration that [validate_config] accepts names at least one
    exchange and one trading pair, has a position fraction that is neither
    at most 0 nor above 1, and a timeframe for which the interval table of
    [get_historical_data] has an entry, so that the default interval is
    never used; a fraction that is not a number passes the range test. *)
Theorem validated_config_is_usable (exchange_configs : list string)
    (max_position_size : pyfloat) (trading_pairs : list string) (timeframe : string) :
  validate_config exchange_configs max_position_size trading_pairs timeframe = Return tt ->
  exchange_configs <> [] /\
  trading_pairs <> [] /\
  (exists minutes, KrakenOrders.interval_map !! timeframe = Some minutes /\ 0 < minutes) /\
  match max_position_size with
  | Fin q => (0 < q <= 1)%Q
  | NaN => True
  | _ => False
  end.
Proof.
  unfold validate_config. intros Hok.
  destruct exchange_configs as [|e es]; [discriminate |].
  destruct (fle max_position_size (Fin 0) || fgt max_position_size (Fin 1)) eqn:Hrange;
    [discriminate |].
  destruct trading_pairs as [|p ps]; [discriminate |].
  destruct (bool_decide (timeframe ∈ allowed_timeframes)) eqn:Htf; [| discriminate].
  apply bool_decide_eq_true_1 in Htf.
  split; [discriminate |]. split; [discriminate |]. split.
  - unfold allowed_timeframes in Htf.
    repeat (apply elem_of_cons in Htf as [-> | Htf];
            [eexists; split; [vm_compute; reflexivity | lia] |]).
    inversion Htf.
  - apply orb_false_iff in Hrange as [Hle Hgt].
    destruct max_position_size as [q| | |]; try exact I; try discriminate.
    unfold fgt, flt, fle, fcompare in *.
    destruct (Qcompare_spec q 0); try discriminate.
    destruct (Qcompare_spec 1 q); try discriminate; lra.
Qed.

Lemma validated_config_is_usable_witness :
  validate_config ["kraken"] (Fin (2 # 100)) ["BTC/USDT"; "ETH/USDT"] "1h" = Return tt /\
  exists minutes, KrakenOrders.interval_map !! "1h" = Some minutes /\ 0 < minutes.
Proof.
  assert (Hok : validate_config ["kraken"] (Fin (2 # 100)) ["BTC/USDT"; "ETH/USDT"] "1h"
                = Return tt) by (vm_compute; reflexivity).
  split; [exact Hok |].
  destruct (validated_config_is_usable _ _ _ _ Hok) as (_ & _ & Hminutes & _).
  exact Hminutes.
Defined.

End Validation.

(** ** The bot: orders that are never placed, positions that are closed *)

Section BotOrders.
Import TradingBot LoopStatements.
Context {E : Type} `{BaseExchange E}.

Lemma flt_zero_product (p : Q) (m : pyfloat) :
  flt (Fin 0) m = true -> flt (fmul (Fin 0) (Fin p)) m = true.
Proof.
  unfold flt. destruct m as [q| | |]; cbn; try discriminate; try reflexivity.
  destruct (Qcompare_spec 0 q) as [E0 | E0 | E0]; try discriminate. intros _.
  destruct (Qcompare_spec (Qred (0 * p)) q) as [E1 | E1 | E1]; try reflexivity;
    rewrite Qred_correct in E1; lra.
Qed.

(** One attempt of [_execute_signal] at a finite price. *)
Lemma execute_signal_no_order (sig : StrategySignal) (self : t E) (w : env) (p : Q) :
  price sig = Fin p ->
  flt (Fin 0) (default (Fin 10) (min_order_size_usd (cfg self))) = true ->
  (_execute_signal sig self w).1.2 = self /\
  calls (_execute_signal sig self w).2 = calls w.
Proof.
  intros Hp Hmin. unfold _execute_signal.
  destruct (one_position_per_pair (cfg self) && _); [split; reflexivity |].
  rewrite position_size_outcome.
  destruct (fle (account_balance self) (Fin 0)); [| split; reflexivity].
  rewrite Hp, (flt_zero_product p _ Hmin). split; reflexivity.
Qed.

(** X22. [_execute_signal] never reaches the exchange: for a signal at a
    finite price and a positive minimum order value (the default 10
    included), whatever the balance, the call changes nothing in the bot,
    tracks no position and places no order; it ends with the size
    exception, or returns after the position or the size warning. *)
Theorem execute_signal_never_trades (sig : StrategySignal) (self : t E) (w : env) (p : Q) :
  price sig = Fin p ->
  flt (Fin 0) (default (Fin 10) (min_order_size_usd (cfg self))) = true ->
  (_execute_signal sig self w).1.2 = self /\
  calls (_execute_signal sig self w).2 = calls w /\
  ((_execute_signal sig self w).1.1
     = Raise (TypeError "argument of type 'float' is not iterable") \/
   (_execute_signal sig self w).1.1 = Return tt /\
   exists entry, logs (_execute_signal sig self w).2 = logs w ++ [entry] /\
                 (entry = Info "Skipping signal - position already exists" \/
                  entry = Warning "Position size too small")).
Proof.
  intros Hp Hmin.
  destruct (execute_signal_no_order sig self w p Hp Hmin) as [H1 H2].
  split; [exact H1 |]. split; [exact H2 |].
  unfold _execute_signal.
  destruct (one_position_per_pair (cfg self) && _).
  { right. split; [reflexivity |]. eexists. split; [reflexivity |]. now left. }
  rewrite position_size_outcome.
  destruct (fle (account_balance self) (Fin 0)); [| now left].
  rewrite Hp, (flt_zero_product p _ Hmin).
  right. split; [reflexivity |]. eexists. split; [reflexivity |]. now right.
Qed.

Lemma process_symbol_no_order config strategy symbol (self : t E) (w : env) :
  flt (Fin 0) (default (Fin 10) (min_order_size_usd (cfg self))) = true ->
  (SignalLoop.process_symbol config strategy symbol self w).1 = self /\
  calls (SignalLoop.process_symbol config strategy symbol self w).2 = calls w.
Proof.
  intros Hmin. unfold SignalLoop.process_symbol.
  destruct (StrategySignals.generate_signal config symbol strategy) as [[sig|]|e] eqn:Eg;
    [| destruct (StrategySignals.check_stoch_rsi_alerts _ _); split; reflexivity
     | split; reflexivity].
  assert (Hprice : exists p, price sig = Fin p).
  { unfold StrategySignals.generate_signal in Eg.
    destruct (BTCCharlieStrategy.market_data strategy !! symbol); [| discriminate].
    destruct (_ <? _)%nat; [discriminate |].
    destruct (StrategySignals.iloc_last _) as [latest|]; [| discriminate].
    destruct (BTCCharlieStrategy.buysignal latest);
      [cbn in Eg; injection Eg as <-; cbn; eauto |].
    destruct (BTCCharlieStrategy.sellsignal latest); [| discriminate].
    cbn in Eg. injection Eg as <-. cbn. eauto. }
  destruct Hprice as [p Hp].
  destruct (execute_signal_no_order sig self w p Hp Hmin) as [H1 H2].
  destruct (signal sig).
  1, 2: destruct (_execute_signal sig self w) as [[o self'] w']; cbn [fst snd] in *;
    subst self'; destruct o;
    [destruct (StrategySignals.check_stoch_rsi_alerts _ _) |]; split;
    try reflexivity; exact H2.
  destruct (StrategySignals.check_stoch_rsi_alerts _ _); split; reflexivity.
Qed.

(** X23. [_process_signals] never trades: with a positive minimum order
    value, whatever the strategy holds and whatever the balance, a pass
    over the trading pairs leaves the bot as it was (no position tracked,
    no trade counted) and makes no call on the exchange. *)
Theorem process_signals_never_trades (config : StrategySignals.risk_parameters)
    (strategy : BTCCharlieStrategy.t) (trading_pairs : list string)
    (self : t E) (w : env) :
  flt (Fin 0) (default (Fin 10) (min_order_size_usd (cfg self))) = true ->
  (SignalLoop._process_signals config strategy trading_pairs self w).1 = self /\
  calls (SignalLoop._process_signals config strategy trading_pairs self w).2 = calls w.
Proof.
  intros Hmin. unfold SignalLoop._process_signals.
  revert w. induction trading_pairs as [|symbol rest IH] using rev_ind; intros w.
  - split; reflexivity.
  - rewrite foldl_snoc. destruct (IH w) as [I1 I2].
    destruct (foldl _ (self, w) rest) as [self1 w1]. cbn [fst snd] in *. subst self1.
    destruct (process_symbol_no_order config strategy symbol self w1 Hmin) as [P1 P2].
    split; [exact P1 | congruence].
Qed.

Lemma close_positions_calls (positions : list Position) : forall (ex : E) (w : env),
  calls (close_positions positions ex w).2 = calls w ++ map closing_order positions /\
  clock (close_positions positions ex w).2 = clock w /\
  ticks (close_positions positions ex w).2 = ticks w.
Proof.
  induction positions as [|position rest IH]; intros ex w.
  - cbn. now rewrite app_nil_r.
  - cbn [close_positions].
    destruct (place_order _ _ _ _ _ _ ex) as [order_result ex'].
    destruct (IH ex' (if success order_result
                      then logged (Info "Emergency closed position")
                             (called (closing_order position) w)
                      else logged (Error "Failed to close position")
                             (called (closing_order position) w)))
      as (I1 & I2 & I3).
    unfold closing_order in *. rewrite I1, I2, I3.
    destruct (success order_result); cbn; rewrite <- app_assoc; auto.
Qed.

Lemma emergency_close_calls (self : t E) (w : env) :
  let out := _emergency_close_all_positions self w in
  calls out.2 =
    calls w ++
    GetPositions ::
      match (get_positions (exchange self)).1 with
      | Return positions => map closing_order positions
      | Raise _ => []
      end /\
  active_positions out.1 = active_positions self /\
  emergency_stop out.1 = emergency_stop self /\
  account_balance out.1 = account_balance self /\
  initial_balance out.1 = initial_balance self /\
  cfg out.1 = cfg self.
Proof.
  unfold _emergency_close_all_positions.
  destruct (get_positions (exchange self)) as [[positions|e] ex]; cbn [fst].
  - pose proof (close_positions_calls positions ex
                  (called GetPositions
                     (logged (Warning "Emergency closing all positions") w)))
      as (C1 & _).
    destruct (close_positions positions ex _) as [ex' w']. cbn [fst snd] in *.
    rewrite C1. cbn. rewrite <- app_assoc. repeat split.
  - cbn. repeat split.
Qed.

(** X24. [_emergency_close_all_positions] asks the exchange for its
    positions once and then places, in their order, one market order per
    position for the size of the position: a sell for a long position, a
    buy for any other; when the positions cannot be read, no order is
    placed. The positions the bot tracks and its emergency flag are left
    as they were. *)
Theorem emergency_close_orders (self : t E) (w : env) :
  let out := _emergency_close_all_positions self w in
  calls out.2 =
    calls w ++
    GetPositions ::
      match (get_positions (exchange self)).1 with
      | Return positions => map closing_order positions
      | Raise _ => []
      end /\
  active_positions out.1 = active_positions self /\
  emergency_stop out.1 = emergency_stop self.
Proof.
  destruct (emergency_close_calls self w) as (H1 & H2 & H3 & _).
  repeat split; assumption.
Qed.

Lemma liquidations_app (a b : list call) :
  liquidations (a ++ b) = (liquidations a + liquidations b)%nat.
Proof. unfold liquidations. now rewrite List.filter_app, length_app. Qed.

Lemma liquidations_closing (positions : list Position) :
  liquidations (map closing_order positions) = 0%nat.
Proof. induction positions as [|p rest IH]; [reflexivity | exact IH]. Qed.

Lemma emergency_close_liquidations (self : t E) (w : env) :
  liquidations (calls (_emergency_close_all_positions self w).2)
  = S (liquidations (calls w)).
Proof.
  destruct (emergency_close_calls self w) as (H1 & _). rewrite H1.
  rewrite liquidations_app.
  assert (Hget : forall l, liquidations (GetPositions :: l) = S (liquidations l))
    by reflexivity.
  rewrite Hget.
  destruct (get_positions (exchange self)).1 as [positions|e].
  - rewrite liquidations_closing. lia.
  - cbn. lia.
Qed.

End BotOrders.

(** ** The bot: risk limits *)

Section RiskLimits.
Import TradingBot LoopStatements RiskManagement.
Context {E : Type} `{BaseExchange E}.

Lemma fgt_Fin (a b : Q) : fgt (Fin a) (Fin b) = if Qlt_le_dec b a then true else false.
Proof.
  unfold fgt, flt, fcompare.
  destruct (Qlt_le_dec b a), (Qcompare_spec b a); try reflexivity; lra.
Qed.

(** X25. [_check_risk_limits] with a positive initial balance and finite
    limits records the drawdown (initial minus current balance, over the
    initial balance) and liquidates once for each limit the drawdown
    exceeds: the daily loss is the drawdown with its sign changed, so a
    drawdown above both limits asks for the positions and closes them
    twice in the same check. The emergency flag is set exactly when a
    limit is exceeded (or was set before), the recorded maximum drawdown
    never decreases, and the tracked positions are not changed. *)
Theorem risk_check_liquidates_per_limit (limits : risk_limits) (stats : BotStats)
    (self : t E) (w : env) (initial balance limit_dd limit_dl recorded : Q) :
  initial_balance self = Fin initial ->
  account_balance self = Fin balance ->
  config_max_drawdown limits = Fin limit_dd ->
  config_max_daily_loss limits = Fin limit_dl ->
  max_drawdown stats = Fin recorded ->
  (0 < initial)%Q ->
  let out := _check_risk_limits limits stats self w in
  let drawdown := ((initial - balance) / initial)%Q in
  liquidations (calls out.2) =
    (liquidations (calls w)
     + (if Qlt_le_dec limit_dd drawdown then 1 else 0)
     + (if Qlt_le_dec limit_dl drawdown then 1 else 0))%nat /\
  emergency_stop out.1.2 =
    (if Qlt_le_dec limit_dl drawdown then true
     else if Qlt_le_dec limit_dd drawdown then true
     else emergency_stop self) /\
  active_positions out.1.2 = active_positions self /\
  (exists d, current_drawdown out.1.1 = Fin d /\ (d == drawdown)%Q) /\
  (exists m, max_drawdown out.1.1 = Fin m /\ (recorded <= m)%Q /\ (drawdown <= m)%Q).
Proof.
  intros Hi Hb Hdd Hdl Hrec Hpos out drawdown. subst out.
  unfold _check_risk_limits. rewrite Hi.
  assert (Hle : fle (Fin initial) (Fin 0) = false).
  { unfold fle, fcompare. destruct (Qcompare_spec initial 0); try reflexivity; lra. }
  rewrite Hle.
  assert (Hz : Qeq_bool initial 0 = false) by (apply Qeq_bool_pos_false; exact Hpos).
  assert (Hd : fdiv (fsub (Fin initial) (account_balance self)) (Fin initial)
               = Fin (Qred (Qred (initial + Qred (- balance)) / initial))).
  { rewrite Hb. cbn. now rewrite Hz. }
  rewrite Hd. set (d := Qred (Qred (initial + Qred (- balance)) / initial)).
  assert (Hdq : (d == drawdown)%Q).
  { unfold d, drawdown. repeat rewrite Qred_correct.
    unfold Qminus. reflexivity. }
  rewrite Hdd, Hdl, Hrec. cbn [max_drawdown current_drawdown].
  rewrite !fgt_Fin.
  assert (Hstats :
    exists m, max_drawdown
                (if if Qlt_le_dec recorded d then true else false
                 then {| current_drawdown := Fin d; max_drawdown := Fin d |}
                 else {| current_drawdown := Fin d; max_drawdown := Fin recorded |})
              = Fin m /\ (recorded <= m)%Q /\ (drawdown <= m)%Q).
  { destruct (Qlt_le_dec recorded d); cbn; eexists; (split; [reflexivity |]); lra. }
  assert (Hcur :
    current_drawdown
      (if if Qlt_le_dec recorded d then true else false
       then {| current_drawdown := Fin d; max_drawdown := Fin d |}
       else {| current_drawdown := Fin d; max_drawdown := Fin recorded |})
    = Fin d).
  { destruct (Qlt_le_dec recorded d); reflexivity. }
  set (first :=
         if if Qlt_le_dec limit_dd d then true else false
         then _emergency_close_all_positions (set_emergency_stop true self)
                (logged (Critical "Maximum drawdown exceeded") w)
         else (self, w)).
  assert (Hfirst :
    liquidations (calls first.2)
      = (liquidations (calls w) + (if Qlt_le_dec limit_dd drawdown then 1 else 0))%nat /\
    emergency_stop first.1
      = (if Qlt_le_dec limit_dd drawdown then true else emergency_stop self) /\
    active_positions first.1 = active_positions self /\
    account_balance first.1 = Fin balance /\
    initial_balance first.1 = Fin initial).
  { subst first.
    destruct (Qlt_le_dec limit_dd d), (Qlt_le_dec limit_dd drawdown); try lra.
    - rewrite emergency_close_liquidations.
      destruct (emergency_close_calls (set_emergency_stop true self)
                  (logged (Critical "Maximum drawdown exceeded") w))
        as (_ & A1 & A2 & A3 & A4 & _).
      cbn zeta in *. rewrite A1, A2, A3, A4.
      cbn [logged calls set_emergency_stop emergency_stop active_positions
           account_balance initial_balance].
      repeat split; try assumption. lia.
    - cbn. repeat split; try assumption. lia. }
  destruct first as [self1 w1]. cbn [fst snd] in Hfirst.
  destruct Hfirst as (F1 & F2 & F3 & F4 & F5).
  rewrite F4, F5.
  assert (Hloss : flt (fdiv (fsub (Fin balance) (Fin initial)) (Fin initial))
                      (fneg (Fin limit_dl))
                  = if Qlt_le_dec limit_dl drawdown then true else false).
  { cbn. rewrite Hz. unfold flt, fcompare.
    destruct (Qlt_le_dec limit_dl drawdown);
      destruct (Qcompare_spec (Qred (Qred (balance + Qred (- initial)) / initial))
                              (Qred (- limit_dl))) as [C | C | C];
      try reflexivity; exfalso;
      repeat rewrite Qred_correct in C;
      unfold drawdown in *;
      assert (Hx : ((balance + - initial) / initial == - ((initial - balance) / initial))%Q)
        by (field; lra);
      rewrite Hx in C; lra. }
  rewrite Hloss.
  destruct (Qlt_le_dec limit_dl drawdown).
  - destruct (emergency_close_calls (set_emergency_stop true self1)
                (logged (Critical "Daily loss limit exceeded") w1))
      as (_ & A1 & A2 & _).
    pose proof (emergency_close_liquidations (set_emergency_stop true self1)
                  (logged (Critical "Daily loss limit exceeded") w1)) as A0.
    destruct (_emergency_close_all_positions (set_emergency_stop true self1) _)
      as [self2 w2].
    cbn [fst snd] in *.
    split; [rewrite A0; cbn [logged calls]; lia |].
    split; [rewrite A2; reflexivity |].
    split; [rewrite A1; exact F3 |].
    split; [exists d; split; [exact Hcur | exact Hdq] | exact Hstats].
  - cbn [fst snd].
    split; [lia |].
    split; [exact F2 |].
    split; [exact F3 |].
    split; [exists d; split; [exact Hcur | exact Hdq] | exact Hstats].
Qed.

End RiskLimits.

Section BotExamples.
Import TradingBot BotStatements LoopStatements RiskManagement.

Lemma execute_signal_never_trades_witness :
  let self := __init__ default_config tt 0 in
  let sig := buy_signal_at "BTC/USDT" 50000 in
  flt (Fin 0) (default (Fin 10) (min_order_size_usd (cfg self))) = true /\
  (_execute_signal sig self (stopped_clock 0)).1.2 = self /\
  calls (_execute_signal sig self (stopped_clock 0)).2 = [] /\
  logs (_execute_signal sig self (stopped_clock 0)).2 = [Warning "Position size too small"].
Proof.
  intros self sig. split; [reflexivity |].
  destruct (execute_signal_never_trades sig self (stopped_clock 0) 50000 eq_refl eq_refl)
    as (H1 & H2 & _).
  split; [exact H1 |]. split; [exact H2 | reflexivity].
Defined.

Lemma process_signals_never_trades_witness :
  let self := with_balance (Fin 1000) (__init__ default_config tt 0) in
  let strategy :=
    (BTCCharlieStrategy.update_market_data "BTC/USD" crossing_market
       (BTCCharlieStrategy.__init__ None)).2 in
  let out := SignalLoop._process_signals default_risk strategy ["BTC/USD"; "ETH/USD"]
               self (stopped_clock 0) in
  flt (Fin 0) (default (Fin 10) (min_order_size_usd (cfg self))) = true /\
  (exists sig, StrategySignals.generate_signal default_risk "BTC/USD" strategy
               = Return (Some sig) /\ signal sig = BUY) /\
  out.1 = self /\ calls out.2 = [] /\
  logs out.2 = [Error "Error processing signal"].
Proof.
  intros self strategy out. split; [reflexivity |].
  split.
  { let v := eval vm_compute in
      (StrategySignals.generate_signal default_risk "BTC/USD" strategy) in
    match v with Return (Some ?sg) => exists sg end.
    split; [vm_compute; reflexivity | reflexivity]. }
  destruct (process_signals_never_trades default_risk strategy ["BTC/USD"; "ETH/USD"]
              self (stopped_clock 0) eq_refl) as (H1 & H2).
  split; [exact H1 |]. split; [exact H2 |].
  vm_compute. reflexivity.
Defined.

Lemma risk_check_liquidates_per_limit_witness :
  let self := with_balances (Fin 1000) (Fin 850) (__init__ default_config tt 0) in
  let out := _check_risk_limits default_limits fresh_stats self (stopped_clock 0) in
  (0 < 1000)%Q /\
  liquidations (calls out.2) = 2%nat /\
  emergency_stop out.1.2 = true /\
  calls out.2 =
    [GetPositions; PlaceOrder "XBTUSD" "sell" (Fin 1) "market";
     GetPositions; PlaceOrder "XBTUSD" "sell" (Fin 1) "market"].
Proof.
  intros self out. split; [reflexivity |].
  destruct (risk_check_liquidates_per_limit default_limits fresh_stats self
              (stopped_clock 0) 1000 850 (10 # 100) (3 # 100) 0
              eq_refl eq_refl eq_refl eq_refl eq_refl eq_refl)
    as (H1 & H2 & _).
  split; [exact H1 |]. split; [exact H2 |]. reflexivity.
Defined.

End BotExamples.

(** ** The bot: the dead man's switch in general *)

Section SwitchInGeneral.
Import TradingBot LoopStatements.
Context {E : Type} `{BaseExchange E}.

(** X27. At the head of a loop iteration the age of the previous heartbeat
    is never looked at: whatever time the last heartbeat carries, an
    enabled switch stays quiet as long as two successive clock readings
    are no further apart than the timeout; the emergency flag is left as
    it was, nothing is called on the exchange, and the heartbeat is the
    first of the two readings. *)
Theorem heartbeat_age_is_never_checked (self : t E) (w : env) (stale : Q) :
  dead_mans_switch_enabled self = true ->
  (clock w (S (ticks w)) - clock w (ticks w) <= dead_mans_switch_timeout self)%Q ->
  let out := _main_loop_head (set_last_heartbeat stale self) w in
  out = _main_loop_head self w /\
  emergency_stop out.1 = emergency_stop self /\
  calls out.2 = calls w /\
  last_heartbeat out.1 = clock w (ticks w).
Proof.
  intros Hen Hclock out.
  assert (Hsame : out = _main_loop_head self w) by reflexivity.
  split; [exact Hsame |]. rewrite Hsame.
  exact (switch_check_in_loop self w Hen Hclock).
Qed.

(** X28. [_check_dead_mans_switch] on its own, with the switch enabled:
    when the heartbeat is older than the timeout it sets the emergency
    flag, asks for the positions once and places the closing order of each
    one; at an age of exactly the timeout, or less, it does nothing but
    read the clock. *)
Theorem switch_trips_past_the_timeout (self : t E) (w : env) :
  dead_mans_switch_enabled self = true ->
  let age := (clock w (ticks w) - last_heartbeat self)%Q in
  let out := _check_dead_mans_switch self w in
  ((dead_mans_switch_timeout self < age)%Q ->
   emergency_stop out.1 = true /\
   calls out.2 =
     calls w ++
     GetPositions ::
       match (get_positions (exchange self)).1 with
       | Return positions => map closing_order positions
       | Raise _ => []
       end) /\
  ((age <= dead_mans_switch_timeout self)%Q -> out = (self, (time_ w).2)).
Proof.
  intros Hen age out. subst out age. unfold _check_dead_mans_switch. rewrite Hen.
  cbn [negb time_].
  destruct (Qcompare_spec (clock w (ticks w) - last_heartbeat self)
                          (dead_mans_switch_timeout self)) as [E1 | E1 | E1];
    split; intros Hage; try lra; try reflexivity.
  destruct (emergency_close_calls (set_emergency_stop true self)
              (logged (Critical "Dead man's switch triggered!")
                 {| clock := clock w; ticks := S (ticks w);
                    calls := calls w; logs := logs w |}))
    as (C1 & _ & C3 & _).
  cbn zeta in C1, C3. split; [exact C3 | exact C1].
Qed.

End SwitchInGeneral.

Section SwitchInGeneralExamples.
Import TradingBot BotStatements LoopStatements.

Lemma heartbeat_age_is_never_checked_witness :
  let self := with_switch 3600 (__init__ default_config tt 0) in
  let w := stopped_clock 10000 in
  let out := _main_loop_head (set_last_heartbeat (-1000000) self) w in
  dead_mans_switch_enabled self = true /\
  emergency_stop out.1 = false /\ calls out.2 = [] /\ last_heartbeat out.1 = 10000%Q.
Proof.
  intros self w out. split; [reflexivity |].
  destruct (heartbeat_age_is_never_checked self w (-1000000) eq_refl)
    as (_ & H1 & H2 & H3).
  { cbn. lra. }
  split; [exact H1 |]. split; [exact H2 | exact H3].
Defined.

Lemma switch_trips_past_the_timeout_witness :
  let self := with_switch 3600 (__init__ default_config tt 0) in
  let w := stopped_clock 10000 in
  let out := _check_dead_mans_switch self w in
  dead_mans_switch_enabled self = true /\
  emergency_stop out.1 = true /\
  calls out.2 = [GetPositions; PlaceOrder "XBTUSD" "sell" (Fin 1) "market"].
Proof.
  intros self w out. split; [reflexivity |].
  destruct (switch_trips_past_the_timeout self w eq_refl) as (H1 & _).
  apply H1. reflexivity.
Defined.

End SwitchInGeneralExamples.
